(** * Breakout trading bot: session state, risk gate, signals, scheduler
      and supervisor, embedded from the Python sources.

    Layout (one Rocq module per Python module):
    - [pydecimal], [pydatetime], [pyjson]: the values of the Python
      standard library the bot computes with;
    - [config]   : src/platinum_bot/config.py;
    - [state]    : src/platinum_bot/state.py, on values of the declared
      types; [unchecked]: its [load] on the values of any state file;
    - [risk_management] : src/platinum_bot/risk_management.py;
    - [strategy] : src/platinum_bot/strategy.py;
    - [api_client] : [place_bracket_order] of
      src/platinum_bot/api_client.py;
    - [main]     : src/main.py (daily reset, next-wake computation, exit and
      entry processing, the scanning decision and the supervisor loop).
    The properties follow the definitions. *)

From Stdlib Require Import ZArith QArith Qcanon List String Ascii Lia.
From stdpp Require Import base decidable option list gmap strings numbers pretty.

#[local] Set Warnings "-register-all".
#[local] Open Scope Z_scope.

(** ** Python values *)

Module pydecimal.

(** A finite [decimal.Decimal].  Every finite decimal is a rational number
    and Python compares decimals by value, so the canonical rationals carry
    the comparisons of the source exactly.  NaN and the infinities are not
    represented: [DataHandler.is_valid_candle] compares every price with 0
    before the bot uses it, which NaN does not survive. *)
Definition Decimal : Type := Qc.

Definition of_Z (z : Z) : Decimal := Q2Qc (inject_Z z).

(** [Decimal("a.b")] for a literal with [k] digits after the point. *)
Definition of_digits (z : Z) (k : nat) : Decimal :=
  Q2Qc (Qmake z (Pos.pow 10 (Pos.of_nat k))).

Definition gt (x y : Decimal) : bool := bool_decide (y < x)%Qc.
Definition lt (x y : Decimal) : bool := bool_decide (x < y)%Qc.
Definition ge (x y : Decimal) : bool := bool_decide (y <= x)%Qc.
Definition le (x y : Decimal) : bool := bool_decide (x <= y)%Qc.

(** Truth value of a decimal: zero is false. *)
Definition truthy (x : Decimal) : bool := negb (bool_decide (x = 0%Qc)).

(** *** Arithmetic in the default context

    The bot never changes the decimal context: 28 significant digits,
    [ROUND_HALF_EVEN], exponents from [Emin = -999999] to [Emax = 999999],
    with [Overflow], [DivisionByZero] and [InvalidOperation] trapped.  An
    operation computes the exact result and rounds it; comparisons are
    exact. *)

Definition prec : Z := 28.
Definition Emax : Z := 999999.

(** [Emin - prec + 1], the least exponent of a subnormal result. *)
Definition Etiny : Z := -1000026.

(** The number of decimal digits of a positive integer; [Z.log2 n] is
    enough fuel. *)
Fixpoint digits_from (fuel : nat) (n : Z) : Z :=
  match fuel with
  | O => 1
  | S fuel' => if n <? 10 then 1 else 1 + digits_from fuel' (n / 10)
  end.

Definition digits (n : Z) : Z := digits_from (Z.to_nat (Z.log2 n)) n.

(** The adjusted exponent of the positive rational [a / b]: the [d] with
    [10^d <= a / b < 10^(d+1)]. *)
Definition adjusted (a b : Z) : Z :=
  let d := digits a - digits b in
  if (if 0 <=? d then b * 10 ^ d <=? a else b <=? a * 10 ^ (- d)) then d
  else d - 1.

(** [num / den] rounded to an integer, ties to even. *)
Definition round_half_even (num den : Z) : Z :=
  let q := num / den in
  let r := num mod den in
  if 2 * r <? den then q
  else if den <? 2 * r then q + 1
  else if Z.even q then q else q + 1.

Definition pow10 (e : Z) : Q :=
  if 0 <=? e then inject_Z (10 ^ e) else Qmake 1 (Z.to_pos (10 ^ (- e))).

(** The exact result [x] rounded as the context prescribes: to [prec]
    significant digits, or to a multiple of [10^Etiny] when that is
    coarser; [None] is [decimal.Overflow], raised when the rounded result
    has an adjusted exponent above [Emax]. *)
Definition round_ctx (x : Qc) : option Decimal :=
  let a := Z.abs (Qnum x) in
  let b := Zpos (Qden x) in
  if a =? 0 then Some x
  else
    let e := Z.max (adjusted a b - (prec - 1)) Etiny in
    let n := if 0 <=? e then round_half_even a (b * 10 ^ e)
             else round_half_even (a * 10 ^ (- e)) b in
    if Emax <? digits n - 1 + e then None
    else Some (Q2Qc (inject_Z (Z.sgn (Qnum x) * n) * pow10 e)).

(** [x + y], [x - y], [x * y] and [x / y]; [None] when Python raises. *)
Definition add (x y : Decimal) : option Decimal := round_ctx (x + y).
Definition sub (x y : Decimal) : option Decimal := round_ctx (x - y).
Definition div (x y : Decimal) : option Decimal :=
  if bool_decide (y = 0%Qc) then None else round_ctx (x / y).


End pydecimal.

Module pydatetime.

(** A [datetime] of the bot's time zone, as its wall-clock fields.  The date
    is kept as the proleptic ordinal of [date.toordinal()] (day 1 is Monday
    0001-01-01).  The bot obtains every instant from [datetime.now(tz)] and
    derives the others with [replace] and [timedelta] additions, which keep
    the [tzinfo] object; Python then compares and subtracts them field-wise,
    which is what this record does. *)
Record datetime : Type := mk_datetime {
  ordinal : Z;
  hour : Z;
  minute : Z;
  second : Z;
  microsecond : Z
}.

Definition valid (t : datetime) : Prop :=
  0 <= hour t < 24 /\ 0 <= minute t < 60 /\ 0 <= second t < 60
  /\ 0 <= microsecond t < 1000000.

(** Microseconds since the start of ordinal day 0. *)
Definition to_us (t : datetime) : Z :=
  (((ordinal t * 24 + hour t) * 60 + minute t) * 60 + second t) * 1000000
  + microsecond t.

Definition ltb (a b : datetime) : bool := to_us a <? to_us b.
Definition leb (a b : datetime) : bool := to_us a <=? to_us b.

(** [date.weekday()]: Monday is 0, Sunday is 6. *)
Definition weekday (t : datetime) : Z := (ordinal t + 6) mod 7.

(** [t.replace(hour=h, minute=m, second=0, microsecond=0)]; [None] stands
    for the [ValueError] Python raises on a field out of range. *)
Definition replace_hm (t : datetime) (h m : Z) : option datetime :=
  if (0 <=? h) && (h <? 24) && (0 <=? m) && (m <? 60)
  then Some (mk_datetime (ordinal t) h m 0 0)
  else None.

(** [t + timedelta(days=n)]. *)
Definition add_days (t : datetime) (n : Z) : datetime :=
  mk_datetime (ordinal t + n) (hour t) (minute t) (second t) (microsecond t).

(** [(a - b)] as a [timedelta], in microseconds. *)
Definition sub_us (a b : datetime) : Z := to_us a - to_us b.

(** [timedelta.total_seconds()].  A timedelta is an exact count of
    microseconds; the float Python returns is the nearest double to this
    rational, and the model keeps the rational. *)
Definition total_seconds (us : Z) : Qc := Q2Qc (Qmake us 1000000).

End pydatetime.

Module pyjson.

(** A Python float read by [json.load]. *)
Inductive pyfloat : Type :=
| FFinite (q : Q)
| FInf (negative : bool)
| FNan.

(** The value [json.load] returns.  An object is the parsed [dict] in
    insertion order; its keys are pairwise distinct, as in any dict. *)
Inductive json : Type :=
| JNull
| JBool (b : bool)
| JInt (z : Z)
| JFloat (f : pyfloat)
| JStr (s : string)
| JArr (l : list json)
| JObj (l : list (string * json)).

(** [d.get(k)] on a dict. *)
Fixpoint dict_get (k : string) (l : list (string * json)) : option json :=
  match l with
  | [] => None
  | (k', v) :: l' => if bool_decide (k' = k) then Some v else dict_get k l'
  end.

(** Python truth value ([if v:]). *)
Definition truthy (v : json) : bool :=
  match v with
  | JNull => false
  | JBool b => b
  | JInt z => negb (z =? 0)
  | JFloat (FFinite q) => negb (Qeq_bool q 0)
  | JFloat _ => true
  | JStr s => negb (bool_decide (s = EmptyString))
  | JArr l => match l with [] => false | _ => true end
  | JObj l => match l with [] => false | _ => true end
  end.

(** [v[k]] with a string key: only a dict has one; anything else, and a
    missing key, raises ([None]). *)
Definition getitem (v : json) (k : string) : option json :=
  match v with
  | JObj l => dict_get k l
  | _ => None
  end.

(** [v.items()]: defined on dicts only ([None] is the [AttributeError]). *)
Definition items (v : json) : option (list (string * json)) :=
  match v with
  | JObj l => Some l
  | _ => None
  end.

Fixpoint chars (s : string) : list json :=
  match s with
  | EmptyString => []
  | String c s' => JStr (String c EmptyString) :: chars s'
  end.

(** [for t in v]: a list yields its elements, a dict its keys, a string its
    characters; the other values are not iterable ([None]). *)
Definition iter (v : json) : option (list json) :=
  match v with
  | JArr l => Some l
  | JObj l => Some (map (fun kv => JStr (fst kv)) l)
  | JStr s => Some (chars s)
  | _ => None
  end.

(** *** [int(k)] on a string *)

Definition is_space (c : ascii) : bool :=
  let n := nat_of_ascii c in
  (Nat.eqb n 32 || (Nat.leb 9 n && Nat.leb n 13))%bool.

Definition digit_of (c : ascii) : option Z :=
  let n := nat_of_ascii c in
  if (Nat.leb 48 n && Nat.leb n 57)%bool then Some (Z.of_nat n - 48) else None.

Fixpoint lstrip (s : string) : string :=
  match s with
  | String c s' => if is_space c then lstrip s' else s
  | EmptyString => EmptyString
  end.

Fixpoint all_space (s : string) : bool :=
  match s with
  | EmptyString => true
  | String c s' => is_space c && all_space s'
  end.

(** Digits with single underscores between them, then optional trailing
    white space.  [acc] is the value read so far, [after_digit] tells
    whether the previous character was a digit. *)
Fixpoint int_digits (s : string) (acc : Z) (after_digit : bool) : option Z :=
  match s with
  | EmptyString => if after_digit then Some acc else None
  | String c s' =>
      match digit_of c with
      | Some d => int_digits s' (acc * 10 + d) true
      | None =>
          if after_digit then
            if Ascii.eqb c "_"%char then
              match s' with
              | String c' _ =>
                  match digit_of c' with
                  | Some _ => int_digits s' acc false
                  | None => None
                  end
              | EmptyString => None
              end
            else if all_space s then Some acc else None
          else None
      end
  end.

(** [int(s)] for a string of ASCII characters: surrounding white space, an
    optional sign, decimal digits.  [None] is the [ValueError].  Python's
    [int] also reads the decimal digits and white space of other scripts,
    which [StateManager.save] never writes as a key; [unchecked.load]
    takes [int] as it is, as a parameter. *)
Definition py_int (s : string) : option Z :=
  match lstrip s with
  | String "-"%char s' => Z.opp <$> int_digits s' 0 false
  | String "+"%char s' => int_digits s' 0 false
  | s' => int_digits s' 0 false
  end.

End pyjson.

(** ** config.py *)

Module config.
Import pydecimal.

(** [target_points] and [stop_points] are floats in the source, read only
    through [Decimal(str(x))]; the record holds that decimal. *)
Record SessionConfig : Type := mk_SessionConfig {
  name : string;
  ref_hour : Z;
  start_hour : Z;
  end_hour : Z;
  target_points : Decimal;
  stop_points : Decimal
}.

(** A [Dict[int, SessionConfig]] in insertion order, which is the order the
    loops over [sessions.items()] follow. *)
Definition sessions_t : Type := list (Z * SessionConfig).

Definition SESSIONS : sessions_t :=
  [ (22, {| name := "London";
            ref_hour := 22;
            start_hour := 23;
            end_hour := 23;
            target_points := of_digits 2 1;
            stop_points := of_digits 5 1 |}) ].

Definition entry_delay_minutes : Z := 5.
Definition max_idle_seconds : Z := 300.

End config.

(** ** state.py *)

Module state.
Import pydecimal pydatetime pyjson.

Record ActiveTrade : Type := mk_ActiveTrade {
  side : string;
  tp : Decimal;
  sl : Decimal;
  sess_name : string;
  cutoff_h : Z;
  sess_id : Z;
  entry_price : Decimal
}.

Record SessionTradeState : Type := mk_SessionTradeState {
  count : Z;
  directions : list string
}.

(** [SessionTradeState()] *)
Definition SessionTradeState_default : SessionTradeState :=
  {| count := 0; directions := [] |}.

Record BotState : Type := mk_BotState {
  last_reset_date : option string;
  trades_taken : gmap Z SessionTradeState;
  active_trades : list ActiveTrade;
  ref_levels : gmap Z (option (gmap string Decimal));
  session_trade_eligible_time : gmap Z (option datetime);
  fetch_attempted : gmap Z bool;
  scanning_started : gmap Z bool;
  reconnect_count : Z
}.

(** [BotState(last_reset_date=d)]; [BotState()] is [BotState_new None]. *)
Definition BotState_new (d : option string) : BotState :=
  {| last_reset_date := d;
     trades_taken := ∅;
     active_trades := [];
     ref_levels := ∅;
     session_trade_eligible_time := ∅;
     fetch_attempted := ∅;
     scanning_started := ∅;
     reconnect_count := 0 |}.

(** Field assignments. *)
Definition set_last_reset_date (d : option string) (st : BotState) : BotState :=
  mk_BotState d (trades_taken st) (active_trades st) (ref_levels st)
    (session_trade_eligible_time st) (fetch_attempted st)
    (scanning_started st) (reconnect_count st).

Definition set_trades_taken (m : gmap Z SessionTradeState) (st : BotState)
  : BotState :=
  mk_BotState (last_reset_date st) m (active_trades st) (ref_levels st)
    (session_trade_eligible_time st) (fetch_attempted st)
    (scanning_started st) (reconnect_count st).

Definition set_active_trades (l : list ActiveTrade) (st : BotState) : BotState :=
  mk_BotState (last_reset_date st) (trades_taken st) l (ref_levels st)
    (session_trade_eligible_time st) (fetch_attempted st)
    (scanning_started st) (reconnect_count st).

Definition set_ref_levels (m : gmap Z (option (gmap string Decimal)))
    (st : BotState) : BotState :=
  mk_BotState (last_reset_date st) (trades_taken st) (active_trades st) m
    (session_trade_eligible_time st) (fetch_attempted st)
    (scanning_started st) (reconnect_count st).

Definition set_session_trade_eligible_time (m : gmap Z (option datetime))
    (st : BotState) : BotState :=
  mk_BotState (last_reset_date st) (trades_taken st) (active_trades st)
    (ref_levels st) m (fetch_attempted st)
    (scanning_started st) (reconnect_count st).

Definition set_fetch_attempted (m : gmap Z bool) (st : BotState) : BotState :=
  mk_BotState (last_reset_date st) (trades_taken st) (active_trades st)
    (ref_levels st) (session_trade_eligible_time st) m
    (scanning_started st) (reconnect_count st).

Definition set_scanning_started (m : gmap Z bool) (st : BotState) : BotState :=
  mk_BotState (last_reset_date st) (trades_taken st) (active_trades st)
    (ref_levels st) (session_trade_eligible_time st) (fetch_attempted st)
    m (reconnect_count st).

Definition set_reconnect_count (n : Z) (st : BotState) : BotState :=
  mk_BotState (last_reset_date st) (trades_taken st) (active_trades st)
    (ref_levels st) (session_trade_eligible_time st) (fetch_attempted st)
    (scanning_started st) n.

(** [d.setdefault(k, v)] *)
Definition setdefault {V : Type} (k : Z) (v : V) (m : gmap Z V) : gmap Z V :=
  match m !! k with
  | Some _ => m
  | None => <[k := v]> m
  end.

(** Body of the loop of [StateManager.init_session_maps]. *)
Definition init_session (st : BotState) (sid : Z) : BotState :=
  let st1 := set_trades_taken
               (setdefault sid SessionTradeState_default (trades_taken st)) st in
  let st2 := set_ref_levels (setdefault sid None (ref_levels st1)) st1 in
  let st3 := set_session_trade_eligible_time
               (setdefault sid None (session_trade_eligible_time st2)) st2 in
  let st4 := set_fetch_attempted (setdefault sid false (fetch_attempted st3)) st3 in
  set_scanning_started (setdefault sid false (scanning_started st4)) st4.

(** [StateManager.init_session_maps] *)
Definition init_session_maps (st : BotState) (session_ids : list Z) : BotState :=
  fold_left init_session session_ids st.

(** What is on disk when [load] runs. *)
Inductive stored : Type :=
| NoFile                (* [os.path.exists] is false *)
| BadFile               (* [open] or [json.load] raises *)
| Doc (data : json).    (* the parsed document *)

(** Progress of the [try] block of [load].  The dataclasses do not check
    the types of their fields; a file that puts a value of another type
    into a typed field ([count], [directions], [side], ...) produces a state
    these records cannot hold, and this model reports it as [Untyped];
    [unchecked.load] runs the method on such files. *)
Inductive run : Type :=
| Cont (st : BotState)
| Exn (st : BotState)
| Untyped.

Definition bind (r : run) (f : BotState -> run) : run :=
  match r with
  | Cont st => f st
  | _ => r
  end.

Fixpoint for_each {A : Type} (body : A -> BotState -> run) (l : list A)
    (st : BotState) : run :=
  match l with
  | [] => Cont st
  | x :: l' => bind (body x st) (for_each body l')
  end.

Definition as_int (v : json) : option Z :=
  match v with JInt z => Some z | _ => None end.

Definition as_str (v : json) : option string :=
  match v with JStr s => Some s | _ => None end.

Definition as_bool (v : json) : option bool :=
  match v with JBool b => Some b | _ => None end.

Definition as_str_list (v : json) : option (list string) :=
  match v with
  | JArr l => mapM as_str l
  | _ => None
  end.

Section persistence.

(** Standard-library conversions the file format goes through:
    [Decimal(v)] ([None] when it raises), [str(d)] on a decimal,
    [datetime.fromisoformat(v)] ([None] when it raises) and
    [t.isoformat()]. *)
Variable Decimal_ctor : json -> option Decimal.
Variable Decimal_str : Decimal -> string.
Variable fromisoformat : json -> option datetime.
Variable isoformat : datetime -> string.

(** [StateManager.save]: the document handed to [json.dump].  The objects
    built from the state's dicts list their entries in the map's key order. *)
Definition save (st : BotState) : json :=
  JObj
    [ ("last_reset_date",
        match last_reset_date st with Some d => JStr d | None => JNull end);
      ("trades_taken",
        JObj (map (fun kv : Z * SessionTradeState =>
                     (pretty (fst kv),
                      JObj [ ("count", JInt (count (snd kv)));
                             ("directions", JArr (map JStr (directions (snd kv)))) ]))
                  (map_to_list (trades_taken st))));
      ("active_trades",
        JArr (map (fun t : ActiveTrade =>
                     JObj [ ("side", JStr (side t));
                            ("tp", JStr (Decimal_str (tp t)));
                            ("sl", JStr (Decimal_str (sl t)));
                            ("sess_name", JStr (sess_name t));
                            ("cutoff_h", JInt (cutoff_h t));
                            ("sess_id", JInt (sess_id t));
                            ("entry_price", JStr (Decimal_str (entry_price t))) ])
                  (active_trades st)));
      ("ref_levels",
        JObj (map (fun kv : Z * option (gmap string Decimal) =>
                     (pretty (fst kv),
                      match snd kv with
                      | Some v =>
                          if bool_decide (v = ∅) then JNull
                          else JObj (map (fun pkv : string * Decimal =>
                                            (fst pkv, JStr (Decimal_str (snd pkv))))
                                         (map_to_list v))
                      | None => JNull
                      end))
                  (map_to_list (ref_levels st))));
      ("session_trade_eligible_time",
        JObj (map (fun kv : Z * option datetime =>
                     (pretty (fst kv),
                      match snd kv with
                      | Some v => JStr (isoformat v)
                      | None => JNull
                      end))
                  (map_to_list (session_trade_eligible_time st))));
      ("fetch_attempted",
        JObj (map (fun kv : Z * bool => (pretty (fst kv), JBool (snd kv)))
                  (map_to_list (fetch_attempted st)))) ].

(** Body of [for k, v in data.get("trades_taken", {}).items()]. *)
Definition load_trades_taken (kv : string * json) (st : BotState) : run :=
  match py_int (fst kv) with
  | None => Exn st
  | Some sid =>
      if bool_decide (is_Some (trades_taken st !! sid)) then
        match getitem (snd kv) "count", getitem (snd kv) "directions" with
        | Some c, Some d =>
            match as_int c, as_str_list d with
            | Some c', Some d' =>
                Cont (set_trades_taken
                        (<[sid := {| count := c'; directions := d' |}]>
                           (trades_taken st)) st)
            | _, _ => Untyped
            end
        | _, _ => Exn st
        end
      else Cont st
  end.

(** Body of [for t in data.get("active_trades", [])]: the constructor
    arguments are evaluated first (any of them may raise), then the trade
    is appended. *)
Definition load_active_trade (t : json) (st : BotState) : run :=
  let args :=
    v_side ← getitem t "side";
    v_tp ← getitem t "tp" ≫= Decimal_ctor;
    v_sl ← getitem t "sl" ≫= Decimal_ctor;
    v_name ← getitem t "sess_name";
    v_cut ← getitem t "cutoff_h";
    v_sid ← getitem t "sess_id";
    v_entry ← getitem t "entry_price" ≫= Decimal_ctor;
    Some (v_side, v_tp, v_sl, v_name, v_cut, v_sid, v_entry) in
  match args with
  | None => Exn st
  | Some (v_side, v_tp, v_sl, v_name, v_cut, v_sid, v_entry) =>
      match as_str v_side, as_str v_name, as_int v_cut, as_int v_sid with
      | Some s, Some n, Some c, Some i =>
          Cont (set_active_trades
                  (active_trades st ++
                     [ {| side := s; tp := v_tp; sl := v_sl; sess_name := n;
                          cutoff_h := c; sess_id := i; entry_price := v_entry |} ])
                  st)
      | _, _, _, _ => Untyped
      end
  end.

(** [{pk: Decimal(pv) for pk, pv in v.items()}]; a later key replaces an
    earlier one. *)
Definition load_levels_dict (l : list (string * json))
  : option (gmap string Decimal) :=
  l' ← mapM (fun pkv : string * json =>
               d ← Decimal_ctor (snd pkv); Some (fst pkv, d)) l;
  Some (list_to_map (reverse l')).

(** Body of [for k, v in data.get("ref_levels", {}).items()]. *)
Definition load_ref_levels (kv : string * json) (st : BotState) : run :=
  match py_int (fst kv) with
  | None => Exn st
  | Some sid =>
      if truthy (snd kv) then
        match items (snd kv) ≫= load_levels_dict with
        | Some d => Cont (set_ref_levels (<[sid := Some d]> (ref_levels st)) st)
        | None => Exn st
        end
      else Cont st
  end.

(** Body of [for k, v in data.get("session_trade_eligible_time", {}).items()]. *)
Definition load_eligible_time (kv : string * json) (st : BotState) : run :=
  match py_int (fst kv) with
  | None => Exn st
  | Some sid =>
      if truthy (snd kv) then
        match fromisoformat (snd kv) with
        | Some t =>
            Cont (set_session_trade_eligible_time
                    (<[sid := Some t]> (session_trade_eligible_time st)) st)
        | None => Exn st
        end
      else Cont st
  end.

(** Body of [for k, v in data.get("fetch_attempted", {}).items()]. *)
Definition load_fetch_attempted (kv : string * json) (st : BotState) : run :=
  match py_int (fst kv) with
  | None => Exn st
  | Some sid =>
      match as_bool (snd kv) with
      | Some b => Cont (set_fetch_attempted (<[sid := b]> (fetch_attempted st)) st)
      | None => Untyped
      end
  end.

(** [data.get(key, {}).items()] followed by the loop over it. *)
Definition load_items (d : list (string * json)) (key : string)
    (body : string * json -> BotState -> run) (st : BotState) : run :=
  match items (default (JObj []) (dict_get key d)) with
  | Some l => for_each body l st
  | None => Exn st
  end.

(** The [try] block of [load] once the date has matched. *)
Definition load_restore (d : list (string * json)) (st : BotState) : run :=
  bind (load_items d "trades_taken" load_trades_taken st) (fun st1 =>
  bind (match iter (default (JArr []) (dict_get "active_trades" d)) with
        | Some l => for_each load_active_trade l st1
        | None => Exn st1
        end) (fun st2 =>
  bind (load_items d "ref_levels" load_ref_levels st2) (fun st3 =>
  bind (load_items d "session_trade_eligible_time" load_eligible_time st3)
    (fun st4 =>
  load_items d "fetch_attempted" load_fetch_attempted st4)))).

(** [data.get("last_reset_date") != today_str] is false: only a string
    equals a string. *)
Definition date_matches (v : option json) (today_str : string) : bool :=
  match v with
  | Some (JStr s) => bool_decide (s = today_str)
  | _ => false
  end.

(** [StateManager.load(session_ids, timezone)] on the files whose values
    have the declared types; [today_str] is
    [str(datetime.now(timezone).date())].  An exception inside the [try]
    block is logged and the state built so far is returned.  [None] only
    when the file stores a value the typed records cannot hold:
    [unchecked.load] is the method on every file, and where this function
    returns a state the two agree (lemma [load_agrees]). *)
Definition load (session_ids : list Z) (today_str : string) (f : stored)
  : option BotState :=
  let st := init_session_maps (BotState_new None) session_ids in
  match f with
  | NoFile => Some st
  | BadFile => Some st
  | Doc (JObj d) =>
      if date_matches (dict_get "last_reset_date" d) today_str then
        match load_restore d (set_last_reset_date (Some today_str) st) with
        | Cont st' => Some st'
        | Exn st' => Some st'
        | Untyped => None
        end
      else Some st
  | Doc _ => Some st
  end.

End persistence.

End state.

(** ** state.py: [load] on any file *)

(** The records of [state] hold values of the types the dataclasses
    declare.  Python does not check those types: what [load] reads from
    the file it stores as it is.  This module runs [load] on states whose
    fields hold whatever the file gave, so that it is defined on every
    file; [D] and [T] are the objects [Decimal(v)] and
    [datetime.fromisoformat(v)] return. *)
Module unchecked.
Import pyjson.

Record ActiveTrade (D : Type) : Type := mk_ActiveTrade {
  side : json;
  tp : D;
  sl : D;
  sess_name : json;
  cutoff_h : json;
  sess_id : json;
  entry_price : D
}.
Arguments mk_ActiveTrade {D}.
Arguments side {D}.
Arguments tp {D}.
Arguments sl {D}.
Arguments sess_name {D}.
Arguments cutoff_h {D}.
Arguments sess_id {D}.
Arguments entry_price {D}.

Record SessionTradeState : Type := mk_SessionTradeState {
  count : json;
  directions : json
}.

(** [SessionTradeState()] *)
Definition SessionTradeState_default : SessionTradeState :=
  {| count := JInt 0; directions := JArr [] |}.

Record BotState (D T : Type) : Type := mk_BotState {
  last_reset_date : option string;
  trades_taken : gmap Z SessionTradeState;
  active_trades : list (ActiveTrade D);
  ref_levels : gmap Z (option (gmap string D));
  session_trade_eligible_time : gmap Z (option T);
  fetch_attempted : gmap Z json;
  scanning_started : gmap Z bool;
  reconnect_count : Z
}.
Arguments mk_BotState {D T}.
Arguments last_reset_date {D T}.
Arguments trades_taken {D T}.
Arguments active_trades {D T}.
Arguments ref_levels {D T}.
Arguments session_trade_eligible_time {D T}.
Arguments fetch_attempted {D T}.
Arguments scanning_started {D T}.
Arguments reconnect_count {D T}.

Section load.
Context {D T : Type}.

(** [Decimal(v)], [datetime.fromisoformat(v)] and [int(k)] on a string;
    [None] when they raise. *)
Variable Decimal_ctor : json -> option D.
Variable fromisoformat : json -> option T.
Variable int_ctor : string -> option Z.

(** [BotState(last_reset_date=d)] *)
Definition BotState_new (d : option string) : BotState D T :=
  {| last_reset_date := d;
     trades_taken := ∅;
     active_trades := [];
     ref_levels := ∅;
     session_trade_eligible_time := ∅;
     fetch_attempted := ∅;
     scanning_started := ∅;
     reconnect_count := 0 |}.

(** Field assignments. *)
Definition set_last_reset_date (d : option string) (st : BotState D T)
  : BotState D T :=
  mk_BotState d (trades_taken st) (active_trades st) (ref_levels st)
    (session_trade_eligible_time st) (fetch_attempted st)
    (scanning_started st) (reconnect_count st).

Definition set_trades_taken (m : gmap Z SessionTradeState) (st : BotState D T)
  : BotState D T :=
  mk_BotState (last_reset_date st) m (active_trades st) (ref_levels st)
    (session_trade_eligible_time st) (fetch_attempted st)
    (scanning_started st) (reconnect_count st).

Definition set_active_trades (l : list (ActiveTrade D)) (st : BotState D T)
  : BotState D T :=
  mk_BotState (last_reset_date st) (trades_taken st) l (ref_levels st)
    (session_trade_eligible_time st) (fetch_attempted st)
    (scanning_started st) (reconnect_count st).

Definition set_ref_levels (m : gmap Z (option (gmap string D)))
    (st : BotState D T) : BotState D T :=
  mk_BotState (last_reset_date st) (trades_taken st) (active_trades st) m
    (session_trade_eligible_time st) (fetch_attempted st)
    (scanning_started st) (reconnect_count st).

Definition set_session_trade_eligible_time (m : gmap Z (option T))
    (st : BotState D T) : BotState D T :=
  mk_BotState (last_reset_date st) (trades_taken st) (active_trades st)
    (ref_levels st) m (fetch_attempted st)
    (scanning_started st) (reconnect_count st).

Definition set_fetch_attempted (m : gmap Z json) (st : BotState D T)
  : BotState D T :=
  mk_BotState (last_reset_date st) (trades_taken st) (active_trades st)
    (ref_levels st) (session_trade_eligible_time st) m
    (scanning_started st) (reconnect_count st).

Definition set_scanning_started (m : gmap Z bool) (st : BotState D T)
  : BotState D T :=
  mk_BotState (last_reset_date st) (trades_taken st) (active_trades st)
    (ref_levels st) (session_trade_eligible_time st) (fetch_attempted st)
    m (reconnect_count st).

(** Body of the loop of [StateManager.init_session_maps]. *)
Definition init_session (st : BotState D T) (sid : Z) : BotState D T :=
  let st1 := set_trades_taken
               (state.setdefault sid SessionTradeState_default (trades_taken st))
               st in
  let st2 := set_ref_levels (state.setdefault sid None (ref_levels st1)) st1 in
  let st3 := set_session_trade_eligible_time
               (state.setdefault sid None (session_trade_eligible_time st2))
               st2 in
  let st4 := set_fetch_attempted
               (state.setdefault sid (JBool false) (fetch_attempted st3)) st3 in
  set_scanning_started (state.setdefault sid false (scanning_started st4)) st4.

(** [StateManager.init_session_maps] *)
Definition init_session_maps (st : BotState D T) (session_ids : list Z)
  : BotState D T :=
  fold_left init_session session_ids st.

(** Progress of the [try] block of [load]: it goes on, or an exception
    has ended it. *)
Inductive run : Type :=
| Cont (st : BotState D T)
| Exn (st : BotState D T).

Definition bind (r : run) (f : BotState D T -> run) : run :=
  match r with
  | Cont st => f st
  | Exn st => Exn st
  end.

Fixpoint for_each {A : Type} (body : A -> BotState D T -> run) (l : list A)
    (st : BotState D T) : run :=
  match l with
  | [] => Cont st
  | x :: l' => bind (body x st) (for_each body l')
  end.

(** Body of [for k, v in data.get("trades_taken", {}).items()]. *)
Definition load_trades_taken (kv : string * json) (st : BotState D T) : run :=
  match int_ctor (fst kv) with
  | None => Exn st
  | Some sid =>
      if bool_decide (is_Some (trades_taken st !! sid)) then
        match getitem (snd kv) "count", getitem (snd kv) "directions" with
        | Some c, Some d =>
            Cont (set_trades_taken
                    (<[sid := {| count := c; directions := d |}]>
                       (trades_taken st)) st)
        | _, _ => Exn st
        end
      else Cont st
  end.

(** Body of [for t in data.get("active_trades", [])]: the constructor
    arguments are evaluated first (any of them may raise), then the trade
    is appended. *)
Definition load_active_trade (t : json) (st : BotState D T) : run :=
  let args :=
    v_side ← getitem t "side";
    v_tp ← getitem t "tp" ≫= Decimal_ctor;
    v_sl ← getitem t "sl" ≫= Decimal_ctor;
    v_name ← getitem t "sess_name";
    v_cut ← getitem t "cutoff_h";
    v_sid ← getitem t "sess_id";
    v_entry ← getitem t "entry_price" ≫= Decimal_ctor;
    Some {| side := v_side; tp := v_tp; sl := v_sl; sess_name := v_name;
            cutoff_h := v_cut; sess_id := v_sid; entry_price := v_entry |} in
  match args with
  | None => Exn st
  | Some trade => Cont (set_active_trades (active_trades st ++ [trade]) st)
  end.

(** [{pk: Decimal(pv) for pk, pv in v.items()}]; a later key replaces an
    earlier one. *)
Definition load_levels_dict (l : list (string * json))
  : option (gmap string D) :=
  l' ← mapM (fun pkv : string * json =>
               d ← Decimal_ctor (snd pkv); Some (fst pkv, d)) l;
  Some (list_to_map (reverse l')).

(** Body of [for k, v in data.get("ref_levels", {}).items()]. *)
Definition load_ref_levels (kv : string * json) (st : BotState D T) : run :=
  match int_ctor (fst kv) with
  | None => Exn st
  | Some sid =>
      if truthy (snd kv) then
        match items (snd kv) ≫= load_levels_dict with
        | Some d => Cont (set_ref_levels (<[sid := Some d]> (ref_levels st)) st)
        | None => Exn st
        end
      else Cont st
  end.

(** Body of [for k, v in data.get("session_trade_eligible_time", {}).items()]. *)
Definition load_eligible_time (kv : string * json) (st : BotState D T) : run :=
  match int_ctor (fst kv) with
  | None => Exn st
  | Some sid =>
      if truthy (snd kv) then
        match fromisoformat (snd kv) with
        | Some t =>
            Cont (set_session_trade_eligible_time
                    (<[sid := Some t]> (session_trade_eligible_time st)) st)
        | None => Exn st
        end
      else Cont st
  end.

(** Body of [for k, v in data.get("fetch_attempted", {}).items()]. *)
Definition load_fetch_attempted (kv : string * json) (st : BotState D T) : run :=
  match int_ctor (fst kv) with
  | None => Exn st
  | Some sid =>
      Cont (set_fetch_attempted (<[sid := snd kv]> (fetch_attempted st)) st)
  end.

(** [data.get(key, {}).items()] followed by the loop over it. *)
Definition load_items (d : list (string * json)) (key : string)
    (body : string * json -> BotState D T -> run) (st : BotState D T) : run :=
  match items (default (JObj []) (dict_get key d)) with
  | Some l => for_each body l st
  | None => Exn st
  end.

(** The [try] block of [load] once the date has matched. *)
Definition load_restore (d : list (string * json)) (st : BotState D T) : run :=
  bind (load_items d "trades_taken" load_trades_taken st) (fun st1 =>
  bind (match iter (default (JArr []) (dict_get "active_trades" d)) with
        | Some l => for_each load_active_trade l st1
        | None => Exn st1
        end) (fun st2 =>
  bind (load_items d "ref_levels" load_ref_levels st2) (fun st3 =>
  bind (load_items d "session_trade_eligible_time" load_eligible_time st3)
    (fun st4 =>
  load_items d "fetch_attempted" load_fetch_attempted st4)))).

(** [StateManager.load(session_ids, timezone)] on any file; [today_str] is
    [str(datetime.now(timezone).date())].  An exception inside the [try]
    block is logged and the state built so far is returned. *)
Definition load (session_ids : list Z) (today_str : string) (f : state.stored)
  : BotState D T :=
  let st := init_session_maps (BotState_new None) session_ids in
  match f with
  | state.NoFile => st
  | state.BadFile => st
  | state.Doc (JObj d) =>
      if state.date_matches (dict_get "last_reset_date" d) today_str then
        match load_restore d (set_last_reset_date (Some today_str) st) with
        | Cont st' => st'
        | Exn st' => st'
        end
      else st
  | state.Doc _ => st
  end.

End load.

(** A state of [state] as Python holds it. *)
Definition of_counter (c : state.SessionTradeState) : SessionTradeState :=
  {| count := JInt (state.count c);
     directions := JArr (map JStr (state.directions c)) |}.

Definition of_trade (t : state.ActiveTrade) : ActiveTrade pydecimal.Decimal :=
  {| side := JStr (state.side t);
     tp := state.tp t;
     sl := state.sl t;
     sess_name := JStr (state.sess_name t);
     cutoff_h := JInt (state.cutoff_h t);
     sess_id := JInt (state.sess_id t);
     entry_price := state.entry_price t |}.

Definition of_state (st : state.BotState)
  : BotState pydecimal.Decimal pydatetime.datetime :=
  {| last_reset_date := state.last_reset_date st;
     trades_taken := of_counter <$> state.trades_taken st;
     active_trades := map of_trade (state.active_trades st);
     ref_levels := state.ref_levels st;
     session_trade_eligible_time := state.session_trade_eligible_time st;
     fetch_attempted := JBool <$> state.fetch_attempted st;
     scanning_started := state.scanning_started st;
     reconnect_count := state.reconnect_count st |}.

(** The keys the file gives to [int]. *)
Definition int_keys (d : list (string * json)) : list string :=
  flat_map (fun key =>
              match items (default (JObj []) (dict_get key d)) with
              | Some l => map fst l
              | None => []
              end)
    ["trades_taken"; "ref_levels"; "session_trade_eligible_time";
     "fetch_attempted"]%string.

End unchecked.

(** ** risk_management.py *)

Module risk_management.
Import pydatetime.

(** [RiskManager.is_in_session_window] *)
Definition is_in_session_window (cfg : config.SessionConfig) (current_hour : Z)
  : bool :=
  (config.start_hour cfg <=? current_hour) && (current_hour <? config.end_hour cfg).

(** [RiskManager.is_trade_eligible] *)
Definition is_trade_eligible (session_id : Z)
    (trades_taken : gmap Z state.SessionTradeState)
    (now : datetime) (eligible_time : option datetime) : bool :=
  match trades_taken !! session_id with
  | None => false
  | Some session_trades =>
      if 2 <=? state.count session_trades then false
      else
        match eligible_time with
        | None => false
        | Some e => if ltb now e then false else true
        end
  end.

(** [RiskManager.can_take_direction] *)
Definition can_take_direction (session_id : Z) (direction : string)
    (trades_taken : gmap Z state.SessionTradeState) : bool :=
  match trades_taken !! session_id with
  | None => false
  | Some session_trades =>
      let taken_dirs := state.directions session_trades in
      if Nat.eqb (length taken_dirs) 0 then true
      else if Nat.eqb (length taken_dirs) 1
              && negb (bool_decide (Some direction = taken_dirs !! 0%nat))
      then true
      else false
  end.

End risk_management.

(** ** strategy.py *)

Module strategy.
Import pydecimal.

Record EntrySignal : Type := mk_EntrySignal {
  side : string;
  price : Decimal
}.

Record ExitSignal : Type := mk_ExitSignal {
  reason : string;
  trade : state.ActiveTrade;
  exit_price : Decimal
}.

(** [BreakoutStrategy.check_entry_signal] *)
Definition check_entry_signal (close_price high_level low_level : Decimal)
  : option EntrySignal :=
  if gt close_price high_level then
    Some {| side := "LONG"; price := close_price |}
  else if lt close_price low_level then
    Some {| side := "SHORT"; price := close_price |}
  else None.

(** [BreakoutStrategy.check_exit_signals] *)
Definition check_exit_signals (t : state.ActiveTrade) (close_price : Decimal)
    (current_hour : Z) : option ExitSignal :=
  if state.cutoff_h t <=? current_hour then
    Some {| reason := "CUTOFF"; trade := t; exit_price := close_price |}
  else if bool_decide (state.side t = "LONG") then
    if ge close_price (state.tp t) then
      Some {| reason := "TARGET"; trade := t; exit_price := close_price |}
    else if le close_price (state.sl t) then
      Some {| reason := "STOP"; trade := t; exit_price := close_price |}
    else None
  else
    if le close_price (state.tp t) then
      Some {| reason := "TARGET"; trade := t; exit_price := close_price |}
    else if ge close_price (state.sl t) then
      Some {| reason := "STOP"; trade := t; exit_price := close_price |}
    else None.

End strategy.

(** ** api_client.py *)

Module api_client.
Import pydecimal.

(** What the broker does with the entry order of one
    [place_bracket_order] call. *)
Inductive entry_outcome : Type :=
| Filled (fill_price : Decimal)   (* status "Filled", average fill price *)
| FilledUnpriced                  (* status "Filled", the average raises *)
| Ended (status : string)         (* "Cancelled" or "Rejected" *)
| NeverFilled                     (* sixty polls without a fill *)
| Failed.                         (* a broker call raises *)

(** The dict [place_bracket_order] returns. *)
Inductive order_result : Type :=
| OrderError (error : string)
| OrderPlaced (fill_price target_price stop_price : Decimal).

(** [TastyTradeClient.place_bracket_order] from the polling loop on;
    [None] when it raises. *)
Definition place_bracket_order (buy : bool) (target_points stop_points : Decimal)
    (o : entry_outcome) : option order_result :=
  match o with
  | Failed => None
  | FilledUnpriced => None
  | Ended status => Some (OrderError ("Entry " ++ status))
  | NeverFilled => Some (OrderError "Timeout waiting for fill")
  | Filled fill_price =>
      if truthy fill_price then
        target_price ← (if buy then add fill_price target_points
                        else sub fill_price target_points);
        stop_price ← (if buy then sub fill_price stop_points
                      else add fill_price stop_points);
        Some (OrderPlaced fill_price target_price stop_price)
      else Some (OrderError "Timeout waiting for fill")
  end.

(** *** The polling loop *)







End api_client.

(** ** main.py *)

Module main.
Import pydecimal pydatetime.
Import state.

(** *** Daily reset *)

(** [TradingBot._reset_daily_state]: the old state object is dropped and a
    new [BotState] takes its place; [today_str] is
    [str(datetime.now(tz).date())].  The new state is then saved. *)
Definition reset_daily_state (sessions : config.sessions_t) (today_str : string)
    (old : BotState) : BotState :=
  init_session_maps (BotState_new (Some today_str)) (map fst sessions).

(** *** Next wake-up *)

(** [min(l)] on datetimes: the first least element; [None] on an empty
    list. *)
Fixpoint min_from (best : datetime) (l : list datetime) : datetime :=
  match l with
  | [] => best
  | t :: l' => min_from (if ltb t best then t else best) l'
  end.

Definition py_min (l : list datetime) : option datetime :=
  match l with
  | [] => None
  | t :: l' => Some (min_from t l')
  end.

(** The loop body that builds [future_events]. *)
Definition next_start (now : datetime) (cfg : config.SessionConfig)
  : option datetime :=
  t ← replace_hm now (config.start_hour cfg) 0;
  Some (if leb t now then add_days t 1 else t).

(** [TradingBot._wait_until_next_event], in seconds; [now] is the clock
    reading the method takes.  [None] when a [replace] raises. *)
Definition wait_until_next_event (sessions : config.sessions_t) (now : datetime)
  : option Qc :=
  let weekday := weekday now in
  if ((weekday =? 4) && (14 <=? hour now)) || (weekday =? 5) then
    sunday_open ← replace_hm (add_days now (6 - weekday)) 15 0;
    Some (total_seconds (sub_us sunday_open now))
  else
    future_events ← mapM (next_start now) (map snd sessions);
    midnight_reset ← replace_hm now 23 59;
    let midnight_reset :=
      if leb midnight_reset now then add_days midnight_reset 1
      else midnight_reset in
    next_event ← py_min (future_events ++ [midnight_reset]);
    Some (total_seconds (sub_us next_event now) + Q2Qc 30)%Qc.

(** *** Exits *)

(** The indices [trades_to_remove] collects, in increasing order. *)
Fixpoint exit_indices (c_close : Decimal) (curr_h : Z) (idx : nat)
    (l : list ActiveTrade) : list nat :=
  match l with
  | [] => []
  | t :: l' =>
      match strategy.check_exit_signals t c_close curr_h with
      | Some _ => idx :: exit_indices c_close curr_h (S idx) l'
      | None => exit_indices c_close curr_h (S idx) l'
      end
  end.

(** [for idx in reversed(trades_to_remove): active_trades.pop(idx)] *)
Definition pop_all (indices : list nat) (l : list ActiveTrade)
  : list ActiveTrade :=
  fold_left (fun acc idx => delete idx acc) (reverse indices) l.

(** [TradingBot._process_exits] *)
Definition process_exits (c_close : Decimal) (curr_h : Z) (st : BotState)
  : BotState :=
  match active_trades st with
  | [] => st
  | _ =>
      let trades_to_remove := exit_indices c_close curr_h 0 (active_trades st) in
      set_active_trades (pop_all trades_to_remove (active_trades st)) st
  end.

(** *** Entries *)

(** Result of one pass of the loop of [_process_entries]: the state, the
    flag [in_active_window], and whether an exception left the method. *)
Inductive entries_result : Type :=
| Next (st : BotState) (in_active_window : bool)
| Raised (st : BotState).

(** The [tp] and [sl] of the entry notice are computed from the signal
    price before the trade is recorded; only whether the arithmetic
    returns matters to the state. *)
Definition notice_prices_defined (signal : strategy.EntrySignal)
    (cfg : config.SessionConfig) : bool :=
  let long := bool_decide (strategy.side signal = "LONG"%string) in
  let tp := if long then add (strategy.price signal) (config.target_points cfg)
            else sub (strategy.price signal) (config.target_points cfg) in
  let sl := if long then sub (strategy.price signal) (config.stop_points cfg)
            else add (strategy.price signal) (config.stop_points cfg) in
  bool_decide (is_Some tp) && bool_decide (is_Some sl).

(** Body of [for s_id, cfg in self._settings.sessions.items()].  [order]
    is what the broker does with the entry order of this pass. *)
Definition process_entry_session (c_close : Decimal) (now_la : datetime)
    (curr_h : Z) (order : api_client.entry_outcome)
    (s_id : Z) (cfg : config.SessionConfig)
    (st : BotState) (in_active_window : bool) : entries_result :=
  if negb (risk_management.is_in_session_window cfg curr_h) then
    Next st in_active_window
  else
    let eligible_time := mjoin (session_trade_eligible_time st !! s_id) in
    if negb (risk_management.is_trade_eligible s_id (trades_taken st)
               now_la eligible_time)
    then Next st true
    else
      match mjoin (ref_levels st !! s_id) with
      | None => Next st true
      | Some lvls =>
          if bool_decide (lvls = ∅) then Next st true
          else
            match lvls !! "high"%string, lvls !! "low"%string with
            | Some high, Some low =>
                match strategy.check_entry_signal c_close high low with
                | None => Next st true
                | Some signal =>
                    if negb (risk_management.can_take_direction s_id
                               (strategy.side signal) (trades_taken st))
                    then Next st true
                    else
                      match api_client.place_bracket_order
                              (bool_decide (strategy.side signal = "LONG"%string))
                              (config.target_points cfg)
                              (config.stop_points cfg) order with
                      | None => Raised st
                      | Some (api_client.OrderError _) => Next st true
                      | Some (api_client.OrderPlaced fill_price target_price
                                stop_price) =>
                          if negb (notice_prices_defined signal cfg)
                          then Raised st
                          else
                          let new_trade :=
                            {| side := strategy.side signal;
                               tp := target_price;
                               sl := stop_price;
                               sess_name := config.name cfg;
                               cutoff_h := config.end_hour cfg;
                               sess_id := s_id;
                               entry_price := fill_price |} in
                          let st1 :=
                            set_active_trades (active_trades st ++ [new_trade]) st in
                          match trades_taken st1 !! s_id with
                          | None => Raised st1
                          | Some taken =>
                              Next
                                (set_trades_taken
                                   (<[s_id :=
                                        {| count := count taken + 1;
                                           directions :=
                                             directions taken ++ [strategy.side signal] |}]>
                                      (trades_taken st1)) st1)
                                true
                          end
                      end
                end
            | _, _ => Raised st
            end
      end.

(** [TradingBot._process_entries]: the loop over the session table;
    [orders s_id] is the broker's behaviour in the pass for [s_id]. *)
Fixpoint process_entries_from (c_close : Decimal) (now_la : datetime)
    (curr_h : Z) (orders : Z -> api_client.entry_outcome)
    (sessions : config.sessions_t) (st : BotState) (in_active_window : bool)
  : entries_result :=
  match sessions with
  | [] => Next st in_active_window
  | (s_id, cfg) :: rest =>
      match process_entry_session c_close now_la curr_h (orders s_id)
              s_id cfg st in_active_window with
      | Next st' w => process_entries_from c_close now_la curr_h orders rest st' w
      | Raised st' => Raised st'
      end
  end.

Definition process_entries (sessions : config.sessions_t) (c_close : Decimal)
    (now_la : datetime) (curr_h : Z) (orders : Z -> api_client.entry_outcome)
    (st : BotState) : entries_result :=
  process_entries_from c_close now_la curr_h orders sessions st false.

(** *** The scanning decision of [_run_monitor_cycle] *)

(** The loop that sets [should_be_scanning]; [None] is the [KeyError] of
    [trades_taken[s_id]]. *)
Fixpoint should_be_scanning_from (sessions : config.sessions_t) (curr_h : Z)
    (st : BotState) (flag : bool) : option bool :=
  match sessions with
  | [] => Some flag
  | (s_id, cfg) :: rest =>
      if (config.start_hour cfg <=? curr_h) && (curr_h <? config.end_hour cfg) then
        taken ← trades_taken st !! s_id;
        should_be_scanning_from rest curr_h st
          (if count taken <? 2 then true else flag)
      else should_be_scanning_from rest curr_h st flag
  end.

Definition should_be_scanning (sessions : config.sessions_t) (curr_h : Z)
    (st : BotState) : option bool :=
  should_be_scanning_from sessions curr_h st false.

(** How [_run_monitor_cycle] goes on after its scheduling prefix. *)
Inductive cycle_decision : Type :=
| DailyReset (st : BotState)                 (* 23:59: reset, sleep 120 s, return *)
| SleepUntil (st : BotState) (wait_sec : Qc) (* sleep and return *)
| Connect (st : BotState).                   (* log in and open the stream *)

(** [_run_monitor_cycle] up to the increment of [reconnect_count].
    [now_la] is the clock reading at the top of the method, [today_new] the
    date string a reset reads, [now_wait] the reading taken by
    [_wait_until_next_event], [date_str] is [str] on a date, and
    [login_ok] tells whether [login] returns.  [None]: an exception leaves
    the method. *)
Definition run_monitor_cycle_head (date_str : Z -> string)
    (sessions : config.sessions_t) (now_la : datetime) (today_new : string)
    (now_wait : datetime) (login_ok : bool) (st : BotState)
  : option cycle_decision :=
  let curr_h := hour now_la in
  let curr_min := minute now_la in
  if (curr_h =? 23) && (curr_min =? 59) then
    Some (DailyReset (reset_daily_state sessions today_new st))
  else
    let st1 :=
      if bool_decide (last_reset_date st = Some (date_str (ordinal now_la)))
      then st
      else reset_daily_state sessions today_new st in
    scanning ← should_be_scanning sessions curr_h st1;
    let connect :=
      if login_ok
      then Some (Connect (set_reconnect_count (reconnect_count st1 + 1) st1))
      else None in
    if negb scanning && bool_decide (active_trades st1 = []) then
      wait_sec ← wait_until_next_event sessions now_wait;
      if bool_decide (Q2Qc 60 < wait_sec)%Qc then Some (SleepUntil st1 wait_sec)
      else connect
    else connect.

(** *** Supervisor *)

Inductive effect : Type :=
| Notify (message : string)
| Sleep (seconds : Z).

(** How one call of [_run_monitor_cycle] ends for the supervisor: it
    returns, or an [Exception] reaches the [except] clause. *)
Inductive cycle_outcome : Type :=
| Returned
| Failed.

Definition max_consecutive_errors : Z := 10.

(** One pass of [while True] in [TradingBot.start], after the monitor
    cycle has ended with [o]: the notifications and sleeps it performs and
    the new counter, [None] after [break]. *)
Definition start_iteration (consecutive_errors : Z) (o : cycle_outcome)
  : list effect * option Z :=
  match o with
  | Returned => ([Sleep 2], Some 0)
  | Failed =>
      let consecutive_errors := consecutive_errors + 1 in
      let notify :=
        if (consecutive_errors =? 1) || (consecutive_errors mod 3 =? 0)
        then [Notify ("Bot Error #" +:+ pretty consecutive_errors)]
        else [] in
      if max_consecutive_errors <=? consecutive_errors then
        (notify ++ [Notify ("STOPPED after " +:+ pretty max_consecutive_errors
                              +:+ " errors")], None)
      else
        let wait_time := Z.min (30 * 2 ^ (consecutive_errors - 1)) 300 in
        (notify ++ [Sleep wait_time; Sleep 2], Some consecutive_errors)
  end.

(** Where the supervisor is after some monitor cycles. *)
Inductive supervisor : Type :=
| Running (consecutive_errors : Z)
| Stopped.

(** [TradingBot.start] run over the outcomes of successive monitor cycles:
    the effects performed, in order, and the final status.  After [break]
    no further cycle is run. *)
Fixpoint start_from (consecutive_errors : Z) (outcomes : list cycle_outcome)
  : list effect * supervisor :=
  match outcomes with
  | [] => ([], Running consecutive_errors)
  | o :: rest =>
      match start_iteration consecutive_errors o with
      | (effs, Some n) =>
          let (effs', final) := start_from n rest in (effs ++ effs', final)
      | (effs, None) => (effs, Stopped)
      end
  end.

Definition start (outcomes : list cycle_outcome) : list effect * supervisor :=
  start_from 0 outcomes.

(** *** Background level loader *)

(** How the fetch of one pass of [_check_levels_periodically] ends.
    [fetch_hourly_levels] catches every [Exception] itself, so an
    [Exception] can only come from opening or closing the temporary
    streamer.  The loader runs as a task that [_run_monitor_cycle] cancels
    when its stream closes; [asyncio.CancelledError] is not an [Exception]
    and passes the [except Exception] clauses. *)
Inductive fetch_outcome : Type :=
| FetchRaised       (* opening the streamer raises: nothing is assigned *)
| Fetched (lvls : option (Decimal * Decimal))
    (* the fetch returns and its result is assigned; an [Exception] raised
       while the streamer closes is caught after the assignment *)
| FetchCancelled    (* cancelled while opening or fetching: nothing is assigned *)
| CloseCancelled (lvls : option (Decimal * Decimal)).
    (* cancelled while the streamer closes, after the assignment *)

Inductive levels_result : Type :=
| LevelsNext (st : BotState)       (* the loop goes on *)
| LevelsRaised (st : BotState)     (* an [Exception] ends this round *)
| LevelsCancelled (st : BotState). (* [CancelledError]: the task ends *)

(** The dict [{"high": h, "low": l}]. *)
Definition levels_dict (hl : Decimal * Decimal) : gmap string Decimal :=
  <["low"%string := snd hl]> (<["high"%string := fst hl]> ∅).

(** Body of [for s_id, cfg in self._settings.sessions.items()] in
    [_check_levels_periodically]. *)
Definition check_levels_session (now_la : datetime) (fetch : fetch_outcome)
    (s_id : Z) (cfg : config.SessionConfig) (st : BotState) : levels_result :=
  let curr_h := hour now_la in
  if curr_h <? config.start_hour cfg then LevelsNext st
  else if bool_decide (is_Some (mjoin (ref_levels st !! s_id))) then LevelsNext st
  else if default false (fetch_attempted st !! s_id) then LevelsNext st
  else
    let assigned lvls :=
      set_ref_levels (<[s_id := levels_dict <$> lvls]> (ref_levels st)) st in
    let after_fetch st1 :=
      let st2 := set_fetch_attempted (<[s_id := true]> (fetch_attempted st1)) st1 in
      match ref_levels st2 !! s_id with
      | None => LevelsRaised st2
      | Some None => LevelsNext st2
      | Some (Some lvls) =>
          if bool_decide (lvls = ∅) then LevelsNext st2
          else
            match replace_hm now_la (config.start_hour cfg)
                    config.entry_delay_minutes with
            | None => LevelsRaised st2
            | Some eligible_time =>
                let st3 :=
                  set_session_trade_eligible_time
                    (<[s_id := Some eligible_time]>
                       (session_trade_eligible_time st2)) st2 in
                LevelsNext
                  (set_scanning_started (<[s_id := true]> (scanning_started st3))
                     st3)
            end
      end in
    match fetch with
    | FetchRaised => after_fetch st
    | Fetched lvls => after_fetch (assigned lvls)
    | FetchCancelled => LevelsCancelled st
    | CloseCancelled lvls => LevelsCancelled (assigned lvls)
    end.

(** *** One candle of the streaming loop *)

Inductive stream_step : Type :=
| Continue (st : BotState)   (* wait for the next candle *)
| Break (st : BotState)      (* leave the loop and close the streamer *)
| Fault (st : BotState).     (* an exception leaves the loop *)

(** The body of the [while True] of [_run_monitor_cycle] for a valid
    minute candle with close [c_close], received at [now_la]. *)
Definition on_candle (sessions : config.sessions_t) (today_new : string)
    (c_close : Decimal) (now_la : datetime)
    (orders : Z -> api_client.entry_outcome) (st : BotState) : stream_step :=
  let curr_h := hour now_la in
  let curr_min := minute now_la in
  if (curr_h =? 23) && (curr_min =? 59) then
    Break (reset_daily_state sessions today_new st)
  else
    let st1 := process_exits c_close curr_h st in
    match process_entries sessions c_close now_la curr_h orders st1 with
    | Raised st2 => Fault st2
    | Next st2 in_active_window =>
        if negb in_active_window && bool_decide (active_trades st2 = [])
        then Break st2
        else Continue st2
    end.

(** *** Histories *)

(** What happens to the bot's state, one event at a time: a candle goes
    through the streaming loop; a single pass of the entry loop or of the
    level loader runs (the loader shares the event loop with the entry
    processing and may run wherever that awaits); the day is reset; a
    connection is opened. *)
Inductive event : Type :=
| Candle (today_new : string) (c_close : Decimal) (now_la : datetime)
    (orders : Z -> api_client.entry_outcome)
| EntryPass (c_close : Decimal) (now_la : datetime) (curr_h : Z)
    (order : api_client.entry_outcome) (s_id : Z) (cfg : config.SessionConfig)
| ExitPass (c_close : Decimal) (curr_h : Z)
| LevelCheck (now_la : datetime) (fetch : fetch_outcome) (s_id : Z)
    (cfg : config.SessionConfig)
| Reset (today_new : string)
| Connected.

Definition run_event (sessions : config.sessions_t) (e : event) (st : BotState)
  : BotState :=
  match e with
  | Candle today_new c_close now_la orders =>
      match on_candle sessions today_new c_close now_la orders st with
      | Continue st' | Break st' | Fault st' => st'
      end
  | EntryPass c_close now_la curr_h order s_id cfg =>
      match process_entry_session c_close now_la curr_h order s_id cfg st false with
      | Next st' _ | Raised st' => st'
      end
  | ExitPass c_close curr_h => process_exits c_close curr_h st
  | LevelCheck now_la fetch s_id cfg =>
      match check_levels_session now_la fetch s_id cfg st with
      | LevelsNext st' | LevelsRaised st' | LevelsCancelled st' => st'
      end
  | Reset today_new => reset_daily_state sessions today_new st
  | Connected => set_reconnect_count (reconnect_count st + 1) st
  end.

Definition run_events (sessions : config.sessions_t) (events : list event)
    (st : BotState) : BotState :=
  fold_left (fun acc e => run_event sessions e acc) events st.

End main.

(** * Vocabulary of the properties *)

Module props.
Import pydecimal pydatetime pyjson.

(** ** Sample values *)

Definition sample_long_trade : state.ActiveTrade :=
  {| state.side := "LONG"; state.tp := of_Z 105; state.sl := of_Z 95;
     state.sess_name := "London"; state.cutoff_h := 8; state.sess_id := 22;
     state.entry_price := of_Z 100 |}.

(** ** Supervisor *)

(** The notice of the [errors]-th consecutive error. *)
Definition error_notice (errors : Z) : main.effect :=
  main.Notify ("Bot Error #" +:+ pretty errors).

Definition stopped_notice : main.effect :=
  main.Notify "STOPPED after 10 errors".

(** The backoff before a retry. *)
Definition backoff (errors : Z) : Z := Z.min (30 * 2 ^ (errors - 1)) 300.

(** ** Scheduler, in the words of the specification *)

(** No session window is open at hour [h]. *)
Definition no_window_open (sessions : config.sessions_t) (h : Z) : bool :=
  forallb (fun kv : Z * config.SessionConfig =>
             negb (risk_management.is_in_session_window (snd kv) h)) sessions.

(** Every start hour of the table is an hour of the day. *)
Definition start_hours_valid (sessions : config.sessions_t) : bool :=
  forallb (fun kv : Z * config.SessionConfig =>
             (0 <=? config.start_hour (snd kv))
             && (config.start_hour (snd kv) <? 24)) sessions.

(** The no-trading weekend span: Friday from 14:00, and Saturday. *)
Definition in_weekend_span (now : datetime) : bool :=
  ((weekday now =? 4) && (14 <=? hour now)) || (weekday now =? 5).

(** The opening instant after the weekend: 15:00 on the Sunday of the
    week of [now]. *)
Definition weekend_open (now : datetime) : datetime :=
  mk_datetime (ordinal now + (6 - weekday now)) 15 0 0 0.

(** The next occurrence of wall-clock time [h]:[m]: today if it has not
    yet passed, else tomorrow. *)
Definition next_occurrence (now : datetime) (h m : Z) : datetime :=
  let today := mk_datetime (ordinal now) h m 0 0 in
  if to_us now <? to_us today then today else add_days today 1.

(** The least instant among every session's next start and the next
    23:59, in microseconds. *)
Definition nearest_event_us (sessions : config.sessions_t) (now : datetime) : Z :=
  foldr Z.min (to_us (next_occurrence now 23 59))
    (map (fun kv : Z * config.SessionConfig =>
            to_us (next_occurrence now (config.start_hour (snd kv)) 0))
         sessions).

(** [next_wake_delay(now)] as the specification words it, in seconds. *)
Definition next_wake_delay_spec (sessions : config.sessions_t) (now : datetime)
  : Qc :=
  if in_weekend_span now
  then total_seconds (to_us (weekend_open now) - to_us now)
  else (total_seconds (nearest_event_us sessions now - to_us now) + Q2Qc 30)%Qc.

(** Thursday 2025-01-02, 10:15:30. *)
Definition sample_now : datetime := mk_datetime 739253 10 15 30 0.

(** ** Trade counters *)

(** The invariant of a session's counter. *)
Definition counter_ok (c : state.SessionTradeState) : Prop :=
  state.count c = Z.of_nat (length (state.directions c)) /\ state.count c <= 2.

Definition counters_ok (st : state.BotState) : Prop :=
  forall s_id c, state.trades_taken st !! s_id = Some c -> counter_ok c.

(** The state an entries pass leaves behind, however it ends. *)
Definition entries_state (r : main.entries_result) : state.BotState :=
  match r with
  | main.Next st _ => st
  | main.Raised st => st
  end.

(** ** The London scenario *)

(** Thursday 2025-01-02 at 23:00, 23:01, 23:05 and 23:06. *)
Definition t2300 : datetime := mk_datetime 739253 23 0 0 0.
Definition t2301 : datetime := mk_datetime 739253 23 1 0 0.
Definition t2305 : datetime := mk_datetime 739253 23 5 0 0.
Definition t2306 : datetime := mk_datetime 739253 23 6 0 0.

(** The shipped London session. *)
Definition London : config.SessionConfig :=
  {| config.name := "London"; config.ref_hour := 22; config.start_hour := 23;
     config.end_hour := 23; config.target_points := of_digits 2 1;
     config.stop_points := of_digits 5 1 |}.

(** The day's fresh state after the level loader has fetched high 100 and
    low 90 for London at 23:01. *)
Definition london_ready : state.BotState :=
  main.run_events config.SESSIONS
    [ main.LevelCheck t2301 (main.Fetched (Some (of_Z 100, of_Z 90))) 22 London ]
    (state.init_session_maps (state.BotState_new (Some "2025-01-02"%string)) [22]).

(** A broker that fills every entry order at [p]. *)
Definition fills_at (p : Decimal) : Z -> api_client.entry_outcome :=
  fun _ => api_client.Filled p.

(** The London session with a window that spans the hour from 23:00. *)
Definition london_until_midnight : config.sessions_t :=
  [ (22, {| config.name := "London"; config.ref_hour := 22;
            config.start_hour := 23; config.end_hour := 24;
            config.target_points := of_digits 2 1;
            config.stop_points := of_digits 5 1 |}) ].

(** ** Persistence *)

(** Conversions used to run [load] on sample files: [Decimal(v)] on an
    integer, and a [fromisoformat] that accepts nothing. *)
Definition plain_Decimal (v : json) : option Decimal :=
  match v with
  | JInt z => Some (of_Z z)
  | _ => None
  end.

Definition no_datetime (v : json) : option datetime := None.

(** A state file written the day before, with two trades taken, one still
    active, levels loaded and the fetch flag set. *)
Definition stale_fields : list (string * json) :=
    [ ("last_reset_date", JStr "2025-01-01");
      ("trades_taken",
        JObj [ ("22", JObj [ ("count", JInt 2);
                             ("directions", JArr [JStr "LONG"; JStr "SHORT"]) ]) ]);
      ("active_trades",
        JArr [ JObj [ ("side", JStr "SHORT"); ("tp", JInt 99); ("sl", JInt 102);
                      ("sess_name", JStr "London"); ("cutoff_h", JInt 23);
                      ("sess_id", JInt 22); ("entry_price", JInt 100) ] ]);
      ("ref_levels", JObj [ ("22", JObj [ ("high", JInt 100); ("low", JInt 90) ]) ]);
      ("session_trade_eligible_time", JObj [ ("22", JNull) ]);
      ("fetch_attempted", JObj [ ("22", JBool true) ]) ]%string.

Definition stale_doc : json := JObj stale_fields.

(** A state file of today whose entry for session 22 holds [count] and
    [directions] as given. *)
Definition counter_doc (today : string) (n : Z) (dirs : list string) : json :=
  JObj
    [ ("last_reset_date", JStr today);
      ("trades_taken",
        JObj [ ("22", JObj [ ("count", JInt n);
                             ("directions", JArr (map JStr dirs)) ]) ]) ]%string.

(** A zeroed state for the sessions [ids]: no trade, no connection yet, and
    for each listed session a zero counter, no levels, no eligibility time
    and cleared flags; nothing for any other session. *)
Definition zeroed (ids : list Z) (st : state.BotState) : Prop :=
  state.active_trades st = []
  /\ state.reconnect_count st = 0
  /\ forall sid,
      (sid ∈ ids ->
       state.trades_taken st !! sid = Some (state.mk_SessionTradeState 0 [])
       /\ state.ref_levels st !! sid = Some None
       /\ state.session_trade_eligible_time st !! sid = Some None
       /\ state.fetch_attempted st !! sid = Some false
       /\ state.scanning_started st !! sid = Some false)
      /\ (sid ∉ ids ->
          state.trades_taken st !! sid = None
          /\ state.ref_levels st !! sid = None
          /\ state.session_trade_eligible_time st !! sid = None
          /\ state.fetch_attempted st !! sid = None
          /\ state.scanning_started st !! sid = None).

(** The fresh state of 2025-01-02 after three connections. *)
Definition connected_thrice : state.BotState :=
  main.run_events config.SESSIONS [main.Connected; main.Connected; main.Connected]
    (state.init_session_maps (state.BotState_new (Some "2025-01-02"%string)) [22]).

(** A history for the table [london_until_midnight]: levels loaded at
    23:01, then candles closing at 101, 89 and 102 at 23:06, 23:07 and
    23:08, every order filled at the close. *)
Definition breakout_history : list main.event :=
  [ main.LevelCheck t2301 (main.Fetched (Some (of_Z 100, of_Z 90))) 22 London;
    main.Candle "2025-01-02" (of_Z 101) t2306 (fills_at (of_Z 101));
    main.Candle "2025-01-02" (of_Z 89) (mk_datetime 739253 23 7 0 0)
      (fills_at (of_Z 89));
    main.Candle "2025-01-02" (of_Z 102) (mk_datetime 739253 23 8 0 0)
      (fills_at (of_Z 102)) ].

End props.
Import props.

(** * Vocabulary of the further properties *)

(** ** Exits and entries *)

(** The trade gives no exit signal at this close and hour. *)
Definition stays_open (c_close : pydecimal.Decimal) (curr_h : Z)
    (t : state.ActiveTrade) : bool :=
  match strategy.check_exit_signals t c_close curr_h with
  | None => true
  | Some _ => false
  end.

(** The trade [_process_entries] appends for a filled bracket order. *)
Definition opened_trade (signal : strategy.EntrySignal) (s_id : Z)
    (cfg : config.SessionConfig)
    (fill_price target_price stop_price : pydecimal.Decimal)
  : state.ActiveTrade :=
  {| state.side := strategy.side signal;
     state.tp := target_price;
     state.sl := stop_price;
     state.sess_name := config.name cfg;
     state.cutoff_h := config.end_hour cfg;
     state.sess_id := s_id;
     state.entry_price := fill_price |}.

(** The five values a session's counter can take. *)
Definition counter_shape (c : state.SessionTradeState) : Prop :=
  c = state.mk_SessionTradeState 0 []
  \/ c = state.mk_SessionTradeState 1 ["LONG"%string]
  \/ c = state.mk_SessionTradeState 1 ["SHORT"%string]
  \/ c = state.mk_SessionTradeState 2 ["LONG"; "SHORT"]%string
  \/ c = state.mk_SessionTradeState 2 ["SHORT"; "LONG"]%string.

(** The active trades owned by session [sid]. *)
Definition open_trades_of (sid : Z) (l : list state.ActiveTrade)
  : list state.ActiveTrade :=
  List.filter (fun t => state.sess_id t =? sid) l.

(** The number of trades session [sid] has taken (0 without a counter). *)
Definition count_of (st : state.BotState) (sid : Z) : Z :=
  match state.trades_taken st !! sid with
  | Some c => state.count c
  | None => 0
  end.

(** Some session window is open at hour [h]. *)
Definition window_open_somewhere (sessions : config.sessions_t) (h : Z) : bool :=
  existsb (fun kv : Z * config.SessionConfig =>
             risk_management.is_in_session_window (snd kv) h) sessions.

(** Some session has its window open at hour [h] and fewer than two trades
    taken. *)
Definition some_session_can_trade (sessions : config.sessions_t) (h : Z)
    (st : state.BotState) : bool :=
  existsb (fun kv : Z * config.SessionConfig =>
             risk_management.is_in_session_window (snd kv) h
             && match state.trades_taken st !! fst kv with
                | Some c => state.count c <? 2
                | None => false
                end) sessions.

(** The London session with end hour 24, as in [london_until_midnight]. *)
Definition London_late : config.SessionConfig :=
  {| config.name := "London"; config.ref_hour := 22; config.start_hour := 23;
     config.end_hour := 24; config.target_points := pydecimal.of_digits 2 1;
     config.stop_points := pydecimal.of_digits 5 1 |}.

(** Every counter of the state has one of the five values. *)
Definition shapes_ok (st : state.BotState) : Prop :=
  forall s_id c, state.trades_taken st !! s_id = Some c -> counter_shape c.

(** No session has more active trades than trades taken. *)
Definition open_within_count (st : state.BotState) : Prop :=
  forall sid,
    Z.of_nat (length (open_trades_of sid (state.active_trades st)))
    <= count_of st sid.

(** ** Supervisor histories *)

(** The number of failed cycles at the head of a list of outcomes. *)
Fixpoint leading_failures (outcomes : list main.cycle_outcome) : nat :=
  match outcomes with
  | main.Failed :: rest => S (leading_failures rest)
  | _ => 0%nat
  end.

(** The number of failed cycles since the last clean return. *)
Definition trailing_failures (outcomes : list main.cycle_outcome) : nat :=
  leading_failures (reverse outcomes).

(** ** Session maps *)

(** ** Level loader *)

(** The fetch of a loader pass was not cut by cancellation. *)
Definition fetch_completed (fetch : main.fetch_outcome) : Prop :=
  match fetch with
  | main.FetchRaised | main.Fetched _ => True
  | main.FetchCancelled | main.CloseCancelled _ => False
  end.

(** The state a loader pass leaves behind, however it ends. *)
Definition levels_state (r : main.levels_result) : state.BotState :=
  match r with
  | main.LevelsNext st => st
  | main.LevelsRaised st => st
  | main.LevelsCancelled st => st
  end.

(** * Further code *)

(** ** data_handler.py *)

Module data_handler.
Import pydecimal pydatetime.

(** The fields of a [tastytrade.dxfeed.Candle] the bot reads. *)
Record Candle : Type := mk_Candle {
  event_symbol : string;
  time : Z;
  close : Decimal;
  high : Decimal;
  low : Decimal
}.




(** The [async for] of [fetch_hourly_levels]: the first candle whose local
    hour is [hour_pt] and whose high is positive.  [hour_of ms] is
    [datetime.fromtimestamp(ms / 1000, tz).hour], or [None] when
    [fromtimestamp] raises; the method catches that exception and returns
    [None], as it does when the candles run out. *)
Fixpoint first_hour_candle (hour_of : Z -> option Z) (hour_pt : Z)
    (candles : list Candle) : option Candle :=
  match candles with
  | [] => None
  | candle :: rest =>
      match hour_of (time candle) with
      | None => None
      | Some candle_hour =>
          if (candle_hour =? hour_pt) && gt (high candle) 0%Qc
          then Some candle
          else first_hour_candle hour_of hour_pt rest
      end
  end.

(** [DataHandler.fetch_hourly_levels(streamer, hour_pt)].  [now_la] is the
    clock reading the method takes and [candles] what the temporary
    subscription delivers before the stream ends, the 30-second timeout
    expires or an exception is raised (all of which the method turns into
    [None]).  The candle's high and low are exact, so [Decimal(str(x))] is
    [x]. *)
Definition fetch_hourly_levels (hour_of : Z -> option Z) (now_la : datetime)
    (hour_pt : Z) (candles : list Candle) : option (Decimal * Decimal) :=
  match replace_hm now_la hour_pt 0 with
  | None => None
  | Some ref_hour_today =>
      if ltb now_la ref_hour_today then None
      else if hour now_la =? hour_pt then None
      else
        match first_hour_candle hour_of hour_pt candles with
        | Some candle => Some (high candle, low candle)
        | None => None
        end
  end.

End data_handler.

(** ** api_client.py: logging in *)

Module api_client_login.

Inductive login_result : Type :=
| LoggedIn       (* an attempt succeeded; the method returns *)
| LoginRaised    (* the last attempt failed; its exception is re-raised *)
| NotAttempted.  (* the loop body never ran *)

(** The loop of [TastyTradeClient.login] over the attempt numbers still
    to come; [ok attempt] tells whether that attempt (opening the session
    and fetching the future and the account) succeeds.  The 5-second
    sleeps are recorded in order. *)
Fixpoint login_from (max_retries : nat) (attempts : list nat) (ok : nat -> bool)
  : list main.effect * login_result :=
  match attempts with
  | [] => ([], NotAttempted)
  | attempt :: rest =>
      if ok attempt then ([], LoggedIn)
      else if (attempt <? max_retries - 1)%nat then
        let (effs, r) := login_from max_retries rest ok in
        (main.Sleep 5 :: effs, r)
      else ([], LoginRaised)
  end.

Definition max_retries : nat := 3.

(** [TastyTradeClient.login] *)
Definition login (ok : nat -> bool) : list main.effect * login_result :=
  login_from max_retries (seq 0 max_retries) ok.

(** [TastyTradeClient.validate_session]: [session] tells whether a session
    exists and, if so, whether its [validate()] returns. *)
Definition validate_session (session : option bool) : bool :=
  match session with
  | Some validates => validates
  | None => false
  end.

(** [TastyTradeClient.revalidate_session] *)
Definition revalidate_session (session : option bool) (ok : nat -> bool)
  : list main.effect * bool :=
  if validate_session session then ([], true)
  else
    match login ok with
    | (effs, LoginRaised) => (effs, false)
    | (effs, _) => (effs, true)
    end.

End api_client_login.

(** ** main.py: the streaming loop *)

Module stream.
Import pydecimal pydatetime state.





End stream.

(** ** Vocabulary for the further code *)


(** The number of attempts that fail before the first success, among the
    attempts [first], [first + 1], ..., at most [n]. *)
Fixpoint failures_before_success (ok : nat -> bool) (first n : nat) : nat :=
  match n with
  | O => 0%nat
  | S n' => if ok first then 0%nat
            else S (failures_before_success ok (S first) n')
  end.

(** ** Saving and loading *)

(** The maps of counters, levels, eligibility times and fetch flags have
    exactly the listed sessions as keys. *)
Definition complete_for (ids : list Z) (st : state.BotState) : Prop :=
  forall sid,
    (is_Some (state.trades_taken st !! sid) <-> sid ∈ ids)
    /\ (is_Some (state.ref_levels st !! sid) <-> sid ∈ ids)
    /\ (is_Some (state.session_trade_eligible_time st !! sid) <-> sid ∈ ids)
    /\ (is_Some (state.fetch_attempted st !! sid) <-> sid ∈ ids).

(** No session holds an empty dict of levels. *)
Definition levels_nonempty (st : state.BotState) : Prop :=
  forall sid d, state.ref_levels st !! sid = Some (Some d) -> d <> ∅.

(** The state as it comes back from the state file: everything [save]
    writes, the scanning flags cleared, no connection counted. *)
Definition reloaded (ids : list Z) (st : state.BotState) : state.BotState :=
  state.mk_BotState (state.last_reset_date st) (state.trades_taken st)
    (state.active_trades st) (state.ref_levels st)
    (state.session_trade_eligible_time st) (state.fetch_attempted st)
    (state.scanning_started
       (state.init_session_maps (state.BotState_new None) ids)) 0.

(** The conditional insert driven by [f]. *)
Definition put {V W : Type} (f : V -> option W) (kv : Z * V) (m : gmap Z W)
  : gmap Z W :=
  match f (snd kv) with
  | Some w => <[fst kv := w]> m
  | None => m
  end.

(** The levels [load] restores: the non-empty dicts. *)
Definition keep_levels (v : option (gmap string pydecimal.Decimal))
  : option (option (gmap string pydecimal.Decimal)) :=
  match v with
  | Some d => if bool_decide (d = ∅) then None else Some (Some d)
  | None => None
  end.

(** The eligibility times [load] restores: those that are set. *)
Definition keep_time (v : option pydatetime.datetime)
  : option (option pydatetime.datetime) :=
  match v with
  | Some t => Some (Some t)
  | None => None
  end.

(** Conversions that round-trip, used to run a save and a load: a decimal
    and a datetime are written as the decimal digits of their code. *)
Definition coded_Decimal_str (d : pydecimal.Decimal) : string :=
  pretty (Z.pos (encode d)).

Definition coded_Decimal (v : pyjson.json) : option pydecimal.Decimal :=
  match v with
  | pyjson.JStr s =>
      match pyjson.py_int s with
      | Some (Z.pos p) => decode p
      | _ => None
      end
  | _ => None
  end.

Definition coded_isoformat (t : pydatetime.datetime) : string :=
  pretty (Z.pos (encode (pydatetime.ordinal t, pydatetime.hour t,
                         pydatetime.minute t, pydatetime.second t,
                         pydatetime.microsecond t))).

Definition coded_fromisoformat (v : pyjson.json) : option pydatetime.datetime :=
  match v with
  | pyjson.JStr s =>
      match pyjson.py_int s with
      | Some (Z.pos p) =>
          (fun x : Z * Z * Z * Z * Z =>
             match x with
             | (o, h, m, s', u) => pydatetime.mk_datetime o h m s' u
             end) <$> decode p
      | _ => None
      end
  | _ => None
  end.

(** A state of 2025-01-02 with one LONG trade taken and still open. *)
Definition sample_saved_state : state.BotState :=
  state.mk_BotState (Some "2025-01-02"%string)
    {[ 22 := state.mk_SessionTradeState 1 ["LONG"%string] ]}
    [ opened_trade (strategy.mk_EntrySignal "LONG" (pydecimal.of_Z 101)) 22
        London_late (pydecimal.of_Z 101) (pydecimal.of_digits 1012 1)
        (pydecimal.of_digits 1005 1) ]
    {[ 22 := Some (main.levels_dict (pydecimal.of_Z 100, pydecimal.of_Z 90)) ]}
    {[ 22 := Some t2305 ]}
    {[ 22 := true ]}
    {[ 22 := true ]}
    1.

(** Everything but the counters and the trade list is the same. *)
Definition same_outside_trades (st st' : state.BotState) : Prop :=
  state.last_reset_date st' = state.last_reset_date st
  /\ state.ref_levels st' = state.ref_levels st
  /\ state.session_trade_eligible_time st' = state.session_trade_eligible_time st
  /\ state.fetch_attempted st' = state.fetch_attempted st
  /\ state.scanning_started st' = state.scanning_started st
  /\ state.reconnect_count st' = state.reconnect_count st.


(** The eligibility time the loader sets on the day of [now_la]. *)
Definition eligible_from (now_la : pydatetime.datetime)
    (cfg : config.SessionConfig) : pydatetime.datetime :=
  pydatetime.mk_datetime (pydatetime.ordinal now_la) (config.start_hour cfg)
    config.entry_delay_minutes 0 0.

(** ** Bracket prices *)

(** The bracket prices of a fill need no rounding: the exact sum and
    difference of the fill price and the distances have at most 28
    significant digits (and exponents in range), so the context returns
    them as they are. *)
Definition bracket_exact (buy : bool)
    (fill target_points stop_points : pydecimal.Decimal) : Prop :=
  if buy
  then pydecimal.add fill target_points = Some (fill + target_points)%Qc
       /\ pydecimal.sub fill stop_points = Some (fill - stop_points)%Qc
  else pydecimal.sub fill target_points = Some (fill - target_points)%Qc
       /\ pydecimal.add fill stop_points = Some (fill + stop_points)%Qc.


(** A 28-digit fill price, at which a distance of 0.2 is lost in the
    rounding. *)
Definition wide_fill : pydecimal.Decimal :=
  pydecimal.of_Z 1234567890123456789012345678.

(** ** States loaded from any file *)

(** Every listed session has an entry in each of the five per-session
    maps of a loaded state. *)
Definition loaded_populated {D T : Type} (ids : list Z)
    (st : unchecked.BotState D T) : Prop :=
  forall sid, sid ∈ ids ->
    is_Some (unchecked.trades_taken st !! sid)
    /\ is_Some (unchecked.ref_levels st !! sid)
    /\ is_Some (unchecked.session_trade_eligible_time st !! sid)
    /\ is_Some (unchecked.fetch_attempted st !! sid)
    /\ is_Some (unchecked.scanning_started st !! sid).

(** The counters of a loaded state are those of the listed sessions and
    no others. *)
Definition loaded_counters_for {D T : Type} (ids : list Z)
    (st : unchecked.BotState D T) : Prop :=
  forall sid, is_Some (unchecked.trades_taken st !! sid) <-> sid ∈ ids.

Definition loaded_sessions_kept {D T : Type} (ids : list Z)
    (st : unchecked.BotState D T) : Prop :=
  loaded_populated ids st /\ loaded_counters_for ids st.

(** A state file of today in which nothing has the declared type: the
    count is a string, the directions are a number, the fetch flag is a
    list, and a counter is given for a session that is not configured. *)
Definition ill_typed_doc : pyjson.json :=
  pyjson.JObj
    [ ("last_reset_date", pyjson.JStr "2025-01-02");
      ("trades_taken",
        pyjson.JObj
          [ ("22", pyjson.JObj [ ("count", pyjson.JStr "five");
                                 ("directions", pyjson.JInt 7) ]);
            ("23", pyjson.JObj [ ("count", pyjson.JInt 1);
                                 ("directions", pyjson.JArr []) ]) ]);
      ("fetch_attempted",
        pyjson.JObj [ ("22", pyjson.JArr [pyjson.JNull]) ]) ]%string.

(** * Properties *)

(** ** Decimal comparisons *)

Section decimal_facts.
Import pydecimal.

Lemma gt_true (x y : Decimal) : gt x y = true <-> (y < x)%Qc.
Proof. unfold gt. apply bool_decide_eq_true. Qed.

Lemma gt_false (x y : Decimal) : gt x y = false <-> (x <= y)%Qc.
Proof.
  unfold gt. rewrite bool_decide_eq_false.
  split; [apply Qcnot_lt_le | apply Qcle_not_lt].
Qed.

Lemma lt_true (x y : Decimal) : lt x y = true <-> (x < y)%Qc.
Proof. unfold lt. apply bool_decide_eq_true. Qed.

Lemma lt_false (x y : Decimal) : lt x y = false <-> (y <= x)%Qc.
Proof.
  unfold lt. rewrite bool_decide_eq_false.
  split; [apply Qcnot_lt_le | apply Qcle_not_lt].
Qed.

Lemma ge_true (x y : Decimal) : ge x y = true <-> (y <= x)%Qc.
Proof. unfold ge. apply bool_decide_eq_true. Qed.

Lemma ge_false (x y : Decimal) : ge x y = false <-> (x < y)%Qc.
Proof.
  unfold ge. rewrite bool_decide_eq_false.
  split; [apply Qcnot_le_lt | apply Qclt_not_le].
Qed.

Lemma le_true (x y : Decimal) : le x y = true <-> (x <= y)%Qc.
Proof. unfold le. apply bool_decide_eq_true. Qed.

Lemma le_false (x y : Decimal) : le x y = false <-> (y < x)%Qc.
Proof.
  unfold le. rewrite bool_decide_eq_false.
  split; [apply Qcnot_le_lt | apply Qclt_not_le].
Qed.

End decimal_facts.

(** ** Signals *)

Section signal_facts.
Import pydecimal.

(** C6. With [high_level > low_level], [check_entry_signal] returns a LONG
    signal priced at the close exactly when the close is strictly above the
    high, a SHORT signal priced at the close exactly when it is strictly
    below the low, and nothing exactly when the close lies between the two
    levels, bounds included; the two breakout conditions exclude each
    other. *)
Theorem check_entry_signal_spec (close_price high_level low_level : Decimal) :
  (low_level < high_level)%Qc ->
  (strategy.check_entry_signal close_price high_level low_level
     = Some (strategy.mk_EntrySignal "LONG" close_price)
   <-> (high_level < close_price)%Qc)
  /\ (strategy.check_entry_signal close_price high_level low_level
        = Some (strategy.mk_EntrySignal "SHORT" close_price)
      <-> (close_price < low_level)%Qc)
  /\ (strategy.check_entry_signal close_price high_level low_level = None
      <-> (low_level <= close_price)%Qc /\ (close_price <= high_level)%Qc)
  /\ ~ ((high_level < close_price)%Qc /\ (close_price < low_level)%Qc).
Proof.
  intros Hlh. unfold strategy.check_entry_signal.
  assert (Hexcl : ~ ((high_level < close_price)%Qc /\ (close_price < low_level)%Qc)).
  { intros [H1 H2].
    apply (Qclt_not_le _ _ Hlh), Qclt_le_weak.
    exact (Qclt_trans _ _ _ H1 H2). }
  destruct (gt close_price high_level) eqn:Hg.
  - apply gt_true in Hg.
    split; [done |]. split; [| split; [| done]].
    + split; [intros [=] |].
      intros Hlow. exfalso. apply Hexcl. by split.
    + split; [intros [=] |].
      intros [_ Hle]. exfalso. by apply (Qcle_not_lt _ _ Hle).
  - apply gt_false in Hg.
    destruct (lt close_price low_level) eqn:Hl.
    + apply lt_true in Hl.
      split; [| split; [done | split; [| done]]].
      * split; [intros [=] |].
        intros Hgt. exfalso. by apply (Qcle_not_lt _ _ Hg).
      * split; [intros [=] |].
        intros [Hle _]. exfalso. by apply (Qcle_not_lt _ _ Hle).
    + apply lt_false in Hl.
      split; [| split; [| done]].
      * split; [intros [=] |].
        intros Hgt. exfalso. by apply (Qcle_not_lt _ _ Hg).
      * split; [intros [=] |].
        intros Hlt. exfalso. by apply (Qcle_not_lt _ _ Hl).
Qed.

Lemma check_entry_signal_spec_witness :
  (of_Z 90 < of_Z 100)%Qc
  /\ strategy.check_entry_signal (of_Z 101) (of_Z 100) (of_Z 90)
     = Some (strategy.mk_EntrySignal "LONG" (of_Z 101)).
Proof.
  assert (H : (of_Z 90 < of_Z 100)%Qc) by (vm_compute; reflexivity).
  split; [exact H |].
  apply (check_entry_signal_spec (of_Z 101) (of_Z 100) (of_Z 90) H).
  vm_compute; reflexivity.
Defined.

(** C5. [check_exit_signals] returns one optional signal.  Once the
    current hour has reached the trade's cutoff hour the signal is CUTOFF
    whatever the price (so also with cutoff 8, hour 8 and a close at or
    above target).  Before the cutoff, a LONG trade gives TARGET when the
    close is at or above the target, STOP when the close is at or below the
    stop (the target test comes first), and nothing otherwise; any other
    side is mirrored.  Every signal carries the trade and the close. *)
Theorem check_exit_signals_spec (t : state.ActiveTrade) (close_price : Decimal)
    (current_hour : Z) :
  let r := strategy.check_exit_signals t close_price current_hour in
  let sig reason := Some (strategy.mk_ExitSignal reason t close_price) in
  (state.cutoff_h t <= current_hour -> r = sig "CUTOFF"%string)
  /\ (state.cutoff_h t = 8 -> current_hour = 8 ->
      (state.tp t <= close_price)%Qc ->
      r = sig "CUTOFF"%string /\ r <> sig "TARGET"%string)
  /\ (current_hour < state.cutoff_h t -> state.side t = "LONG"%string ->
      ((state.tp t <= close_price)%Qc -> r = sig "TARGET"%string)
      /\ ((close_price < state.tp t)%Qc -> (close_price <= state.sl t)%Qc ->
          r = sig "STOP"%string)
      /\ ((state.sl t < state.tp t)%Qc -> (close_price <= state.sl t)%Qc ->
          r = sig "STOP"%string)
      /\ ((close_price < state.tp t)%Qc -> (state.sl t < close_price)%Qc ->
          r = None))
  /\ (current_hour < state.cutoff_h t -> state.side t <> "LONG"%string ->
      ((close_price <= state.tp t)%Qc -> r = sig "TARGET"%string)
      /\ ((state.tp t < close_price)%Qc -> (state.sl t <= close_price)%Qc ->
          r = sig "STOP"%string)
      /\ ((state.tp t < state.sl t)%Qc -> (state.sl t <= close_price)%Qc ->
          r = sig "STOP"%string)
      /\ ((state.tp t < close_price)%Qc -> (close_price < state.sl t)%Qc ->
          r = None))
  /\ (forall s, r = Some s ->
        strategy.trade s = t /\ strategy.exit_price s = close_price
        /\ (strategy.reason s = "CUTOFF"%string
            \/ strategy.reason s = "TARGET"%string
            \/ strategy.reason s = "STOP"%string)).
Proof.
  cbv zeta. unfold strategy.check_exit_signals.
  split; [| split; [| split; [| split]]].
  - intros Hc. apply Z.leb_le in Hc. by rewrite Hc.
  - intros Hc Hh _. rewrite Hc, Hh. simpl. split; [done | intros [=]].
  - intros Hc Hs. apply Z.leb_gt in Hc. rewrite Hc.
    rewrite (bool_decide_eq_true_2 _ Hs).
    split; [| split; [| split]].
    + intros H. apply ge_true in H. by rewrite H.
    + intros H1 H2. apply ge_false in H1. apply le_true in H2.
      by rewrite H1, H2.
    + intros H1 H2.
      assert (H3 : (close_price < state.tp t)%Qc)
        by exact (Qcle_lt_trans _ _ _ H2 H1).
      apply ge_false in H3. apply le_true in H2. by rewrite H3, H2.
    + intros H1 H2. apply ge_false in H1. apply le_false in H2.
      by rewrite H1, H2.
  - intros Hc Hs. apply Z.leb_gt in Hc. rewrite Hc.
    rewrite (bool_decide_eq_false_2 _ Hs).
    split; [| split; [| split]].
    + intros H. apply le_true in H. by rewrite H.
    + intros H1 H2. apply le_false in H1. apply ge_true in H2.
      by rewrite H1, H2.
    + intros H1 H2.
      assert (H3 : (state.tp t < close_price)%Qc)
        by exact (Qclt_le_trans _ _ _ H1 H2).
      apply le_false in H3. apply ge_true in H2. by rewrite H3, H2.
    + intros H1 H2. apply le_false in H1. apply ge_false in H2.
      by rewrite H1, H2.
  - intros s.
    repeat match goal with
           | |- context [if ?b then _ else _] => destruct b
           end;
      intros [= <-]; simpl; auto.
Qed.

Lemma check_exit_signals_spec_witness :
  strategy.check_exit_signals sample_long_trade (of_Z 106) 8
  = Some (strategy.mk_ExitSignal "CUTOFF" sample_long_trade (of_Z 106))
  /\ strategy.check_exit_signals sample_long_trade (of_Z 106) 7
     = Some (strategy.mk_ExitSignal "TARGET" sample_long_trade (of_Z 106)).
Proof.
  pose proof (check_exit_signals_spec sample_long_trade (of_Z 106) 8) as H8.
  pose proof (check_exit_signals_spec sample_long_trade (of_Z 106) 7) as H7.
  cbv zeta in H8, H7.
  destruct H8 as (Hcut & _). destruct H7 as (_ & _ & Hlong & _).
  split.
  - apply Hcut. vm_compute. intros [=].
  - apply Hlong; [reflexivity | reflexivity |]. vm_compute. intros [=].
Defined.

End signal_facts.

(** ** Risk gate *)

Section risk_facts.

(** C7. For a session that has a counter, [can_take_direction] allows any
    direction when no direction has been taken; when exactly one has been
    taken it allows a direction if and only if it differs from that one;
    when two (or more) have been taken it allows none.  The trades taken
    are those recorded in the counter's [directions] list. *)
Theorem can_take_direction_spec (trades_taken : gmap Z state.SessionTradeState)
    (session_id : Z) (c : state.SessionTradeState) (direction : string) :
  trades_taken !! session_id = Some c ->
  (state.directions c = [] ->
   risk_management.can_take_direction session_id direction trades_taken = true)
  /\ (forall taken, state.directions c = [taken] ->
      (risk_management.can_take_direction session_id direction trades_taken = true
       <-> direction <> taken))
  /\ ((2 <= length (state.directions c))%nat ->
      risk_management.can_take_direction session_id direction trades_taken = false).
Proof.
  intros Hc. unfold risk_management.can_take_direction. rewrite Hc.
  split; [| split].
  - intros ->. reflexivity.
  - intros taken ->. simpl.
    case_bool_decide as Hd; simpl.
    + split; [discriminate | intros Hne; congruence].
    + split; [intros _ ->; by apply Hd | done].
  - intros Hlen.
    destruct (state.directions c) as [| d1 [| d2 l]]; simpl in *; [lia | lia | done].
Qed.

Lemma can_take_direction_spec_witness :
  risk_management.can_take_direction 22 "SHORT"
    {[ 22 := state.mk_SessionTradeState 1 ["LONG"%string] ]} = true
  /\ risk_management.can_take_direction 22 "LONG"
       {[ 22 := state.mk_SessionTradeState 1 ["LONG"%string] ]} <> true.
Proof.
  pose proof (can_take_direction_spec
                {[ 22 := state.mk_SessionTradeState 1 ["LONG"%string] ]} 22
                (state.mk_SessionTradeState 1 ["LONG"%string]) "SHORT"
                eq_refl) as (_ & Hs & _).
  pose proof (can_take_direction_spec
                {[ 22 := state.mk_SessionTradeState 1 ["LONG"%string] ]} 22
                (state.mk_SessionTradeState 1 ["LONG"%string]) "LONG"
                eq_refl) as (_ & Hl & _).
  split.
  - apply (Hs "LONG"%string eq_refl). discriminate.
  - intros H. by apply (Hl "LONG"%string eq_refl) in H.
Defined.

(** The same in terms of [count], for a counter whose [count] is the length
    of its [directions] list. *)
Lemma can_take_direction_by_count (trades_taken : gmap Z state.SessionTradeState)
    (session_id : Z) (c : state.SessionTradeState) (direction : string) :
  trades_taken !! session_id = Some c ->
  state.count c = Z.of_nat (length (state.directions c)) ->
  (state.count c = 0 ->
   risk_management.can_take_direction session_id direction trades_taken = true)
  /\ (state.count c = 1 ->
      exists taken, state.directions c = [taken]
        /\ (risk_management.can_take_direction session_id direction trades_taken
              = true <-> direction <> taken))
  /\ (state.count c = 2 ->
      risk_management.can_take_direction session_id direction trades_taken = false).
Proof.
  intros Hc Hinv. unfold risk_management.can_take_direction. rewrite Hc.
  destruct (state.directions c) as [| d1 [| d2 l]] eqn:Hd; simpl in *.
  - split; [done | split; intros Hz; lia].
  - split; [intros Hz; lia | split; [| intros Hz; lia]].
    intros _. exists d1. split; [done |].
    case_bool_decide as Hd'; simpl.
    + split; [discriminate | intros Hne; congruence].
    + split; [intros _ ->; by apply Hd' | done].
  - split; [intros Hz; lia | split; [intros Hz; lia | done]].
Qed.

(** A missing counter allows nothing. *)
Lemma can_take_direction_missing (trades_taken : gmap Z state.SessionTradeState)
    (session_id : Z) (direction : string) :
  trades_taken !! session_id = None ->
  risk_management.can_take_direction session_id direction trades_taken = false.
Proof. intros H. unfold risk_management.can_take_direction. by rewrite H. Qed.

End risk_facts.

(** ** Supervisor *)

Section supervisor_facts.
Import main.

Lemma start_iteration_failed_below (n : Z) :
  n + 1 < 10 ->
  start_iteration n Failed
  = ((if (n + 1 =? 1) || ((n + 1) mod 3 =? 0) then [error_notice (n + 1)] else [])
       ++ [Sleep (backoff (n + 1)); Sleep 2], Some (n + 1)).
Proof.
  intros Hn. unfold start_iteration, max_consecutive_errors.
  destruct (Z.leb_spec 10 (n + 1)) as [Hge | _]; [lia | reflexivity].
Qed.

Lemma start_iteration_counter (n : Z) (o : cycle_outcome) (effs : list effect)
    (m : Z) :
  0 <= n < 10 -> start_iteration n o = (effs, Some m) -> 0 <= m < 10.
Proof.
  intros Hn. destruct o; simpl.
  - intros [= _ <-]. lia.
  - unfold max_consecutive_errors.
    destruct (Z.leb_spec 10 (n + 1)); [discriminate |].
    intros [= _ <-]. lia.
Qed.

Lemma start_from_running (outcomes : list cycle_outcome) :
  forall n effs m,
    0 <= n < 10 -> start_from n outcomes = (effs, Running m) -> 0 <= m < 10.
Proof.
  induction outcomes as [| o rest IH]; intros n effs m Hn; simpl.
  - intros [= _ <-]. exact Hn.
  - destruct (start_iteration n o) as [e1 [k |]] eqn:Hit; [| discriminate].
    destruct (start_from k rest) as [e2 final] eqn:Hrest.
    intros [= _ ->].
    eapply IH; [| exact Hrest].
    eapply start_iteration_counter; eauto.
Qed.

Lemma start_from_stopped_app (outcomes rest : list cycle_outcome) :
  forall n,
    snd (start_from n outcomes) = Stopped ->
    start_from n (outcomes ++ rest) = start_from n outcomes.
Proof.
  induction outcomes as [| o more IH]; intros n; simpl.
  - discriminate.
  - destruct (start_iteration n o) as [e1 [k |]]; [| done].
    specialize (IH k).
    destruct (start_from k more) as [e2 final] eqn:Hmore. simpl in *.
    intros Hs. by rewrite (IH Hs).
Qed.

Lemma start_from_app (l1 l2 : list cycle_outcome) :
  forall n,
    start_from n (l1 ++ l2)
    = match start_from n l1 with
      | (effs, Running m) =>
          let (effs', final) := start_from m l2 in (effs ++ effs', final)
      | (effs, Stopped) => (effs, Stopped)
      end.
Proof.
  induction l1 as [| o l1 IH]; intros n; simpl.
  - by destruct (start_from n l2).
  - destruct (start_iteration n o) as [e1 [k |]]; [| done].
    rewrite IH.
    destruct (start_from k l1) as [e2 [m |]]; [| done].
    destruct (start_from m l2) as [e3 final]. by rewrite app_assoc.
Qed.

Lemma start_from_failures_stop (k : nat) :
  forall n rest,
    0 <= n < 10 -> 10 <= n + Z.of_nat k ->
    snd (start_from n (replicate k Failed ++ rest)) = Stopped.
Proof.
  induction k as [| k IH]; intros n rest Hn Hk; [lia |].
  cbn [replicate app start_from].
  unfold start_iteration, max_consecutive_errors.
  destruct (Z.leb_spec 10 (n + 1)) as [Hge | Hlt]; [done |].
  specialize (IH (n + 1) rest ltac:(lia) ltac:(lia)).
  by destruct (start_from (n + 1) (replicate k Failed ++ rest)).
Qed.

(** C8. The supervisor loop starts with its consecutive-error counter at
    zero.  Wherever the loop stands after some monitor cycles, with its
    counter at [n] (which is below 10 while the loop runs): a clean return
    of the next cycle sets the counter to zero and the loop cools down 2 s;
    an exception increments the counter, and below the ceiling of 10 a
    notice is sent exactly when the new count is 1 or a multiple of 3, the
    backoff sleep is [min(30 * 2^(errors-1), 300)] seconds (followed by the
    loop's 2 s cool-down) and the loop goes on with the new count; the
    tenth consecutive error sends the final notice and leaves the loop: no
    sleep, no retry, and whatever would come after is never run.  So ten
    failed cycles in a row, after any history, leave the supervisor
    stopped. *)
Theorem supervisor_spec :
  start [] = ([], Running 0)
  /\ (forall outcomes effs n,
        start outcomes = (effs, Running n) ->
        0 <= n < 10
        /\ start (outcomes ++ [Returned]) = (effs ++ [Sleep 2], Running 0)
        /\ (n + 1 < 10 ->
            start (outcomes ++ [Failed])
            = (effs
                 ++ (if bool_decide (n + 1 = 1 \/ (n + 1) mod 3 = 0)
                     then [error_notice (n + 1)] else [])
                 ++ [Sleep (backoff (n + 1)); Sleep 2],
               Running (n + 1)))
        /\ (n + 1 = 10 ->
            forall rest,
              start (outcomes ++ Failed :: rest)
              = (effs ++ [stopped_notice], Stopped)))
  /\ (forall outcomes rest,
        snd (start outcomes) = Stopped ->
        start (outcomes ++ rest) = start outcomes)
  /\ (forall outcomes rest,
        snd (start (outcomes ++ replicate 10 Failed ++ rest)) = Stopped).
Proof.
  split; [reflexivity |]. split; [| split].
  - intros outcomes effs n Hrun.
    assert (Hn : 0 <= n < 10)
      by (eapply (start_from_running outcomes 0); [lia | exact Hrun]).
    unfold start in *.
    split; [exact Hn |]. split; [| split].
    + rewrite start_from_app, Hrun. reflexivity.
    + intros Hlt. rewrite start_from_app, Hrun. cbn [start_from].
      rewrite (start_iteration_failed_below n Hlt).
      rewrite app_nil_r. f_equal. f_equal. f_equal.
      case_bool_decide as Hd.
      * destruct Hd as [H1 | H3].
        -- apply Z.eqb_eq in H1. by rewrite H1.
        -- apply Z.eqb_eq in H3. by rewrite H3, orb_true_r.
      * destruct (Z.eqb_spec (n + 1) 1) as [H1 | _]; [by destruct Hd; left |].
        destruct (Z.eqb_spec ((n + 1) mod 3) 0) as [H3 | _];
          [by destruct Hd; right | reflexivity].
    + intros H10 rest. rewrite start_from_app, Hrun.
      replace n with 9 by lia. reflexivity.
  - intros outcomes rest. unfold start. apply start_from_stopped_app.
  - intros outcomes rest. unfold start. rewrite start_from_app.
    destruct (start_from 0 outcomes) as [effs [n |]] eqn:Hrun; [| done].
    assert (Hn : 0 <= n < 10)
      by (eapply (start_from_running outcomes 0); [lia | exact Hrun]).
    pose proof (start_from_failures_stop 10 n rest Hn ltac:(lia)) as Hstop.
    by destruct (start_from n (replicate 10 Failed ++ rest)).
Qed.

Lemma supervisor_spec_witness :
  start [Failed; Failed; Failed]
  = ([error_notice 1; Sleep 30; Sleep 2; Sleep 60; Sleep 2;
      error_notice 3; Sleep 120; Sleep 2], Running 3)
  /\ start [Failed; Failed; Returned]
     = ([error_notice 1; Sleep 30; Sleep 2; Sleep 60; Sleep 2; Sleep 2],
        Running 0).
Proof.
  destruct supervisor_spec as (_ & Hstep & _).
  destruct (Hstep [Failed; Failed]
              [error_notice 1; Sleep 30; Sleep 2; Sleep 60; Sleep 2] 2 eq_refl)
    as (_ & Hclean & Hfail & _).
  split; [apply Hfail; lia | exact Hclean].
Defined.

(** Ten failures in a row from a fresh supervisor: the whole trace. *)
Example start_ten_failures :
  start (replicate 10 Failed)
  = ([ error_notice 1; Sleep 30; Sleep 2;
       Sleep 60; Sleep 2;
       error_notice 3; Sleep 120; Sleep 2;
       Sleep 240; Sleep 2;
       Sleep 300; Sleep 2;
       error_notice 6; Sleep 300; Sleep 2;
       Sleep 300; Sleep 2;
       Sleep 300; Sleep 2;
       error_notice 9; Sleep 300; Sleep 2;
       stopped_notice ], Stopped).
Proof. vm_compute. reflexivity. Qed.

(** A clean cycle in between starts the count again. *)
Example start_reset_between_failures :
  start (replicate 9 Failed ++ [Returned] ++ replicate 9 Failed)
  = (fst (start (replicate 9 Failed)) ++ [Sleep 2]
       ++ fst (start (replicate 9 Failed)), Running 9).
Proof. vm_compute. reflexivity. Qed.

End supervisor_facts.

(** ** Scheduler *)

Section scheduler_facts.
Import pydatetime main.

Lemma replace_hm_valid (t : datetime) (h m : Z) :
  0 <= h < 24 -> 0 <= m < 60 ->
  replace_hm t h m = Some (mk_datetime (ordinal t) h m 0 0).
Proof.
  intros Hh Hm. unfold replace_hm.
  destruct (Z.leb_spec 0 h); [| lia]. destruct (Z.ltb_spec h 24); [| lia].
  destruct (Z.leb_spec 0 m); [| lia]. destruct (Z.ltb_spec m 60); [| lia].
  reflexivity.
Qed.

Lemma next_start_occurrence (now : datetime) (cfg : config.SessionConfig) :
  0 <= config.start_hour cfg < 24 ->
  next_start now cfg = Some (next_occurrence now (config.start_hour cfg) 0).
Proof.
  intros Hh. unfold next_start, next_occurrence.
  rewrite replace_hm_valid by lia. simpl. f_equal.
  unfold leb. rewrite Z.leb_antisym.
  by destruct (to_us now <? _).
Qed.

Lemma future_events_occurrences (sessions : config.sessions_t) (now : datetime) :
  start_hours_valid sessions = true ->
  mapM (next_start now) (map snd sessions)
  = Some (map (fun kv : Z * config.SessionConfig =>
                 next_occurrence now (config.start_hour (snd kv)) 0) sessions).
Proof.
  induction sessions as [| [s_id cfg] rest IH]; simpl; [done |].
  intros Hv. apply andb_prop in Hv as [Hh Hrest].
  apply andb_prop in Hh as [H0 H24].
  apply Z.leb_le in H0. apply Z.ltb_lt in H24.
  rewrite next_start_occurrence by lia. simpl.
  rewrite (IH Hrest). reflexivity.
Qed.

Lemma min_from_to_us (l : list datetime) :
  forall best, to_us (min_from best l) = fold_left Z.min (map to_us l) (to_us best).
Proof.
  induction l as [| t l IH]; intros best; simpl; [done |].
  rewrite IH. f_equal. unfold ltb.
  destruct (Z.ltb_spec (to_us t) (to_us best)); lia.
Qed.

Lemma fold_left_min_foldr (l : list Z) :
  forall a b, fold_left Z.min (l ++ [b]) a = Z.min a (foldr Z.min b l).
Proof.
  induction l as [| x l IH]; intros a b; simpl; [done |].
  rewrite IH. lia.
Qed.

Lemma py_min_snoc (l : list datetime) (last : datetime) :
  exists t, py_min (l ++ [last]) = Some t
            /\ to_us t = foldr Z.min (to_us last) (map to_us l).
Proof.
  destruct l as [| x l]; simpl.
  - by exists last.
  - exists (min_from x (l ++ [last])). split; [done |].
    rewrite min_from_to_us, map_app. simpl.
    apply fold_left_min_foldr.
Qed.

Lemma should_be_scanning_from_closed (sessions : config.sessions_t) (h : Z)
    (st : state.BotState) :
  forall flag,
    no_window_open sessions h = true ->
    should_be_scanning_from sessions h st flag = Some flag.
Proof.
  induction sessions as [| [s_id cfg] rest IH]; intros flag; simpl; [done |].
  intros Hc. apply andb_prop in Hc as [Hw Hrest].
  unfold risk_management.is_in_session_window in Hw.
  apply negb_true_iff in Hw. rewrite Hw. by apply IH.
Qed.

(** A wall-clock time of day that has not passed is met today, one that
    has is met tomorrow: the next occurrence lies strictly after [now] and
    at most a day ahead. *)
Lemma next_occurrence_future (now : datetime) (h m : Z) :
  valid now -> 0 <= h < 24 -> 0 <= m < 60 ->
  to_us now < to_us (next_occurrence now h m) <= to_us now + 86400000000
  /\ hour (next_occurrence now h m) = h
  /\ minute (next_occurrence now h m) = m.
Proof.
  intros (Hh & Hm & Hs & Hu) Hh' Hm'. unfold next_occurrence. cbv zeta.
  destruct (Z.ltb_spec (to_us now) (to_us (mk_datetime (ordinal now) h m 0 0)))
    as [Hlt | Hge]; unfold to_us, add_days in *; simpl in *; lia.
Qed.

(** The opening instant is a Sunday, 15:00, after any instant of the
    weekend span. *)
Lemma weekend_open_sunday (now : datetime) :
  valid now -> in_weekend_span now = true ->
  weekday (weekend_open now) = 6
  /\ hour (weekend_open now) = 15
  /\ to_us now < to_us (weekend_open now).
Proof.
  intros (Hh & Hm & Hs & Hu) Hw. unfold in_weekend_span in Hw.
  unfold weekend_open, weekday in *. simpl.
  split; [| split; [done |]].
  - replace (ordinal now + (6 - (ordinal now + 6) mod 7) + 6)
      with (6 + (ordinal now + 6 - (ordinal now + 6) mod 7)) by lia.
    rewrite (Z.div_mod (ordinal now + 6) 7) at 1 by lia.
    replace (6 + (7 * ((ordinal now + 6) `div` 7) + (ordinal now + 6) `mod` 7
                  - (ordinal now + 6) `mod` 7))
      with (6 + ((ordinal now + 6) `div` 7) * 7) by lia.
    by rewrite Z.mod_add.
  - unfold to_us. simpl.
    apply orb_prop in Hw as [Hfri | Hsat].
    + apply andb_prop in Hfri as [Hfri _]. apply Z.eqb_eq in Hfri. lia.
    + apply Z.eqb_eq in Hsat. lia.
Qed.

(** C9. With a session table whose start hours are hours of the day:
    when no session window is open at the current hour, the scanning flag
    is false; the delay [_wait_until_next_event] computes is the one the
    specification describes, that is, inside the weekend span the time
    until the Sunday opening instant, and otherwise the least of every
    session's next start-hour occurrence and the next 23:59, minus now,
    plus 30 seconds; and a monitor cycle that finds no window open and no
    active trade (and is not at 23:59) goes to sleep for that delay when it
    exceeds 60 seconds. *)
Theorem next_wake_delay_correct (sessions : config.sessions_t) (now : datetime) :
  start_hours_valid sessions = true ->
  (forall st h,
      no_window_open sessions h = true ->
      should_be_scanning sessions h st = Some false)
  /\ wait_until_next_event sessions now = Some (next_wake_delay_spec sessions now)
  /\ (forall date_str now_la today_new login_ok st,
        let st1 :=
          if bool_decide (state.last_reset_date st
                          = Some (date_str (ordinal now_la)))
          then st else reset_daily_state sessions today_new st in
        ~ (hour now_la = 23 /\ minute now_la = 59) ->
        no_window_open sessions (hour now_la) = true ->
        state.active_trades st1 = [] ->
        (Q2Qc 60 < next_wake_delay_spec sessions now)%Qc ->
        run_monitor_cycle_head date_str sessions now_la today_new now login_ok st
        = Some (SleepUntil st1 (next_wake_delay_spec sessions now))).
Proof.
  intros Hv.
  assert (Hwait : wait_until_next_event sessions now
                  = Some (next_wake_delay_spec sessions now)).
  { unfold wait_until_next_event, next_wake_delay_spec, in_weekend_span.
    cbv zeta.
    destruct ((weekday now =? 4) && (14 <=? hour now) || (weekday now =? 5))
      eqn:Hw.
    - unfold replace_hm. simpl. reflexivity.
    - rewrite (future_events_occurrences sessions now Hv). simpl.
      set (mr := if leb _ now then _ else _).
      assert (Hmr : mr = next_occurrence now 23 59).
      { unfold mr, next_occurrence, leb. cbv zeta. rewrite Z.leb_antisym.
        by destruct (to_us now <? _). }
      destruct (py_min_snoc
                  (map (fun kv : Z * config.SessionConfig =>
                          next_occurrence now (config.start_hour (snd kv)) 0)
                       sessions) mr) as (t & Ht & Hus).
      rewrite Ht. simpl. unfold sub_us, nearest_event_us.
      rewrite Hus, Hmr, map_map. reflexivity. }
  split; [| split; [exact Hwait |]].
  - intros st h Hc. unfold should_be_scanning.
    by apply should_be_scanning_from_closed.
  - intros date_str now_la today_new login_ok st st1 Hnot Hc Hact Hlong.
    unfold run_monitor_cycle_head. cbv zeta.
    assert (Hm : (hour now_la =? 23) && (minute now_la =? 59) = false).
    { apply andb_false_iff.
      destruct (Z.eqb_spec (hour now_la) 23); [| by left].
      destruct (Z.eqb_spec (minute now_la) 59); [| by right].
      by destruct Hnot. }
    rewrite Hm. fold st1.
    unfold should_be_scanning.
    rewrite (should_be_scanning_from_closed sessions (hour now_la) st1 false Hc).
    simpl. rewrite Hact. simpl. rewrite Hwait. simpl.
    by rewrite (bool_decide_eq_true_2 _ Hlong).
Qed.

Lemma next_wake_delay_correct_witness :
  start_hours_valid config.SESSIONS = true
  /\ wait_until_next_event config.SESSIONS sample_now
     = Some (next_wake_delay_spec config.SESSIONS sample_now)
  /\ next_wake_delay_spec config.SESSIONS sample_now = Q2Qc 45900.
Proof.
  split; [reflexivity |]. split.
  - apply (next_wake_delay_correct config.SESSIONS sample_now). reflexivity.
  - apply Qc_is_canon. vm_compute. reflexivity.
Defined.

End scheduler_facts.

(** ** Session maps *)

Section session_map_facts.
Import state.

Lemma setdefault_lookup {V : Type} (k k' : Z) (v : V) (m : gmap Z V) :
  setdefault k v m !! k'
  = match m !! k' with
    | Some x => Some x
    | None => if bool_decide (k' = k) then Some v else None
    end.
Proof.
  unfold setdefault. destruct (m !! k) eqn:Hk.
  - destruct (m !! k') eqn:Hk'; [done |].
    case_bool_decide; [congruence | done].
  - destruct (decide (k' = k)) as [-> | Hne].
    + rewrite lookup_insert_eq, Hk. by rewrite bool_decide_eq_true_2.
    + rewrite lookup_insert_ne by done.
      destruct (m !! k'); [done |]. by rewrite bool_decide_eq_false_2.
Qed.

Lemma init_session_maps_frame (ids : list Z) :
  forall st,
    last_reset_date (init_session_maps st ids) = last_reset_date st
    /\ active_trades (init_session_maps st ids) = active_trades st
    /\ reconnect_count (init_session_maps st ids) = reconnect_count st.
Proof.
  unfold init_session_maps.
  induction ids as [| sid rest IH]; intros st; simpl; [done |].
  destruct (IH (init_session st sid)) as (H1 & H2 & H3).
  by rewrite H1, H2, H3.
Qed.

Lemma fresh_step {V : Type} (old : option V) (zero : V) (sid id : Z)
    (rest : list Z) :
  match
    match old with
    | Some x => Some x
    | None => if bool_decide (sid = id) then Some zero else None
    end
  with
  | Some x => Some x
  | None => if bool_decide (sid ∈ rest) then Some zero else None
  end
  = match old with
    | Some x => Some x
    | None => if bool_decide (sid ∈ id :: rest) then Some zero else None
    end.
Proof.
  destruct old as [x |]; [done |].
  destruct (decide (sid = id)) as [-> | Hne].
  - rewrite !bool_decide_eq_true_2; [done | by left | done].
  - rewrite (bool_decide_eq_false_2 (sid = id)) by done.
    destruct (decide (sid ∈ rest)) as [Hin | Hnin].
    + rewrite !bool_decide_eq_true_2; [done | by right | done].
    + rewrite !bool_decide_eq_false_2; [done | | done].
      intros Hc. apply elem_of_cons in Hc as [? | ?]; done.
Qed.

(** After [init_session_maps] every map keeps its entries and has the
    zero entry for each listed session that had none. *)
Lemma init_session_maps_lookup (ids : list Z) (sid : Z) :
  forall st,
    let st' := init_session_maps st ids in
    let fresh {V : Type} (old : option V) (zero : V) : option V :=
      match old with
      | Some x => Some x
      | None => if bool_decide (sid ∈ ids) then Some zero else None
      end in
    trades_taken st' !! sid = fresh (trades_taken st !! sid) SessionTradeState_default
    /\ ref_levels st' !! sid = fresh (ref_levels st !! sid) None
    /\ session_trade_eligible_time st' !! sid
       = fresh (session_trade_eligible_time st !! sid) None
    /\ fetch_attempted st' !! sid = fresh (fetch_attempted st !! sid) false
    /\ scanning_started st' !! sid = fresh (scanning_started st !! sid) false.
Proof.
  unfold init_session_maps. cbv zeta.
  induction ids as [| id rest IH]; intros st; simpl.
  - repeat split; by destruct (_ !! sid).
  - destruct (IH (init_session st id)) as (H1 & H2 & H3 & H4 & H5).
    rewrite H1, H2, H3, H4, H5. unfold init_session. simpl.
    rewrite !setdefault_lookup, !fresh_step. done.
Qed.

End session_map_facts.

(** ** Trade counters across the entry pipeline *)

Section counter_facts.
Import state main.

Lemma is_trade_eligible_true (s_id : Z) (taken : gmap Z SessionTradeState)
    (now : pydatetime.datetime) (eligible_time : option pydatetime.datetime) :
  risk_management.is_trade_eligible s_id taken now eligible_time = true ->
  exists c e, taken !! s_id = Some c /\ count c < 2
              /\ eligible_time = Some e /\ pydatetime.ltb now e = false.
Proof.
  unfold risk_management.is_trade_eligible.
  destruct (taken !! s_id) as [c |]; [| discriminate].
  destruct (Z.leb_spec 2 (count c)); [discriminate |].
  destruct eligible_time as [e |]; [| discriminate].
  destruct (pydatetime.ltb now e) eqn:Hlt; [discriminate |].
  intros _. by exists c, e.
Qed.

Lemma can_take_direction_true (s_id : Z) (direction : string)
    (taken : gmap Z SessionTradeState) :
  risk_management.can_take_direction s_id direction taken = true ->
  exists c, taken !! s_id = Some c /\ (length (directions c) <= 1)%nat
            /\ directions c <> [direction].
Proof.
  unfold risk_management.can_take_direction.
  destruct (taken !! s_id) as [c |]; [| discriminate].
  destruct (directions c) as [| d1 [| d2 l]] eqn:Hdirs; simpl.
  - intros _. exists c. rewrite Hdirs. split; [done |]. split; [simpl; lia | done].
  - case_bool_decide as Hd; simpl; [discriminate |].
    intros _. exists c. rewrite Hdirs. split; [done |]. split; [simpl; lia |].
    intros [= ->]. by apply Hd.
  - discriminate.
Qed.

(** What one pass of the entry loop does to the counters: nothing, or one
    more trade in a session that was eligible and for a direction the
    gate allows. *)
Lemma process_entry_session_counters c_close now_la curr_h order s_id cfg st w :
  let st' := entries_state
               (process_entry_session c_close now_la curr_h order s_id cfg st w) in
  trades_taken st' = trades_taken st
  \/ exists c direction,
       trades_taken st !! s_id = Some c
       /\ count c < 2
       /\ (length (directions c) <= 1)%nat
       /\ directions c <> [direction]
       /\ trades_taken st'
          = <[s_id := {| count := count c + 1;
                         directions := directions c ++ [direction] |}]>
              (trades_taken st).
Proof.
  cbv zeta. unfold process_entry_session.
  destruct (negb (risk_management.is_in_session_window cfg curr_h));
    [by left |].
  destruct (risk_management.is_trade_eligible _ _ _ _) eqn:Hel; simpl;
    [| by left].
  destruct (mjoin (ref_levels st !! s_id)) as [lvls |]; [| by left].
  case_bool_decide; [by left |].
  destruct (lvls !! "high"%string) as [high |]; [| by left].
  destruct (lvls !! "low"%string) as [low |]; [| by left].
  destruct (strategy.check_entry_signal c_close high low) as [signal |];
    [| by left].
  destruct (risk_management.can_take_direction _ _ _) eqn:Hdir; simpl;
    [| by left].
  destruct (api_client.place_bracket_order _ _ _ _) as [[msg | fp tpx slx] |];
    [by left | | by left].
  destruct (negb (notice_prices_defined signal cfg)); [by left |].
  simpl.
  apply is_trade_eligible_true in Hel as (c & e & Hc & Hlt & _).
  apply can_take_direction_true in Hdir as (c' & Hc' & Hlen & Hne).
  rewrite Hc in Hc'. injection Hc' as <-.
  rewrite Hc. simpl. right. by exists c, (strategy.side signal).
Qed.

Lemma counters_ok_insert (st : BotState) (s_id : Z) (c : SessionTradeState)
    (direction : string) (m : gmap Z SessionTradeState) :
  counters_ok st ->
  trades_taken st !! s_id = Some c ->
  count c < 2 ->
  m = <[s_id := {| count := count c + 1;
                   directions := directions c ++ [direction] |}]>
        (trades_taken st) ->
  forall k c', m !! k = Some c' -> counter_ok c'.
Proof.
  intros Hok Hc Hlt -> k c'.
  destruct (decide (k = s_id)) as [-> | Hne].
  - rewrite lookup_insert_eq. intros [= <-].
    destruct (Hok _ _ Hc) as [Hlen _].
    unfold counter_ok. simpl. rewrite length_app. simpl. lia.
  - rewrite lookup_insert_ne by done. apply Hok.
Qed.

Lemma process_entry_session_ok c_close now_la curr_h order s_id cfg st w :
  counters_ok st ->
  counters_ok (entries_state
                 (process_entry_session c_close now_la curr_h order s_id cfg st w)).
Proof.
  intros Hok.
  destruct (process_entry_session_counters c_close now_la curr_h order
              s_id cfg st w) as [Heq | (c & d & Hc & Hlt & _ & _ & Heq)].
  - unfold counters_ok. rewrite Heq. exact Hok.
  - unfold counters_ok. intros k c'. by eapply counters_ok_insert.
Qed.

Lemma process_entries_from_ok c_close now_la curr_h orders sessions :
  forall st w,
    counters_ok st ->
    counters_ok (entries_state
                   (process_entries_from c_close now_la curr_h orders sessions st w)).
Proof.
  induction sessions as [| [s_id cfg] rest IH]; intros st w Hok; simpl; [done |].
  pose proof (process_entry_session_ok c_close now_la curr_h (orders s_id)
                s_id cfg st w Hok) as Hstep.
  destruct (process_entry_session _ _ _ _ _ _ _ _) as [st' w' | st']; simpl in *.
  - by apply IH.
  - done.
Qed.

Lemma process_exits_trades_taken c_close curr_h st :
  trades_taken (process_exits c_close curr_h st) = trades_taken st.
Proof. unfold process_exits. by destruct (active_trades st). Qed.

Lemma check_levels_session_trades_taken now_la fetch s_id cfg st :
  match check_levels_session now_la fetch s_id cfg st with
  | LevelsNext st' | LevelsRaised st' | LevelsCancelled st' =>
      trades_taken st' = trades_taken st
  end.
Proof.
  unfold check_levels_session. cbv zeta.
  destruct (pydatetime.hour now_la <? config.start_hour cfg); [done |].
  case_bool_decide; [done |].
  destruct (default false (fetch_attempted st !! s_id)); [done |].
  destruct fetch as [| lvls | | lvls]; simpl;
    repeat case_match; simplify_eq; done.
Qed.

Lemma init_session_maps_ok (ids : list Z) (st : BotState) :
  counters_ok st -> counters_ok (init_session_maps st ids).
Proof.
  intros Hok k c.
  destruct (init_session_maps_lookup ids k st) as (H & _). rewrite H.
  destruct (trades_taken st !! k) as [c0 |] eqn:Hk.
  - intros [= <-]. by eapply Hok.
  - case_bool_decide; [| discriminate].
    intros [= <-]. unfold counter_ok. simpl. lia.
Qed.

Lemma BotState_new_ok (d : option string) : counters_ok (BotState_new d).
Proof. intros k c. simpl. by rewrite lookup_empty. Qed.

Lemma run_event_ok (sessions : config.sessions_t) (e : event) (st : BotState) :
  counters_ok st -> counters_ok (run_event sessions e st).
Proof.
  intros Hok. destruct e as [today c_close now_la orders
                            | c_close now_la curr_h order s_id cfg
                            | c_close curr_h
                            | now_la fetch s_id cfg
                            | today |]; simpl.
  - unfold on_candle. cbv zeta.
    destruct ((pydatetime.hour now_la =? 23) && (pydatetime.minute now_la =? 59)).
    + apply init_session_maps_ok, BotState_new_ok.
    + assert (Hex : counters_ok (process_exits c_close (pydatetime.hour now_la) st)).
      { unfold counters_ok. by rewrite process_exits_trades_taken. }
      pose proof (process_entries_from_ok c_close now_la (pydatetime.hour now_la)
                    orders sessions _ false Hex) as Hen.
      unfold process_entries.
      destruct (process_entries_from _ _ _ _ _ _ _) as [st2 w | st2];
        simpl in *; [| done].
      by destruct (negb w && bool_decide (active_trades st2 = [])).
  - pose proof (process_entry_session_ok c_close now_la curr_h order s_id cfg
                  st false Hok) as Hen.
    by destruct (process_entry_session _ _ _ _ _ _ _ _).
  - unfold counters_ok. by rewrite process_exits_trades_taken.
  - pose proof (check_levels_session_trades_taken now_la fetch s_id cfg st) as Hl.
    destruct (check_levels_session _ _ _ _ _); unfold counters_ok; by rewrite Hl.
  - apply init_session_maps_ok, BotState_new_ok.
  - exact Hok.
Qed.

(** C1. Start from the state [init_session_maps] builds, where every
    session's counter is zeroed.  After any history of candles through the
    streaming loop (exits, then the entry loop guarded by
    [is_trade_eligible] and [can_take_direction]), single passes of the
    entry loop, level-loader passes, daily resets and reconnections, every
    session's counter satisfies [count = len(directions)] and
    [count <= 2]. *)
Theorem trade_counter_invariant (sessions : config.sessions_t) (d : option string)
    (session_ids : list Z) (events : list event) :
  counters_ok
    (run_events sessions events (init_session_maps (BotState_new d) session_ids)).
Proof.
  unfold run_events.
  assert (H0 : counters_ok (init_session_maps (BotState_new d) session_ids))
    by apply init_session_maps_ok, BotState_new_ok.
  revert H0. generalize (init_session_maps (BotState_new d) session_ids).
  induction events as [| e rest IH]; intros st Hok; simpl; [done |].
  apply IH. by apply run_event_ok.
Qed.

(** The bound is reached: a LONG breakout, then a SHORT one (the LONG
    trade having been stopped out on the same candle), after which a
    further breakout is refused and the last trade stopped out. *)
Example breakout_history_counts :
  let st := run_events london_until_midnight breakout_history
              (init_session_maps (BotState_new (Some "2025-01-02"%string)) [22]) in
  trades_taken st !! 22
  = Some (mk_SessionTradeState 2 ["LONG"; "SHORT"]%string)
  /\ active_trades st = [].
Proof. split; vm_compute; reflexivity. Qed.

End counter_facts.

(** ** The shipped session table *)

Section london_facts.
Import pydecimal state main.

Lemma process_exits_no_trades c_close curr_h st :
  active_trades st = [] -> process_exits c_close curr_h st = st.
Proof. intros H. unfold process_exits. by rewrite H. Qed.

Lemma SESSIONS_London : config.SESSIONS = [(22, London)].
Proof. reflexivity. Qed.

(** The window of the shipped session, [23 <= hour < 23], holds at no
    hour. *)
Lemma shipped_window_never_open (h : Z) :
  risk_management.is_in_session_window London h = false.
Proof.
  unfold risk_management.is_in_session_window. simpl.
  destruct (Z.leb_spec 23 h), (Z.ltb_spec h 23); simpl; try done; lia.
Qed.

(** With the shipped table the entry loop never changes the state and
    never reports an active window. *)
Lemma shipped_process_entries_idle c_close now_la curr_h orders st :
  process_entries config.SESSIONS c_close now_la curr_h orders st = Next st false.
Proof.
  unfold process_entries, config.SESSIONS. simpl.
  unfold process_entry_session.
  change (risk_management.is_in_session_window _ curr_h)
    with (risk_management.is_in_session_window London curr_h).
  by rewrite shipped_window_never_open.
Qed.

(** C3. With the shipped table, levels high 100 and
    low 90 loaded for London, eligibility time 23:05 reached, a free
    counter and a LONG breakout at close 101, the candle of 23:06 opens no
    trade: the London window is empty, the entry loop leaves the state as
    it is, the counter stays at zero and the streaming loop ends.  The
    candle of 23:00 with close 95 opens no trade either. *)
Theorem shipped_london_tick_opens_nothing :
  ref_levels london_ready !! 22 = Some (Some (levels_dict (of_Z 100, of_Z 90)))
  /\ session_trade_eligible_time london_ready !! 22 = Some (Some t2305)
  /\ risk_management.is_trade_eligible 22 (trades_taken london_ready) t2306
       (Some t2305) = true
  /\ strategy.check_entry_signal (of_Z 101) (of_Z 100) (of_Z 90)
     = Some (strategy.mk_EntrySignal "LONG" (of_Z 101))
  /\ risk_management.can_take_direction 22 "LONG" (trades_taken london_ready)
     = true
  /\ trades_taken london_ready !! 22 = Some (mk_SessionTradeState 0 [])
  /\ active_trades london_ready = []
  /\ (forall today_new orders,
        on_candle config.SESSIONS today_new (of_Z 101) t2306 orders london_ready
        = Break london_ready)
  /\ (forall today_new orders,
        on_candle config.SESSIONS today_new (of_Z 95) t2300 orders london_ready
        = Break london_ready).
Proof.
  assert (Hact : active_trades london_ready = []) by (vm_compute; reflexivity).
  assert (Hbreak : forall today_new c_close now_la orders,
             (pydatetime.hour now_la =? 23) && (pydatetime.minute now_la =? 59)
             = false ->
             on_candle config.SESSIONS today_new c_close now_la orders london_ready
             = Break london_ready).
  { intros today_new c_close now_la orders Hm. unfold on_candle. cbv zeta.
    rewrite Hm, process_exits_no_trades by exact Hact.
    rewrite shipped_process_entries_idle. simpl.
    by rewrite (bool_decide_eq_true_2 _ Hact). }
  split; [vm_compute; reflexivity |].
  split; [vm_compute; reflexivity |].
  split; [vm_compute; reflexivity |].
  split; [vm_compute; reflexivity |].
  split; [vm_compute; reflexivity |].
  split; [vm_compute; reflexivity |].
  split; [exact Hact |].
  split; intros today_new orders; by apply Hbreak.
Qed.

(** Were the window to span the hour from 23:00 (end hour 24), the same
    candles would do what the scenario describes: nothing at 23:00, and at
    23:06 a LONG trade filled at 101 with target 101.2 and stop 100.5, the
    counter becoming [{count: 1, directions: ["LONG"]}]. *)
Lemma london_until_midnight_opens_long :
  on_candle london_until_midnight "2025-01-02" (of_Z 95) t2300
    (fills_at (of_Z 95)) london_ready = Continue london_ready
  /\ exists st' t,
      on_candle london_until_midnight "2025-01-02" (of_Z 101) t2306
        (fills_at (of_Z 101)) london_ready = Continue st'
      /\ trades_taken st' !! 22 = Some (mk_SessionTradeState 1 ["LONG"%string])
      /\ active_trades st' = [t]
      /\ side t = "LONG"%string /\ sess_id t = 22 /\ cutoff_h t = 24
      /\ entry_price t = of_Z 101
      /\ tp t = of_digits 1012 1
      /\ sl t = of_digits 1005 1.
Proof.
  split; [vm_compute; reflexivity |].
  eexists. eexists. split; [vm_compute; reflexivity |].
  split; [vm_compute; reflexivity |].
  split; [reflexivity |].
  split; [reflexivity |]. split; [reflexivity |]. split; [reflexivity |].
  split; [reflexivity |].
  split; apply Qc_is_canon; vm_compute; reflexivity.
Qed.

End london_facts.

(** ** Persistence *)

Section persistence_facts.
Import pyjson state main.

Variable Decimal_ctor : json -> option pydecimal.Decimal.
Variable fromisoformat : json -> option pydatetime.datetime.

Lemma init_new_zeroed (d : option string) (ids : list Z) :
  zeroed ids (init_session_maps (BotState_new d) ids).
Proof.
  destruct (init_session_maps_frame ids (BotState_new d)) as (_ & Ha & Hr).
  split; [by rewrite Ha |]. split; [by rewrite Hr |].
  intros sid.
  destruct (init_session_maps_lookup ids sid (BotState_new d))
    as (H1 & H2 & H3 & H4 & H5).
  unfold BotState_new in H1, H2, H3, H4, H5. simpl in H1, H2, H3, H4, H5.
  rewrite ?lookup_empty in H1. rewrite ?lookup_empty in H2.
  rewrite ?lookup_empty in H3. rewrite ?lookup_empty in H4.
  rewrite ?lookup_empty in H5.
  fold (BotState_new d) in H1, H2, H3, H4, H5.
  rewrite H1, H2, H3, H4, H5.
  split; intros Hin.
  - by rewrite !bool_decide_eq_true_2.
  - by rewrite !bool_decide_eq_false_2.
Qed.

(** The daily reset yields the zeroed state dated [today_new]. *)
Lemma reset_daily_state_zeroed sessions today_new st :
  last_reset_date (reset_daily_state sessions today_new st) = Some today_new
  /\ zeroed (map fst sessions) (reset_daily_state sessions today_new st).
Proof.
  unfold reset_daily_state. split; [| apply init_new_zeroed].
  by destruct (init_session_maps_frame (map fst sessions)
                 (BotState_new (Some today_new))) as (-> & _).
Qed.

(** C2. Loading a state file whose [last_reset_date] is not today's date
    returns a freshly zeroed state, whatever else the file holds; the
    [last_reset_date] of that state is unset ([None]): [load] writes today's
    date only when the file's date matches. *)
Theorem load_stale_zeroed_undated (ids : list Z) (today_str : string)
    (d : list (string * json)) :
  date_matches (dict_get "last_reset_date" d) today_str = false ->
  exists st,
    load Decimal_ctor fromisoformat ids today_str (Doc (JObj d)) = Some st
    /\ st = init_session_maps (BotState_new None) ids
    /\ last_reset_date st = None
    /\ zeroed ids st.
Proof.
  intros Hd. exists (init_session_maps (BotState_new None) ids).
  split; [unfold load; by rewrite Hd |]. split; [done |].
  split; [| apply init_new_zeroed].
  by destruct (init_session_maps_frame ids (BotState_new None)) as (-> & _).
Qed.

(** The same when there is no file, when it cannot be parsed, and when the
    document is not an object. *)
Lemma load_without_document (ids : list Z) (today_str : string) (f : stored) :
  match f with Doc (JObj _) => False | _ => True end ->
  load Decimal_ctor fromisoformat ids today_str f
  = Some (init_session_maps (BotState_new None) ids).
Proof. destruct f as [| | []]; simpl; done. Qed.

Lemma mapM_as_str (dirs : list string) :
  mapM as_str (map JStr dirs) = Some dirs.
Proof.
  induction dirs as [| x l IH]; simpl; [done |]. by rewrite IH.
Qed.

(** A file of today restores the counter of a known session as written. *)
Lemma load_counter_doc (today_str : string) (n : Z) (dirs : list string) :
  exists st,
    load Decimal_ctor fromisoformat [22] today_str
      (Doc (counter_doc today_str n dirs)) = Some st
    /\ last_reset_date st = Some today_str
    /\ trades_taken st !! 22 = Some (mk_SessionTradeState n dirs).
Proof.
  unfold load, counter_doc.
  assert (Hd : date_matches
                 (dict_get "last_reset_date"
                    [("last_reset_date"%string, JStr today_str);
                     ("trades_taken"%string,
                       JObj [("22"%string,
                               JObj [("count"%string, JInt n);
                                     ("directions"%string, JArr (map JStr dirs))])])])
                 today_str = true).
  { simpl. by rewrite bool_decide_eq_true_2. }
  rewrite Hd. unfold load_restore, load_items. simpl.
  unfold load_trades_taken. simpl.
  rewrite mapM_as_str. simpl.
  eexists. split; [reflexivity |]. split; [reflexivity |].
  simpl. apply lookup_insert_eq.
Qed.

(** C10. [load] does not re-establish the counter invariant: for any
    date there is a state file of that date whose entry for a configured
    session has a [count] different from the length of its [directions],
    and [load] returns a state holding exactly that counter. *)
Theorem load_keeps_inconsistent_counter (today_str : string) :
  exists (d : list (string * json)) (st : BotState) (c : SessionTradeState),
    date_matches (dict_get "last_reset_date" d) today_str = true
    /\ dict_get "trades_taken" d
       = Some (JObj [("22"%string,
                       JObj [("count"%string, JInt (count c));
                             ("directions"%string,
                               JArr (map JStr (directions c)))])])
    /\ load Decimal_ctor fromisoformat [22] today_str (Doc (JObj d)) = Some st
    /\ trades_taken st !! 22 = Some c
    /\ count c <> Z.of_nat (length (directions c))
    /\ ~ counters_ok st.
Proof.
  destruct (load_counter_doc today_str 5 ["LONG"%string]) as (st & Hl & _ & Hc).
  eexists _, st, (mk_SessionTradeState 5 ["LONG"%string]).
  split; [| split; [| split; [exact Hl | split; [exact Hc | split]]]].
  - simpl. by rewrite bool_decide_eq_true_2.
  - reflexivity.
  - simpl. lia.
  - intros Hok. destruct (Hok _ _ Hc) as [Hlen _]. simpl in Hlen. lia.
Qed.

End persistence_facts.

Lemma load_stale_zeroed_undated_witness :
  state.load plain_Decimal no_datetime [22] "2025-01-02" (state.Doc stale_doc)
  = Some (state.init_session_maps (state.BotState_new None) [22]).
Proof.
  destruct (load_stale_zeroed_undated plain_Decimal no_datetime [22]
              "2025-01-02" stale_fields eq_refl) as (st & Hl & -> & _).
  exact Hl.
Defined.

(** C2, the date of the returned state: the file of 2025-01-01 loaded on
    2025-01-02 gives a state whose [last_reset_date] is not 2025-01-02. *)
Lemma load_stale_not_dated_today :
  exists st,
    state.load plain_Decimal no_datetime [22] "2025-01-02" (state.Doc stale_doc)
    = Some st
    /\ state.last_reset_date st <> Some "2025-01-02"%string.
Proof.
  eexists. split; [vm_compute; reflexivity |]. vm_compute. discriminate.
Qed.

(** Had the same file been dated today, its contents would have been
    restored; the discard is decided by the date alone. *)
Example load_same_file_dated_today :
  exists st,
    state.load plain_Decimal no_datetime [22] "2025-01-01" (state.Doc stale_doc)
    = Some st
    /\ state.last_reset_date st = Some "2025-01-01"%string
    /\ state.trades_taken st !! 22
       = Some (state.mk_SessionTradeState 2 ["LONG"; "SHORT"]%string)
    /\ length (state.active_trades st) = 1%nat
    /\ state.fetch_attempted st !! 22 = Some true.
Proof.
  eexists. split; [vm_compute; reflexivity |].
  repeat split; vm_compute; reflexivity.
Qed.

(** ** [load] on any file *)

Section unchecked_facts.
Import pyjson unchecked.
Context {D T : Type}.
Variable Decimal_ctor : json -> option D.
Variable fromisoformat : json -> option T.
Variable int_ctor : string -> option Z.

Lemma unchecked_init_frame (ids : list Z) :
  forall st : BotState D T,
    last_reset_date (init_session_maps st ids) = last_reset_date st
    /\ active_trades (init_session_maps st ids) = active_trades st
    /\ reconnect_count (init_session_maps st ids) = reconnect_count st.
Proof.
  unfold init_session_maps.
  induction ids as [| sid rest IH]; intros st; simpl; [done |].
  destruct (IH (init_session st sid)) as (H1 & H2 & H3).
  by rewrite H1, H2, H3.
Qed.

Lemma unchecked_init_lookup (ids : list Z) (sid : Z) :
  forall st : BotState D T,
    let st' := init_session_maps st ids in
    let fresh {V : Type} (old : option V) (zero : V) : option V :=
      match old with
      | Some x => Some x
      | None => if bool_decide (sid ∈ ids) then Some zero else None
      end in
    trades_taken st' !! sid = fresh (trades_taken st !! sid) SessionTradeState_default
    /\ ref_levels st' !! sid = fresh (ref_levels st !! sid) None
    /\ session_trade_eligible_time st' !! sid
       = fresh (session_trade_eligible_time st !! sid) None
    /\ fetch_attempted st' !! sid = fresh (fetch_attempted st !! sid) (JBool false)
    /\ scanning_started st' !! sid = fresh (scanning_started st !! sid) false.
Proof.
  unfold init_session_maps. cbv zeta.
  induction ids as [| id rest IH]; intros st; simpl.
  - repeat split; by destruct (_ !! sid).
  - destruct (IH (init_session st id)) as (H1 & H2 & H3 & H4 & H5).
    rewrite H1, H2, H3, H4, H5. unfold init_session. simpl.
    rewrite !setdefault_lookup, !fresh_step. done.
Qed.

Lemma unchecked_for_each_preserves {A : Type} (P : BotState D T -> Prop)
    (body : A -> BotState D T -> run) (l : list A) :
  (forall x st, P st -> match body x st with Cont st' | Exn st' => P st' end) ->
  forall st, P st ->
    match for_each body l st with Cont st' | Exn st' => P st' end.
Proof.
  intros Hbody. induction l as [| x l IH]; intros st HP; simpl; [done |].
  specialize (Hbody x st HP).
  destruct (body x st) as [st1 | st1]; simpl; [by apply IH | done].
Qed.

Lemma unchecked_load_items_preserves (P : BotState D T -> Prop)
    (d : list (string * json)) (key : string)
    (body : string * json -> BotState D T -> run) :
  (forall x st, P st -> match body x st with Cont st' | Exn st' => P st' end) ->
  forall st, P st ->
    match load_items d key body st with Cont st' | Exn st' => P st' end.
Proof.
  intros Hbody st HP. unfold load_items.
  destruct (items _) as [l |]; [| done]. by apply unchecked_for_each_preserves.
Qed.

Lemma unchecked_bind_preserves (P : BotState D T -> Prop) (r : run)
    (f : BotState D T -> run) :
  match r with Cont st' | Exn st' => P st' end ->
  (forall st, P st -> match f st with Cont st' | Exn st' => P st' end) ->
  match bind r f with Cont st' | Exn st' => P st' end.
Proof.
  intros Hr Hf. destruct r as [st | st]; simpl; [by apply Hf | done].
Qed.

(** A property of the state that a stored counter, an appended trade and
    an assignment to the levels, eligibility times or fetch flags keep is
    kept by the restore, however far it gets. *)
Lemma unchecked_load_restore_preserves (P : BotState D T -> Prop)
    (d : list (string * json)) :
  (forall st sid c,
      P st -> is_Some (trades_taken st !! sid) ->
      P (set_trades_taken (<[sid := c]> (trades_taken st)) st)) ->
  (forall st t, P st -> P (set_active_trades (active_trades st ++ [t]) st)) ->
  (forall st sid v, P st -> P (set_ref_levels (<[sid := v]> (ref_levels st)) st)) ->
  (forall st sid v,
      P st ->
      P (set_session_trade_eligible_time
           (<[sid := v]> (session_trade_eligible_time st)) st)) ->
  (forall st sid v,
      P st -> P (set_fetch_attempted (<[sid := v]> (fetch_attempted st)) st)) ->
  forall st, P st ->
    match load_restore Decimal_ctor fromisoformat int_ctor d st with
    | Cont st' | Exn st' => P st'
    end.
Proof.
  intros Ha Hb Hc Hd He st HP. unfold load_restore.
  apply unchecked_bind_preserves.
  { apply unchecked_load_items_preserves; [| done].
    intros x s Hs. unfold load_trades_taken.
    destruct (int_ctor (fst x)) as [sid |]; [| done].
    case_bool_decide as Hin; [| done].
    destruct (getitem (snd x) "count"); [| done].
    destruct (getitem (snd x) "directions"); [| done].
    by apply Ha. }
  intros st1 H1. apply unchecked_bind_preserves.
  { destruct (iter _) as [l |]; [| done].
    apply unchecked_for_each_preserves; [| done].
    intros x s Hs. unfold load_active_trade.
    match goal with |- match match ?a with _ => _ end with _ => _ end =>
      destruct a end; [by apply Hb | done]. }
  intros st2 H2. apply unchecked_bind_preserves.
  { apply unchecked_load_items_preserves; [| done].
    intros x s Hs. unfold load_ref_levels.
    destruct (int_ctor (fst x)) as [sid |]; [| done].
    destruct (truthy (snd x)); [| done].
    destruct (items (snd x) ≫= _); [by apply Hc | done]. }
  intros st3 H3. apply unchecked_bind_preserves.
  { apply unchecked_load_items_preserves; [| done].
    intros x s Hs. unfold load_eligible_time.
    destruct (int_ctor (fst x)) as [sid |]; [| done].
    destruct (truthy (snd x)); [| done].
    destruct (fromisoformat (snd x)); [by apply Hd | done]. }
  intros st4 H4.
  apply unchecked_load_items_preserves; [| done].
  intros x s Hs. unfold load_fetch_attempted.
  destruct (int_ctor (fst x)) as [sid |]; [by apply He | done].
Qed.

(** What holds of the zeroed, undated state and of the same state dated
    today, and is kept by the restore, holds of the state [load]
    returns. *)
Lemma unchecked_load_preserves (P : BotState D T -> Prop) (ids : list Z)
    (today_str : string) (f : state.stored) :
  P (init_session_maps (BotState_new None) ids) ->
  (forall d,
      match load_restore Decimal_ctor fromisoformat int_ctor d
              (set_last_reset_date (Some today_str)
                 (init_session_maps (BotState_new None) ids)) with
      | Cont st' | Exn st' => P st'
      end) ->
  P (load Decimal_ctor fromisoformat int_ctor ids today_str f).
Proof.
  intros H0 Hr. unfold load.
  destruct f as [| | [| | | | | | d]]; try done.
  destruct (state.date_matches _ _); [| done].
  specialize (Hr d). by destruct (load_restore _ _ _ _ _).
Qed.

Lemma unchecked_load_reconnect_count (ids : list Z) (today_str : string)
    (f : state.stored) :
  reconnect_count (load Decimal_ctor fromisoformat int_ctor ids today_str f) = 0.
Proof.
  assert (H0 : reconnect_count
                 (init_session_maps (BotState_new (D := D) (T := T) None) ids) = 0)
    by (by destruct (unchecked_init_frame ids (BotState_new None))
          as (_ & _ & ->)).
  apply (unchecked_load_preserves (fun st => reconnect_count st = 0));
    [exact H0 |].
  intros d. by apply unchecked_load_restore_preserves.
Qed.

Lemma unchecked_init_kept (ids : list Z) (d : option string) :
  loaded_sessions_kept ids
    (init_session_maps (BotState_new (D := D) (T := T) d) ids).
Proof.
  split.
  - intros sid Hin.
    destruct (unchecked_init_lookup ids sid (BotState_new d))
      as (-> & -> & -> & -> & ->).
    simpl. rewrite !lookup_empty, !bool_decide_eq_true_2 by done.
    repeat split; by eexists.
  - intros sid.
    destruct (unchecked_init_lookup ids sid (BotState_new d)) as (-> & _).
    simpl. rewrite lookup_empty.
    case_bool_decide; split; intros Hx; try done.
    all: try (by eexists); try (by destruct Hx).
Qed.

Lemma is_Some_insert_mono {V : Type} (m : gmap Z V) (k j : Z) (v : V) :
  is_Some (m !! j) -> is_Some (<[k := v]> m !! j).
Proof.
  intros H. apply lookup_insert_is_Some.
  destruct (decide (k = j)); [by left | by right].
Qed.

Lemma is_Some_insert_present {V : Type} (m : gmap Z V) (k j : Z) (v : V) :
  is_Some (m !! k) -> (is_Some (<[k := v]> m !! j) <-> is_Some (m !! j)).
Proof.
  intros Hk. rewrite lookup_insert_is_Some.
  split; [| intros H; destruct (decide (k = j)); [by left | by right]].
  intros [<- | [_ H]]; done.
Qed.

Lemma unchecked_load_kept (ids : list Z) (today_str : string) (f : state.stored) :
  loaded_sessions_kept ids
    (load Decimal_ctor fromisoformat int_ctor ids today_str f).
Proof.
  apply (unchecked_load_preserves (loaded_sessions_kept ids));
    [apply unchecked_init_kept |].
  intros d. apply unchecked_load_restore_preserves.
  - intros st sid c [Kp Kc] Hin. split.
    + intros j Hj. destruct (Kp j Hj) as (Qa & Qb & Qc & Qd & Qe). simpl.
      repeat split; try done. by apply is_Some_insert_mono.
    + intros j. simpl. rewrite is_Some_insert_present by done. apply Kc.
  - intros st t [Kp Kc]. by split.
  - intros st sid v [Kp Kc]. split; [| done].
    intros j Hj. destruct (Kp j Hj) as (Qa & Qb & Qc & Qd & Qe). simpl.
    repeat split; try done. by apply is_Some_insert_mono.
  - intros st sid v [Kp Kc]. split; [| done].
    intros j Hj. destruct (Kp j Hj) as (Qa & Qb & Qc & Qd & Qe). simpl.
    repeat split; try done. by apply is_Some_insert_mono.
  - intros st sid v [Kp Kc]. split; [| done].
    intros j Hj. destruct (Kp j Hj) as (Qa & Qb & Qc & Qd & Qe). simpl.
    repeat split; try done. by apply is_Some_insert_mono.
  - destruct (unchecked_init_kept ids None) as [Kp Kc]. split.
    + intros j Hj. destruct (Kp j Hj) as (Qa & Qb & Qc & Qd & Qe). simpl.
      by repeat split.
    + intros j. simpl. apply Kc.
Qed.

End unchecked_facts.

(** ** The typed model of [load] and the run on unchecked values *)

Section agreement_facts.
Import pyjson.

Variable Decimal_ctor : json -> option pydecimal.Decimal.
Variable fromisoformat : json -> option pydatetime.datetime.
Variable int_ctor : string -> option Z.

Lemma setdefault_fmap {V W : Type} (g : V -> W) (k : Z) (v : V) (m : gmap Z V) :
  g <$> state.setdefault k v m = state.setdefault k (g v) (g <$> m).
Proof.
  unfold state.setdefault. rewrite lookup_fmap.
  destruct (m !! k); simpl; [done | by rewrite fmap_insert].
Qed.

Lemma of_state_init_session_maps (ids : list Z) :
  forall st,
    unchecked.init_session_maps (unchecked.of_state st) ids
    = unchecked.of_state (state.init_session_maps st ids).
Proof.
  unfold unchecked.init_session_maps, state.init_session_maps.
  induction ids as [| sid rest IH]; intros st; simpl; [done |].
  rewrite <- IH. f_equal.
  unfold unchecked.init_session, state.init_session, unchecked.of_state. simpl.
  by rewrite !setdefault_fmap.
Qed.

Lemma as_str_list_inv (v : json) (l : list string) :
  state.as_str_list v = Some l -> v = JArr (map JStr l).
Proof.
  destruct v as [| | | | | vs |]; try discriminate. simpl.
  intros H. f_equal. revert l H.
  induction vs as [| x vs IH]; intros l; simpl.
  - by intros [= <-].
  - destruct x; try discriminate. simpl.
    destruct (mapM state.as_str vs) as [l' |] eqn:Hm; [| discriminate].
    simpl. intros [= <-]. simpl. f_equal. by apply IH.
Qed.

Lemma as_int_inv (v : json) (z : Z) : state.as_int v = Some z -> v = JInt z.
Proof. destruct v; try discriminate. by intros [= ->]. Qed.

Lemma as_str_inv (v : json) (x : string) : state.as_str v = Some x -> v = JStr x.
Proof. destruct v; try discriminate. by intros [= ->]. Qed.

Lemma as_bool_inv (v : json) (b : bool) : state.as_bool v = Some b -> v = JBool b.
Proof. destruct v; try discriminate. by intros [= ->]. Qed.

(** The two runs side by side: where the typed run goes on or ends in an
    exception, the unchecked run does the same on the same state. *)
Definition agree (r : state.run)
    (u : unchecked.run (D := pydecimal.Decimal) (T := pydatetime.datetime))
  : Prop :=
  match r with
  | state.Cont st => u = unchecked.Cont (unchecked.of_state st)
  | state.Exn st => u = unchecked.Exn (unchecked.of_state st)
  | state.Untyped => True
  end.

Lemma for_each_agree {A : Type} (body : A -> state.BotState -> state.run)
    (ubody : A -> unchecked.BotState pydecimal.Decimal pydatetime.datetime
             -> unchecked.run) (l : list A) :
  (forall x st, x ∈ l -> agree (body x st) (ubody x (unchecked.of_state st))) ->
  forall st,
    agree (state.for_each body l st)
      (unchecked.for_each ubody l (unchecked.of_state st)).
Proof.
  induction l as [| x l IH]; intros Hbody st; simpl; [done |].
  pose proof (Hbody x st ltac:(left)) as Hx.
  destruct (body x st) as [st1 | st1 |]; simpl in *; rewrite ?Hx; simpl;
    [| done | done].
  apply IH. intros y s Hy. apply Hbody. by right.
Qed.

Lemma bind_agree (r : state.run) u f uf :
  agree r u ->
  (forall st, agree (f st) (uf (unchecked.of_state st))) ->
  agree (state.bind r f) (unchecked.bind u uf).
Proof.
  intros Hr Hf. destruct r as [st | st |]; simpl in *; subst; simpl; auto.
Qed.

Lemma load_items_agree (d : list (string * json)) (key : string) body ubody :
  (forall x st,
      fst x ∈ match items (default (JObj []) (dict_get key d)) with
              | Some l => map fst l
              | None => []
              end ->
      agree (body x st) (ubody x (unchecked.of_state st))) ->
  forall st,
    agree (state.load_items d key body st)
      (unchecked.load_items d key ubody (unchecked.of_state st)).
Proof.
  intros Hbody st. unfold state.load_items, unchecked.load_items.
  destruct (items _) as [l |]; [| done].
  apply for_each_agree. intros x s Hx. apply Hbody.
  change (map fst l) with (fst <$> l). by apply list_elem_of_fmap_2.
Qed.

Lemma load_restore_agree (d : list (string * json)) (st : state.BotState) :
  (forall k, k ∈ unchecked.int_keys d -> int_ctor k = py_int k) ->
  agree (state.load_restore Decimal_ctor fromisoformat d st)
    (unchecked.load_restore Decimal_ctor fromisoformat int_ctor d
       (unchecked.of_state st)).
Proof.
  intros Hint.
  assert (Hkey : forall key k,
             key ∈ ["trades_taken"; "ref_levels"; "session_trade_eligible_time";
                    "fetch_attempted"]%string ->
             k ∈ match items (default (JObj []) (dict_get key d)) with
                 | Some l => map fst l
                 | None => []
                 end ->
             int_ctor k = py_int k).
  { intros key k Hin Hk. apply Hint. unfold unchecked.int_keys.
    apply list_elem_of_In, in_flat_map. exists key.
    split; by apply list_elem_of_In. }
  unfold state.load_restore, unchecked.load_restore.
  apply bind_agree.
  { apply load_items_agree. intros x s Hx.
    unfold state.load_trades_taken, unchecked.load_trades_taken.
    rewrite (Hkey "trades_taken"%string (fst x)) by (done || set_solver).
    destruct (py_int (fst x)) as [sid |]; [| done].
    change (unchecked.trades_taken (unchecked.of_state s))
      with (unchecked.of_counter <$> state.trades_taken s).
    rewrite lookup_fmap.
    destruct (state.trades_taken s !! sid) as [c0 |] eqn:Hc; simpl.
    - rewrite ?bool_decide_eq_true_2 by by eexists.
      destruct (getitem (snd x) "count") as [c |]; [| done].
      destruct (getitem (snd x) "directions") as [dirs |]; [| done].
      destruct (state.as_int c) as [c' |] eqn:Hci; [| done].
      destruct (state.as_str_list dirs) as [d' |] eqn:Hdi; [| done].
      apply as_int_inv in Hci as ->. apply as_str_list_inv in Hdi as ->.
      simpl. f_equal. unfold unchecked.of_state, unchecked.set_trades_taken.
      simpl. by rewrite fmap_insert.
    - rewrite ?bool_decide_eq_false_2 by (by intros [? ?]). done. }
  intros st1. apply bind_agree.
  { destruct (iter _) as [l |]; [| done].
    apply for_each_agree. intros x s _.
    unfold state.load_active_trade, unchecked.load_active_trade.
    destruct (getitem x "side") as [v1 |]; simpl; [| done].
    destruct (getitem x "tp" ≫= Decimal_ctor) as [v2 |]; simpl; [| done].
    destruct (getitem x "sl" ≫= Decimal_ctor) as [v3 |]; simpl; [| done].
    destruct (getitem x "sess_name") as [v4 |]; simpl; [| done].
    destruct (getitem x "cutoff_h") as [v5 |]; simpl; [| done].
    destruct (getitem x "sess_id") as [v6 |]; simpl; [| done].
    destruct (getitem x "entry_price" ≫= Decimal_ctor) as [v7 |]; simpl;
      [| done].
    destruct (state.as_str v1) as [a1 |] eqn:H1; [| done].
    destruct (state.as_str v4) as [a4 |] eqn:H4; [| done].
    destruct (state.as_int v5) as [a5 |] eqn:H5; [| done].
    destruct (state.as_int v6) as [a6 |] eqn:H6; [| done].
    apply as_str_inv in H1 as ->. apply as_str_inv in H4 as ->.
    apply as_int_inv in H5 as ->. apply as_int_inv in H6 as ->.
    simpl. f_equal. unfold unchecked.of_state, unchecked.set_active_trades.
    simpl. by rewrite map_app. }
  intros st2. apply bind_agree.
  { apply load_items_agree. intros x s Hx.
    unfold state.load_ref_levels, unchecked.load_ref_levels.
    rewrite (Hkey "ref_levels"%string (fst x)) by (done || set_solver).
    destruct (py_int (fst x)) as [sid |]; [| done].
    destruct (truthy (snd x)); [| done].
    change (unchecked.load_levels_dict Decimal_ctor)
      with (state.load_levels_dict Decimal_ctor).
    destruct (items (snd x) ≫= state.load_levels_dict Decimal_ctor); done. }
  intros st3. apply bind_agree.
  { apply load_items_agree. intros x s Hx.
    unfold state.load_eligible_time, unchecked.load_eligible_time.
    rewrite (Hkey "session_trade_eligible_time"%string (fst x))
      by (done || set_solver).
    destruct (py_int (fst x)) as [sid |]; [| done].
    destruct (truthy (snd x)); [| done].
    destruct (fromisoformat (snd x)); done. }
  intros st4.
  apply load_items_agree. intros x s Hx.
  unfold state.load_fetch_attempted, unchecked.load_fetch_attempted.
  rewrite (Hkey "fetch_attempted"%string (fst x)) by (done || set_solver).
  destruct (py_int (fst x)) as [sid |]; [| done].
  destruct (state.as_bool (snd x)) as [b |] eqn:Hb; [| done].
  apply as_bool_inv in Hb as ->.
  simpl. f_equal. unfold unchecked.of_state, unchecked.set_fetch_attempted.
  simpl. by rewrite fmap_insert.
Qed.

(** Where [state.load] returns a state, [StateManager.load] returns that
    state: the typed model agrees with the run on unchecked values,
    provided [int] reads the keys of the file as [py_int] does (as it does
    on ASCII keys). *)
Lemma load_agrees (ids : list Z) (today_str : string) (f : state.stored)
    (st : state.BotState) :
  (forall d k, f = state.Doc (JObj d) -> k ∈ unchecked.int_keys d ->
               int_ctor k = py_int k) ->
  state.load Decimal_ctor fromisoformat ids today_str f = Some st ->
  unchecked.load Decimal_ctor fromisoformat int_ctor ids today_str f
  = unchecked.of_state st.
Proof.
  intros Hint.
  assert (H0 : unchecked.init_session_maps (unchecked.BotState_new None) ids
               = unchecked.of_state
                   (state.init_session_maps (state.BotState_new None) ids)).
  { rewrite <- of_state_init_session_maps. f_equal. }
  unfold state.load, unchecked.load. rewrite H0.
  destruct f as [| | [| | | | | | d]]; try (by intros [= <-]).
  destruct (state.date_matches _ _); [| by intros [= <-]].
  pose proof (load_restore_agree d
                (state.set_last_reset_date (Some today_str)
                   (state.init_session_maps (state.BotState_new None) ids))
                (fun k => Hint d k eq_refl)) as Hag.
  change (unchecked.set_last_reset_date (Some today_str)
            (unchecked.of_state
               (state.init_session_maps (state.BotState_new None) ids)))
    with (unchecked.of_state
            (state.set_last_reset_date (Some today_str)
               (state.init_session_maps (state.BotState_new None) ids))).
  destruct (state.load_restore _ _ _ _) as [st' | st' |]; simpl in Hag;
    [| | discriminate]; rewrite Hag; by intros [= <-].
Qed.

End agreement_facts.

(** ** The reconnect counter *)

Section reconnect_facts.
Import pyjson state main.

Lemma process_entry_session_reconnect_count c_close now_la curr_h order s_id cfg
    st w :
  reconnect_count
    (entries_state (process_entry_session c_close now_la curr_h order s_id cfg st w))
  = reconnect_count st.
Proof.
  unfold process_entry_session.
  repeat case_match; simplify_eq; simpl; done.
Qed.

Lemma process_entries_from_reconnect_count c_close now_la curr_h orders sessions :
  forall st w,
    reconnect_count
      (entries_state (process_entries_from c_close now_la curr_h orders sessions st w))
    = reconnect_count st.
Proof.
  induction sessions as [| [s_id cfg] rest IH]; intros st w; simpl; [done |].
  pose proof (process_entry_session_reconnect_count c_close now_la curr_h
                (orders s_id) s_id cfg st w) as Hstep.
  destruct (process_entry_session _ _ _ _ _ _ _ _) as [st' w' | st'];
    simpl in *; [| done].
  by rewrite IH.
Qed.

Lemma process_exits_reconnect_count c_close curr_h st :
  reconnect_count (process_exits c_close curr_h st) = reconnect_count st.
Proof. unfold process_exits. by destruct (active_trades st). Qed.

Lemma check_levels_session_reconnect_count now_la fetch s_id cfg st :
  match check_levels_session now_la fetch s_id cfg st with
  | LevelsNext st' | LevelsRaised st' | LevelsCancelled st' =>
      reconnect_count st' = reconnect_count st
  end.
Proof.
  unfold check_levels_session. cbv zeta.
  destruct (pydatetime.hour now_la <? config.start_hour cfg); [done |].
  case_bool_decide; [done |].
  destruct (default false (fetch_attempted st !! s_id)); [done |].
  destruct fetch as [| lvls | | lvls]; simpl;
    repeat case_match; simplify_eq; done.
Qed.

(** C4. The reconnect counter is not persisted: [save] writes
    the same document whatever the counter is, and every state [load]
    returns, whatever the file holds, has the counter at zero.  The daily
    reset replaces the whole state, counter included, which is zero
    afterwards.  Every other event leaves the counter as it is, except a
    new connection, which adds one. *)
Theorem reconnect_count_lifetime :
  (forall Decimal_str isoformat st n,
      save Decimal_str isoformat (set_reconnect_count n st)
      = save Decimal_str isoformat st)
  /\ (forall (D T : Type) (Decimal_any : json -> option D)
        (fromisoformat_any : json -> option T) (int_ctor : string -> option Z)
        ids today_str f,
        unchecked.reconnect_count
          (unchecked.load Decimal_any fromisoformat_any int_ctor ids today_str f)
        = 0)
  /\ (forall sessions today_new st,
        reconnect_count (reset_daily_state sessions today_new st) = 0)
  /\ (forall sessions e st,
        reconnect_count (run_event sessions e st)
        = match e with
          | Connected => reconnect_count st + 1
          | Reset _ => 0
          | Candle _ _ now_la _ =>
              if (pydatetime.hour now_la =? 23) && (pydatetime.minute now_la =? 59)
              then 0 else reconnect_count st
          | _ => reconnect_count st
          end).
Proof.
  assert (Hreset : forall sessions today_new st,
             reconnect_count (reset_daily_state sessions today_new st) = 0).
  { intros sessions today_new st. unfold reset_daily_state.
    by destruct (init_session_maps_frame (map fst sessions)
                   (BotState_new (Some today_new))) as (_ & _ & ->). }
  split; [done |]. split; [intros; apply unchecked_load_reconnect_count |].
  split; [exact Hreset |].
  intros sessions e st.
  destruct e as [today c_close now_la orders
                | c_close now_la curr_h order s_id cfg
                | c_close curr_h
                | now_la fetch s_id cfg
                | today |]; simpl.
  - unfold on_candle. cbv zeta.
    destruct ((pydatetime.hour now_la =? 23) && (pydatetime.minute now_la =? 59));
      [apply Hreset |].
    pose proof (process_entries_from_reconnect_count c_close now_la
                  (pydatetime.hour now_la) orders sessions
                  (process_exits c_close (pydatetime.hour now_la) st) false) as Hen.
    rewrite process_exits_reconnect_count in Hen.
    unfold process_entries.
    destruct (process_entries_from _ _ _ _ _ _ _) as [st2 w | st2];
      simpl in *; [| done].
    by destruct (negb w && bool_decide (active_trades st2 = [])).
  - pose proof (process_entry_session_reconnect_count c_close now_la curr_h
                  order s_id cfg st false) as Hen.
    by destruct (process_entry_session _ _ _ _ _ _ _ _).
  - apply process_exits_reconnect_count.
  - pose proof (check_levels_session_reconnect_count now_la fetch s_id cfg st)
      as Hl.
    by destruct (check_levels_session _ _ _ _ _).
  - apply Hreset.
  - reflexivity.
Qed.

End reconnect_facts.

Lemma reconnect_count_lifetime_witness :
  unchecked.reconnect_count
    (unchecked.load plain_Decimal no_datetime pyjson.py_int [22] "2025-01-02"
       (state.Doc ill_typed_doc)) = 0.
Proof.
  destruct reconnect_count_lifetime as (_ & Hload & _).
  apply Hload.
Defined.

(** C4, the daily reset: after three connections the counter is 3, and
    the reset does not leave it unchanged. *)
Lemma reset_changes_reconnect_count :
  state.reconnect_count connected_thrice = 3
  /\ state.reconnect_count
       (main.reset_daily_state config.SESSIONS "2025-01-03" connected_thrice)
     <> state.reconnect_count connected_thrice.
Proof. split; [vm_compute; reflexivity | vm_compute; discriminate]. Qed.

(** * Further properties *)

(** ** Exit processing *)

Section exit_facts.
Import state main.

Lemma exit_indices_pop (c_close : pydecimal.Decimal) (curr_h : Z)
    (l : list ActiveTrade) :
  forall prefix,
    pop_all (exit_indices c_close curr_h (length prefix) l) (prefix ++ l)
    = prefix ++ List.filter (stays_open c_close curr_h) l.
Proof.
  unfold pop_all.
  induction l as [| t l IH]; intros prefix; simpl; [done |].
  unfold stays_open at 1.
  specialize (IH (prefix ++ [t])).
  rewrite length_app, Nat.add_1_r, <- !app_assoc in IH. simpl in IH.
  destruct (strategy.check_exit_signals t c_close curr_h) as [sig |]; simpl.
  - rewrite reverse_cons, fold_left_app. simpl. rewrite IH.
    apply delete_middle.
  - exact IH.
Qed.

Lemma filter_stays_open_idem c_close curr_h (l : list ActiveTrade) :
  List.filter (stays_open c_close curr_h)
    (List.filter (stays_open c_close curr_h) l)
  = List.filter (stays_open c_close curr_h) l.
Proof.
  induction l as [| t l IH]; simpl; [done |].
  destruct (stays_open c_close curr_h t) eqn:Ht; simpl; [| done].
  by rewrite Ht, IH.
Qed.

Lemma process_exits_filter c_close curr_h st :
  process_exits c_close curr_h st
  = set_active_trades
      (List.filter (stays_open c_close curr_h) (active_trades st)) st.
Proof.
  unfold process_exits.
  destruct (active_trades st) as [| t l] eqn:Hl.
  - destruct st. simpl in *. by subst.
  - f_equal. apply (exit_indices_pop c_close curr_h (t :: l) []).
Qed.

(** X1. [_process_exits] removes from the trade list exactly the trades
    that give an exit signal at this close and hour, keeps the others in
    their order, and changes nothing else in the state: popping the
    collected indices in reverse order is a filter. *)
Theorem process_exits_removes_signalled (c_close : pydecimal.Decimal)
    (curr_h : Z) (st : BotState) :
  process_exits c_close curr_h st
  = set_active_trades
      (List.filter (stays_open c_close curr_h) (active_trades st)) st
  /\ (forall t, t ∈ active_trades (process_exits c_close curr_h st)
        <-> t ∈ active_trades st
            /\ strategy.check_exit_signals t c_close curr_h = None).
Proof.
  split; [apply process_exits_filter |].
  intros t. rewrite process_exits_filter. simpl.
  rewrite !list_elem_of_In, filter_In. unfold stays_open.
  destruct (strategy.check_exit_signals t c_close curr_h);
    split; intros [H1 H2]; done.
Qed.

(** X2. After [_process_exits] no trade that is left has reached its cutoff
    hour, its target or its stop, and running the exits again at the same
    close and hour changes nothing. *)
Theorem process_exits_settles (c_close : pydecimal.Decimal) (curr_h : Z)
    (st : BotState) :
  (forall t, t ∈ active_trades (process_exits c_close curr_h st) ->
     curr_h < cutoff_h t
     /\ strategy.check_exit_signals t c_close curr_h = None)
  /\ process_exits c_close curr_h (process_exits c_close curr_h st)
     = process_exits c_close curr_h st.
Proof.
  split.
  - intros t. rewrite process_exits_filter. simpl.
    rewrite list_elem_of_In, filter_In. unfold stays_open.
    intros [_ Hs].
    destruct (strategy.check_exit_signals t c_close curr_h) eqn:Hsig;
      [discriminate |].
    split; [| done].
    unfold strategy.check_exit_signals in Hsig.
    destruct (Z.leb_spec (cutoff_h t) curr_h); [discriminate | done].
  - rewrite !process_exits_filter. simpl.
    by rewrite filter_stays_open_idem.
Qed.

End exit_facts.

(** ** Bracket orders *)

Section bracket_facts.
Import pydecimal state.

Lemma Qc_sub_lt (x p : Qc) : (0 < p)%Qc -> (x - p < x)%Qc.
Proof.
  intros Hp. apply Qclt_minus_iff.
  replace (x + - (x - p))%Qc with p by ring. exact Hp.
Qed.

Lemma Qc_lt_add (x p : Qc) : (0 < p)%Qc -> (x < x + p)%Qc.
Proof.
  intros Hp. apply Qclt_minus_iff.
  replace (x + p + - x)%Qc with p by ring. exact Hp.
Qed.

Lemma place_bracket_order_placed (buy : bool)
    (target_points stop_points : Decimal) (o : api_client.entry_outcome)
    (fill target_price stop_price : Decimal) :
  api_client.place_bracket_order buy target_points stop_points o
  = Some (api_client.OrderPlaced fill target_price stop_price) ->
  o = api_client.Filled fill
  /\ fill <> 0%Qc
  /\ (if buy then add fill target_points
      else sub fill target_points) = Some target_price
  /\ (if buy then sub fill stop_points
      else add fill stop_points) = Some stop_price.
Proof.
  unfold api_client.place_bracket_order.
  destruct o as [f0 | | status | |]; try discriminate.
  unfold truthy. case_bool_decide as Hz; simpl; [discriminate |].
  destruct (if buy then add f0 target_points else sub f0 target_points)
    as [t0 |] eqn:Htp; simpl; [| discriminate].
  destruct (if buy then sub f0 stop_points else add f0 stop_points)
    as [s0 |] eqn:Hsp; simpl; [| discriminate].
  by intros [= <- <- <-].
Qed.

Lemma order_placed_eq (f t s f' t' s' : Decimal) :
  f = f' -> t = t' -> s = s' ->
  Some (api_client.OrderPlaced f t s) = Some (api_client.OrderPlaced f' t' s').
Proof. by intros -> -> ->. Qed.



(** A fill of 101 with the shipped distances: the bracket is 101.2 and
    100.5, with no rounding. *)
Example bracket_at_101 :
  api_client.place_bracket_order true (of_digits 2 1) (of_digits 5 1)
    (api_client.Filled (of_Z 101))
  = Some (api_client.OrderPlaced (of_Z 101) (of_digits 1012 1)
            (of_digits 1005 1))
  /\ bracket_exact true (of_Z 101) (of_digits 2 1) (of_digits 5 1).
Proof.
  split.
  - vm_compute. apply order_placed_eq; apply Qc_is_canon; reflexivity.
  - split; vm_compute; f_equal; apply Qc_is_canon; reflexivity.
Qed.

(** At a fill price of 28 digits the distance 0.2 is rounded away: the
    target of a buy is the fill price itself, and the trade meets its
    target at the price it was filled at. *)
Example bracket_rounded_away :
  api_client.place_bracket_order true (of_digits 2 1) (of_digits 5 1)
    (api_client.Filled wide_fill)
  = Some (api_client.OrderPlaced wide_fill wide_fill wide_fill)
  /\ (exists signal,
        strategy.check_exit_signals
          (opened_trade (strategy.mk_EntrySignal "LONG" wide_fill) 22 London_late
             wide_fill wide_fill wide_fill) wide_fill 23 = Some signal
        /\ strategy.reason signal = "TARGET"%string).
Proof.
  split.
  - vm_compute. apply order_placed_eq; apply Qc_is_canon; reflexivity.
  - eexists. split; [vm_compute; reflexivity | reflexivity].
Qed.

(** X4. A trade opened by a bracket order with positive distances whose
    bracket prices need no rounding is not closed by the price it was
    filled at: before its cutoff hour [check_exit_signals] gives no signal
    for it at a close equal to the fill price, and at no close does it
    meet both its target and its stop condition.  (Where the rounding of
    the context swallows the distance this fails, as
    [bracket_rounded_away] shows.) *)
Theorem fresh_trade_not_exited (buy : bool)
    (target_points stop_points : Decimal) (o : api_client.entry_outcome)
    (fill_price target_price stop_price : Decimal) (t : ActiveTrade)
    (current_hour : Z) :
  (0 < target_points)%Qc -> (0 < stop_points)%Qc ->
  api_client.place_bracket_order buy target_points stop_points o
  = Some (api_client.OrderPlaced fill_price target_price stop_price) ->
  bracket_exact buy fill_price target_points stop_points ->
  side t = (if buy then "LONG" else "SHORT")%string ->
  tp t = target_price -> sl t = stop_price ->
  current_hour < cutoff_h t ->
  strategy.check_exit_signals t fill_price current_hour = None
  /\ (forall close_price,
        ~ (if buy
           then (tp t <= close_price)%Qc /\ (close_price <= sl t)%Qc
           else (close_price <= tp t)%Qc /\ (sl t <= close_price)%Qc)).
Proof.
  intros Ht Hs Hplace Hexact Hside Htp Hsl Hcut.
  unfold api_client.place_bracket_order in Hplace.
  destruct o as [f0 | | status | |]; try discriminate.
  destruct (truthy f0); [| discriminate].
  destruct (if buy then add f0 target_points else sub f0 target_points)
    as [t0 |] eqn:Ha; simpl in Hplace; [| discriminate].
  destruct (if buy then sub f0 stop_points else add f0 stop_points)
    as [s0 |] eqn:Hb; simpl in Hplace; [| discriminate].
  injection Hplace as <- <- <-.
  unfold strategy.check_exit_signals.
  apply Z.leb_gt in Hcut. rewrite Hcut, Hside, Htp, Hsl.
  unfold bracket_exact in Hexact.
  destruct buy; destruct Hexact as [Ea Eb]; rewrite Ea in Ha; rewrite Eb in Hb;
    injection Ha as <-; injection Hb as <-; simpl.
  - pose proof (Qc_lt_add f0 target_points Ht) as H1.
    pose proof (Qc_sub_lt f0 stop_points Hs) as H2.
    split.
    + apply ge_false in H1. apply le_false in H2. by rewrite H1, H2.
    + intros c [Hx Hy].
      apply (Qclt_not_le _ _ (Qclt_trans _ _ _ H2 H1)).
      exact (Qcle_trans _ _ _ Hx Hy).
  - pose proof (Qc_sub_lt f0 target_points Ht) as H1.
    pose proof (Qc_lt_add f0 stop_points Hs) as H2.
    split.
    + apply le_false in H1. apply ge_false in H2. by rewrite H1, H2.
    + intros c [Hx Hy].
      apply (Qclt_not_le _ _ (Qclt_trans _ _ _ H1 H2)).
      exact (Qcle_trans _ _ _ Hy Hx).
Qed.

Lemma fresh_trade_not_exited_witness :
  strategy.check_exit_signals
    (opened_trade (strategy.mk_EntrySignal "LONG" (of_Z 101)) 22 London
       (of_Z 101) (of_digits 1012 1) (of_digits 1005 1))
    (of_Z 101) 22 = None.
Proof.
  assert (H2 : (0 < of_digits 2 1)%Qc) by (vm_compute; reflexivity).
  assert (H5 : (0 < of_digits 5 1)%Qc) by (vm_compute; reflexivity).
  assert (Hplace : api_client.place_bracket_order true (of_digits 2 1)
                     (of_digits 5 1) (api_client.Filled (of_Z 101))
                   = Some (api_client.OrderPlaced (of_Z 101) (of_digits 1012 1)
                             (of_digits 1005 1)))
    by (vm_compute; apply order_placed_eq; apply Qc_is_canon; reflexivity).
  assert (Hexact : bracket_exact true (of_Z 101) (of_digits 2 1) (of_digits 5 1))
    by (split; vm_compute; f_equal; apply Qc_is_canon; reflexivity).
  refine (proj1 (fresh_trade_not_exited true (of_digits 2 1) (of_digits 5 1)
                   (api_client.Filled (of_Z 101)) (of_Z 101)
                   (of_digits 1012 1) (of_digits 1005 1)
                   (opened_trade (strategy.mk_EntrySignal "LONG" (of_Z 101)) 22
                      London (of_Z 101) (of_digits 1012 1) (of_digits 1005 1))
                   22 H2 H5 Hplace Hexact eq_refl eq_refl eq_refl _)).
  simpl. lia.
Defined.

End bracket_facts.

(** ** Entry processing *)

Section entry_facts.
Import pydecimal state main.

Lemma mjoin_lookup_Some {V : Type} (m : gmap Z (option V)) (k : Z) (v : V) :
  mjoin (m !! k) = Some v <-> m !! k = Some (Some v).
Proof. destruct (m !! k) as [[x |] |]; simpl; split; congruence. Qed.

(** One pass of the entry loop either leaves the state as it is or opens
    exactly one trade, and then every gate has been passed. *)
Lemma process_entry_session_effect c_close now_la curr_h order s_id cfg st w :
  entries_state (process_entry_session c_close now_la curr_h order s_id cfg st w)
  = st
  \/ exists c e lvls high low signal fill_price target_price stop_price,
       risk_management.is_in_session_window cfg curr_h = true
       /\ trades_taken st !! s_id = Some c
       /\ count c < 2
       /\ session_trade_eligible_time st !! s_id = Some (Some e)
       /\ pydatetime.ltb now_la e = false
       /\ ref_levels st !! s_id = Some (Some lvls)
       /\ lvls !! "high"%string = Some high
       /\ lvls !! "low"%string = Some low
       /\ strategy.check_entry_signal c_close high low = Some signal
       /\ (length (directions c) <= 1)%nat
       /\ directions c <> [strategy.side signal]
       /\ api_client.place_bracket_order
            (bool_decide (strategy.side signal = "LONG"%string))
            (config.target_points cfg) (config.stop_points cfg) order
          = Some (api_client.OrderPlaced fill_price target_price stop_price)
       /\ process_entry_session c_close now_la curr_h order s_id cfg st w
          = Next
              (set_trades_taken
                 (<[s_id := {| count := count c + 1;
                               directions := directions c ++ [strategy.side signal] |}]>
                    (trades_taken st))
                 (set_active_trades
                    (active_trades st
                       ++ [opened_trade signal s_id cfg fill_price target_price
                             stop_price]) st))
              true.
Proof.
  unfold process_entry_session.
  destruct (risk_management.is_in_session_window cfg curr_h) eqn:Hwin; simpl;
    [| by left].
  destruct (risk_management.is_trade_eligible _ _ _ _) eqn:Hel; simpl;
    [| by left].
  destruct (mjoin (ref_levels st !! s_id)) as [lvls |] eqn:Hlv; [| by left].
  case_bool_decide; [by left |].
  destruct (lvls !! "high"%string) as [high |] eqn:Hhigh; [| by left].
  destruct (lvls !! "low"%string) as [low |] eqn:Hlow; [| by left].
  destruct (strategy.check_entry_signal c_close high low) as [signal |] eqn:Hsig;
    [| by left].
  destruct (risk_management.can_take_direction _ _ _) eqn:Hdir; simpl;
    [| by left].
  destruct (api_client.place_bracket_order _ _ _ _)
    as [[msg | fp tpx slx] |] eqn:Hplace; [by left | | by left].
  destruct (negb (notice_prices_defined signal cfg)); [by left |].
  simpl.
  apply is_trade_eligible_true in Hel as (c & e & Hc & Hlt & He & Hnow).
  apply can_take_direction_true in Hdir as (c' & Hc' & Hlen & Hne).
  rewrite Hc in Hc'. injection Hc' as <-.
  rewrite Hc. right.
  exists c, e, lvls, high, low, signal, fp, tpx, slx.
  apply mjoin_lookup_Some in He. apply mjoin_lookup_Some in Hlv.
  repeat split; done.
Qed.

Lemma check_entry_signal_side close_price high_level low_level signal :
  strategy.check_entry_signal close_price high_level low_level = Some signal ->
  strategy.price signal = close_price
  /\ ((strategy.side signal = "LONG"%string /\ (high_level < close_price)%Qc)
      \/ (strategy.side signal = "SHORT"%string
          /\ (close_price <= high_level)%Qc /\ (close_price < low_level)%Qc)).
Proof.
  unfold strategy.check_entry_signal.
  destruct (gt close_price high_level) eqn:Hg.
  - intros [= <-]. apply gt_true in Hg. split; [done |]. by left.
  - destruct (lt close_price low_level) eqn:Hl; [| discriminate].
    intros [= <-]. apply gt_false in Hg. apply lt_true in Hl.
    split; [done |]. by right.
Qed.

(** X5. Whenever one pass of the entry loop changes the state, the
    session's window is open at the current hour, its counter is below 2,
    its eligibility time is set and not after now, its levels hold a high
    and a low, the close has broken out (above the high for a trade
    recorded as LONG, below the low and not above the high for SHORT), the
    broker has filled the order, and the pass has appended one trade of
    that side for that session, with the session's end hour as cutoff, and
    recorded the side in the counter. *)
Theorem entry_pass_justified c_close now_la curr_h order s_id cfg st w :
  let st' := entries_state
               (process_entry_session c_close now_la curr_h order s_id cfg st w) in
  st' <> st ->
  config.start_hour cfg <= curr_h < config.end_hour cfg
  /\ exists c e high low t,
      trades_taken st !! s_id = Some c /\ count c < 2
      /\ session_trade_eligible_time st !! s_id = Some (Some e)
      /\ pydatetime.to_us e <= pydatetime.to_us now_la
      /\ (exists lvls, ref_levels st !! s_id = Some (Some lvls)
                       /\ lvls !! "high"%string = Some high
                       /\ lvls !! "low"%string = Some low)
      /\ ((side t = "LONG"%string /\ (high < c_close)%Qc)
          \/ (side t = "SHORT"%string /\ (c_close <= high)%Qc
              /\ (c_close < low)%Qc))
      /\ (exists p, order = api_client.Filled p /\ entry_price t = p)
      /\ sess_id t = s_id /\ cutoff_h t = config.end_hour cfg
      /\ active_trades st' = active_trades st ++ [t]
      /\ trades_taken st'
         = <[s_id := {| count := count c + 1;
                        directions := directions c ++ [side t] |}]>
             (trades_taken st).
Proof.
  cbv zeta. intros Hch.
  destruct (process_entry_session_effect c_close now_la curr_h order s_id cfg st w)
    as [Hsame | (c & e & lvls & high & low & signal & fp & tpx & slx & Hwin & Hc
                 & Hlt & He & Hnow & Hlv & Hhigh & Hlow & Hsig & _ & _ & Hplace
                 & Hres)]; [done |].
  rewrite Hres. simpl.
  unfold risk_management.is_in_session_window in Hwin.
  apply andb_prop in Hwin as [H1 H2].
  apply Z.leb_le in H1. apply Z.ltb_lt in H2.
  split; [lia |].
  exists c, e, high, low, (opened_trade signal s_id cfg fp tpx slx).
  apply check_entry_signal_side in Hsig as [_ Hside].
  unfold pydatetime.ltb in Hnow. apply Z.ltb_ge in Hnow.
  repeat split; try done.
  - by exists lvls.
  - apply place_bracket_order_placed in Hplace as (-> & _). by exists fp.
Qed.

Lemma entry_pass_justified_witness :
  config.start_hour London_late <= 23 < config.end_hour London_late.
Proof.
  refine (proj1 (entry_pass_justified (of_Z 101) t2306 23
                   (api_client.Filled (of_Z 101)) 22 London_late london_ready
                   false _)).
  intros H. apply (f_equal active_trades) in H. vm_compute in H. discriminate.
Defined.

End entry_facts.

(** ** Invariants of histories *)

Section history_facts.
Import pydecimal state main.

Lemma process_entries_from_preserves (P : BotState -> Prop)
    c_close now_la curr_h orders sessions :
  (forall order s_id cfg st w,
      P st ->
      P (entries_state
           (process_entry_session c_close now_la curr_h order s_id cfg st w))) ->
  forall st w,
    P st ->
    P (entries_state
         (process_entries_from c_close now_la curr_h orders sessions st w)).
Proof.
  intros Hpass.
  induction sessions as [| [s_id cfg] rest IH]; intros st w HP; simpl; [done |].
  specialize (Hpass (orders s_id) s_id cfg st w HP).
  destruct (process_entry_session _ _ _ _ _ _ _ _) as [st' w' | st'];
    simpl in *; [by apply IH | done].
Qed.

(** A property that holds of every freshly initialised state and is kept
    by exits, by a pass of the entry loop, by a pass of the level loader
    and by counting a connection holds after every history. *)
Lemma run_events_preserves (P : BotState -> Prop) (sessions : config.sessions_t) :
  (forall d ids, P (init_session_maps (BotState_new d) ids)) ->
  (forall c_close curr_h st, P st -> P (process_exits c_close curr_h st)) ->
  (forall c_close now_la curr_h order s_id cfg st w,
      P st ->
      P (entries_state
           (process_entry_session c_close now_la curr_h order s_id cfg st w))) ->
  (forall now_la fetch s_id cfg st,
      P st ->
      match check_levels_session now_la fetch s_id cfg st with
      | LevelsNext st' | LevelsRaised st' | LevelsCancelled st' => P st'
      end) ->
  (forall st, P st -> P (set_reconnect_count (reconnect_count st + 1) st)) ->
  forall events st, P st -> P (run_events sessions events st).
Proof.
  intros Hinit Hexit Hentry Hlevels Hconn. unfold run_events.
  induction events as [| e rest IH]; intros st HP; simpl; [done |].
  apply IH.
  destruct e as [today c_close now_la orders
                | c_close now_la curr_h order s_id cfg
                | c_close curr_h
                | now_la fetch s_id cfg
                | today |]; simpl.
  - unfold on_candle. cbv zeta.
    destruct ((pydatetime.hour now_la =? 23) && (pydatetime.minute now_la =? 59));
      [apply Hinit |].
    pose proof (process_entries_from_preserves P c_close now_la
                  (pydatetime.hour now_la) orders sessions
                  (Hentry c_close now_la (pydatetime.hour now_la))
                  _ false (Hexit c_close (pydatetime.hour now_la) st HP)) as Hen.
    unfold process_entries.
    destruct (process_entries_from _ _ _ _ _ _ _) as [st2 w | st2];
      simpl in *; [| done].
    by destruct (negb w && bool_decide (active_trades st2 = [])).
  - specialize (Hentry c_close now_la curr_h order s_id cfg st false HP).
    by destruct (process_entry_session _ _ _ _ _ _ _ _).
  - by apply Hexit.
  - specialize (Hlevels now_la fetch s_id cfg st HP).
    by destruct (check_levels_session _ _ _ _ _).
  - apply Hinit.
  - by apply Hconn.
Qed.

Lemma check_levels_session_active_trades now_la fetch s_id cfg st :
  match check_levels_session now_la fetch s_id cfg st with
  | LevelsNext st' | LevelsRaised st' | LevelsCancelled st' =>
      active_trades st' = active_trades st
  end.
Proof.
  unfold check_levels_session. cbv zeta.
  destruct (pydatetime.hour now_la <? config.start_hour cfg); [done |].
  case_bool_decide; [done |].
  destruct (default false (fetch_attempted st !! s_id)); [done |].
  destruct fetch as [| lvls | | lvls]; simpl;
    repeat case_match; simplify_eq; done.
Qed.

Lemma counter_shape_next (c : SessionTradeState) (signal : strategy.EntrySignal)
    c_close high low :
  counter_shape c ->
  count c < 2 ->
  directions c <> [strategy.side signal] ->
  strategy.check_entry_signal c_close high low = Some signal ->
  counter_shape {| count := count c + 1;
                   directions := directions c ++ [strategy.side signal] |}.
Proof.
  intros Hshape Hlt Hne Hsig.
  apply check_entry_signal_side in Hsig as [_ [[Hs _] | [Hs _]]];
    rewrite Hs in *; unfold counter_shape;
    destruct Hshape as [-> | [-> | [-> | [-> | ->]]]]; simpl in *;
    try lia; try done; auto 6.
Qed.

Lemma shapes_ok_entry_pass c_close now_la curr_h order s_id cfg st w :
  shapes_ok st ->
  shapes_ok (entries_state
               (process_entry_session c_close now_la curr_h order s_id cfg st w)).
Proof.
  intros Hok.
  destruct (process_entry_session_effect c_close now_la curr_h order s_id cfg st w)
    as [-> | (c & e & lvls & high & low & signal & fp & tpx & slx & _ & Hc
              & Hlt & _ & _ & _ & _ & _ & Hsig & _ & Hne & _ & ->)]; [done |].
  intros k c'. simpl.
  destruct (decide (k = s_id)) as [-> | Hk].
  - rewrite lookup_insert_eq. intros [= <-].
    eapply counter_shape_next; eauto.
  - rewrite lookup_insert_ne by done. apply Hok.
Qed.

Lemma run_events_shapes_ok (sessions : config.sessions_t) (d : option string)
    (session_ids : list Z) (events : list event) :
  shapes_ok
    (run_events sessions events (init_session_maps (BotState_new d) session_ids)).
Proof.
  assert (Hinit : forall d ids, shapes_ok (init_session_maps (BotState_new d) ids)).
  { intros d' ids k c.
    destruct (init_session_maps_lookup ids k (BotState_new d')) as (H & _).
    rewrite H. simpl. rewrite lookup_empty.
    case_bool_decide; [| discriminate]. intros [= <-]. by left. }
  apply run_events_preserves; try done.
  - intros c_close curr_h st Hok. unfold shapes_ok.
    by rewrite process_exits_trades_taken.
  - intros. by apply shapes_ok_entry_pass.
  - intros now_la fetch s_id cfg st Hok.
    pose proof (check_levels_session_trades_taken now_la fetch s_id cfg st) as Hl.
    destruct (check_levels_session _ _ _ _ _); unfold shapes_ok; by rewrite Hl.
Qed.

(** X6. From a freshly initialised state, after any history of candles,
    entry passes, exits, loader passes, daily resets and reconnections,
    every session's counter is one of [{0, []}], [{1, ["LONG"]}],
    [{1, ["SHORT"]}], [{2, ["LONG", "SHORT"]}] and [{2, ["SHORT", "LONG"]}]:
    a session never records the same direction twice, and nothing but LONG
    and SHORT. *)
Theorem counter_shapes_invariant (sessions : config.sessions_t)
    (d : option string) (session_ids : list Z) (events : list event)
    (s_id : Z) (c : SessionTradeState) :
  trades_taken
    (run_events sessions events (init_session_maps (BotState_new d) session_ids))
    !! s_id = Some c ->
  counter_shape c
  /\ NoDup (directions c)
  /\ (forall x, x ∈ directions c -> x = "LONG"%string \/ x = "SHORT"%string).
Proof.
  intros Hc.
  pose proof (run_events_shapes_ok sessions d session_ids events s_id c Hc)
    as Hshape.
  split; [exact Hshape |].
  assert (Hne : "LONG"%string <> "SHORT"%string) by discriminate.
  destruct Hshape as [-> | [-> | [-> | [-> | ->]]]]; simpl; split;
    try (intros x Hx;
         repeat (apply elem_of_cons in Hx as [-> | Hx]; [auto |]);
         by apply elem_of_nil in Hx).
  - apply NoDup_nil_2.
  - apply NoDup_singleton.
  - apply NoDup_singleton.
  - apply NoDup_cons. split; [| apply NoDup_singleton].
    by rewrite list_elem_of_singleton.
  - apply NoDup_cons. split; [| apply NoDup_singleton].
    rewrite list_elem_of_singleton. congruence.
Qed.

Lemma counter_shapes_invariant_witness :
  counter_shape (mk_SessionTradeState 2 ["LONG"; "SHORT"]%string).
Proof.
  refine (proj1 (counter_shapes_invariant london_until_midnight
                   (Some "2025-01-02"%string) [22] breakout_history 22 _ _)).
  vm_compute. reflexivity.
Defined.

Lemma filter_filter_length {A : Type} (p q : A -> bool) (l : list A) :
  (length (List.filter p (List.filter q l)) <= length (List.filter p l))%nat.
Proof.
  induction l as [| x l IH]; simpl; [done |].
  destruct (q x); simpl; destruct (p x); simpl; lia.
Qed.

Lemma open_within_count_entry_pass c_close now_la curr_h order s_id cfg st w :
  open_within_count st ->
  open_within_count
    (entries_state
       (process_entry_session c_close now_la curr_h order s_id cfg st w)).
Proof.
  intros Hok.
  destruct (process_entry_session_effect c_close now_la curr_h order s_id cfg st w)
    as [-> | (c & e & lvls & high & low & signal & fp & tpx & slx & _ & Hc
              & _ & _ & _ & _ & _ & _ & _ & _ & _ & _ & ->)]; [done |].
  intros sid. specialize (Hok sid). unfold count_of, open_trades_of in *.
  simpl. rewrite List.filter_app, length_app. simpl.
  destruct (decide (sid = s_id)) as [-> | Hk].
  - rewrite lookup_insert_eq. rewrite Hc in Hok. simpl.
    rewrite Z.eqb_refl. simpl. lia.
  - rewrite lookup_insert_ne by done.
    destruct (Z.eqb_spec s_id sid) as [-> | _]; [done |]. simpl. lia.
Qed.

(** X7. From a freshly initialised state, after any history, no session
    has more active trades than trades taken, so no session ever has more
    than two trades open at once. *)
Theorem open_trades_bounded (sessions : config.sessions_t) (d : option string)
    (session_ids : list Z) (events : list event) (sid : Z) :
  let st := run_events sessions events
              (init_session_maps (BotState_new d) session_ids) in
  Z.of_nat (length (open_trades_of sid (active_trades st))) <= count_of st sid
  /\ (length (open_trades_of sid (active_trades st)) <= 2)%nat.
Proof.
  cbv zeta.
  assert (Hopen : open_within_count
                    (run_events sessions events
                       (init_session_maps (BotState_new d) session_ids))).
  { assert (Hinit : forall d' ids,
               open_within_count (init_session_maps (BotState_new d') ids)).
    { intros d' ids k. unfold count_of.
      destruct (init_session_maps_frame ids (BotState_new d')) as (_ & -> & _).
      destruct (init_session_maps_lookup ids k (BotState_new d')) as (-> & _).
      simpl. rewrite lookup_empty. by case_bool_decide. }
    apply run_events_preserves; [exact Hinit | | | | | apply Hinit].
    - intros c_close curr_h st Hok k. specialize (Hok k).
      unfold count_of, open_trades_of in *.
      rewrite process_exits_trades_taken, process_exits_filter. simpl.
      pose proof (filter_filter_length (fun t => sess_id t =? k)
                    (stays_open c_close curr_h) (active_trades st)). lia.
    - intros. by apply open_within_count_entry_pass.
    - intros now_la fetch s_id cfg st Hok.
      pose proof (check_levels_session_trades_taken now_la fetch s_id cfg st) as Hl.
      pose proof (check_levels_session_active_trades now_la fetch s_id cfg st) as Ha.
      destruct (check_levels_session _ _ _ _ _);
        unfold open_within_count, count_of; by rewrite Hl, Ha.
    - intros st Hok. exact Hok. }
  split; [apply Hopen |].
  pose proof (run_events_shapes_ok sessions d session_ids events) as Hok.
  specialize (Hopen sid). unfold count_of in Hopen.
  destruct (trades_taken _ !! sid) as [c |] eqn:Hc; [| lia].
  destruct (Hok _ _ Hc) as [-> | [-> | [-> | [-> | ->]]]]; simpl in Hopen; lia.
Qed.

End history_facts.

(** ** Windows and the scanning decision *)

Section window_facts.
Import state main.

Lemma process_entry_session_flag c_close now_la curr_h order s_id cfg st w st' w' :
  process_entry_session c_close now_la curr_h order s_id cfg st w = Next st' w' ->
  w' = w || risk_management.is_in_session_window cfg curr_h.
Proof.
  unfold process_entry_session.
  destruct (risk_management.is_in_session_window cfg curr_h); simpl.
  - rewrite orb_true_r.
    repeat case_match; simplify_eq; intros; simplify_eq; done.
  - rewrite orb_false_r. by intros [= _ <-].
Qed.

Lemma process_entries_from_flag c_close now_la curr_h orders sessions :
  forall st w st' w',
    process_entries_from c_close now_la curr_h orders sessions st w
    = Next st' w' ->
    w' = w || window_open_somewhere sessions curr_h.
Proof.
  induction sessions as [| [s_id cfg] rest IH]; intros st w st' w'; simpl.
  - intros [= _ <-]. by rewrite orb_false_r.
  - destruct (process_entry_session _ _ _ _ _ _ _ _) as [st1 w1 | st1] eqn:Hp;
      [| discriminate].
    intros Hrest. apply IH in Hrest. apply process_entry_session_flag in Hp.
    rewrite Hrest, Hp. by rewrite orb_assoc.
Qed.

(** X8. When [_process_entries] returns, its flag [in_active_window] tells
    exactly whether some session window is open at the current hour; it
    does not depend on counters, levels, eligibility or the broker.  So the
    streaming loop, which ends on a false flag with no active trade, goes on
    as long as a window is open, also once every open session has used up
    its two trades. *)
Theorem in_active_window_flag (sessions : config.sessions_t)
    (c_close : pydecimal.Decimal) (now_la : pydatetime.datetime) (curr_h : Z)
    (orders : Z -> api_client.entry_outcome) (st st' : BotState) (w : bool) :
  process_entries sessions c_close now_la curr_h orders st = Next st' w ->
  w = window_open_somewhere sessions curr_h
  /\ (w = true <->
      exists s_id cfg, (s_id, cfg) ∈ sessions
        /\ config.start_hour cfg <= curr_h < config.end_hour cfg).
Proof.
  unfold process_entries. intros H. apply process_entries_from_flag in H.
  simpl in H. subst w. split; [done |].
  unfold window_open_somewhere. rewrite existsb_exists.
  unfold risk_management.is_in_session_window.
  split.
  - intros ([s_id cfg] & Hin & Hw). exists s_id, cfg.
    apply list_elem_of_In in Hin. split; [done |].
    simpl in Hw. apply andb_prop in Hw as [H1 H2].
    apply Z.leb_le in H1. apply Z.ltb_lt in H2. lia.
  - intros (s_id & cfg & Hin & H1 & H2). exists (s_id, cfg).
    apply list_elem_of_In in Hin. split; [done |]. simpl.
    apply andb_true_intro. split; [by apply Z.leb_le | by apply Z.ltb_lt].
Qed.

Lemma in_active_window_flag_witness :
  true = window_open_somewhere london_until_midnight 23.
Proof.
  refine (proj1 (in_active_window_flag london_until_midnight
                   (pydecimal.of_Z 95) t2300 23 (fills_at (pydecimal.of_Z 95))
                   london_ready london_ready true _)).
  vm_compute. reflexivity.
Defined.

Lemma should_be_scanning_from_spec (sessions : config.sessions_t) (h : Z)
    (st : BotState) :
  forall flag,
    (forall s_id cfg, (s_id, cfg) ∈ sessions ->
       risk_management.is_in_session_window cfg h = true ->
       is_Some (trades_taken st !! s_id)) ->
    should_be_scanning_from sessions h st flag
    = Some (flag || some_session_can_trade sessions h st).
Proof.
  induction sessions as [| [s_id cfg] rest IH]; intros flag Hall; simpl.
  - by rewrite orb_false_r.
  - assert (Hrest : forall s cfg', (s, cfg') ∈ rest ->
               risk_management.is_in_session_window cfg' h = true ->
               is_Some (trades_taken st !! s)).
    { intros s cfg' Hin. apply Hall. by right. }
    unfold risk_management.is_in_session_window at 1.
    destruct ((config.start_hour cfg <=? h) && (h <? config.end_hour cfg))
      eqn:Hw; simpl.
    + destruct (Hall s_id cfg) as [c Hc]; [by left | exact Hw |].
      rewrite Hc. simpl. rewrite (IH _ Hrest).
      destruct (count c <? 2); simpl; [| done].
      by rewrite orb_true_r.
    + by rewrite (IH _ Hrest).
Qed.

Lemma should_be_scanning_from_missing (sessions : config.sessions_t) (h : Z)
    (st : BotState) :
  forall flag s_id cfg,
    (s_id, cfg) ∈ sessions ->
    risk_management.is_in_session_window cfg h = true ->
    trades_taken st !! s_id = None ->
    should_be_scanning_from sessions h st flag = None.
Proof.
  induction sessions as [| [s cfg'] rest IH]; intros flag s_id cfg Hin Hw Hnone.
  - by apply elem_of_nil in Hin.
  - simpl.
    destruct ((config.start_hour cfg' <=? h) && (h <? config.end_hour cfg'))
      eqn:Hw'.
    + destruct (trades_taken st !! s) as [c |] eqn:Hc; simpl; [| done].
      apply elem_of_cons in Hin as [[= <- <-] | Hin]; [congruence |].
      by eapply IH.
    + apply elem_of_cons in Hin as [[= <- <-] | Hin].
      * unfold risk_management.is_in_session_window in Hw. congruence.
      * by eapply IH.
Qed.

(** X9. The scanning flag of [_run_monitor_cycle]: when every session
    whose window is open has a counter, the flag is true exactly if some
    session has its window open and fewer than two trades taken; a session
    with an open window and no counter makes the loop raise.  After
    [init_session_maps] on the table's ids, and so after a daily reset,
    every session has a counter and the loop cannot raise. *)
Theorem should_be_scanning_spec (sessions : config.sessions_t) (h : Z)
    (st : BotState) :
  ((forall s_id cfg, (s_id, cfg) ∈ sessions ->
      risk_management.is_in_session_window cfg h = true ->
      is_Some (trades_taken st !! s_id)) ->
   should_be_scanning sessions h st = Some (some_session_can_trade sessions h st))
  /\ (forall s_id cfg, (s_id, cfg) ∈ sessions ->
        risk_management.is_in_session_window cfg h = true ->
        trades_taken st !! s_id = None ->
        should_be_scanning sessions h st = None)
  /\ (forall today_new old,
        should_be_scanning sessions h (reset_daily_state sessions today_new old)
        = Some (window_open_somewhere sessions h)).
Proof.
  split; [| split].
  - intros Hall. unfold should_be_scanning.
    by rewrite (should_be_scanning_from_spec sessions h st false Hall).
  - intros s_id cfg Hin Hw Hnone. unfold should_be_scanning.
    by eapply should_be_scanning_from_missing.
  - intros today_new old. unfold should_be_scanning.
    set (st0 := reset_daily_state sessions today_new old).
    assert (Hc : forall s_id cfg, (s_id, cfg) ∈ sessions ->
               trades_taken st0 !! s_id = Some SessionTradeState_default).
    { intros s_id cfg Hin. unfold st0, reset_daily_state.
      destruct (init_session_maps_lookup (map fst sessions) s_id
                  (BotState_new (Some today_new))) as (-> & _).
      simpl. rewrite lookup_empty.
      rewrite bool_decide_eq_true_2; [done |].
      apply list_elem_of_fmap. by exists (s_id, cfg). }
    rewrite should_be_scanning_from_spec.
    + simpl. f_equal. unfold some_session_can_trade, window_open_somewhere.
      clearbody st0. clear -Hc.
      induction sessions as [| [s cfg] rest IH]; simpl; [done |].
      rewrite (Hc s cfg) by (by left). simpl. rewrite andb_true_r.
      f_equal. apply IH. intros s' cfg' Hin. apply (Hc s' cfg'). by right.
    + intros s_id cfg Hin _. rewrite (Hc s_id cfg Hin). by eexists.
Qed.

Lemma should_be_scanning_spec_witness :
  should_be_scanning london_until_midnight 23 london_ready = Some true.
Proof.
  refine (proj1 (should_be_scanning_spec london_until_midnight 23 london_ready) _).
  intros s_id cfg Hin _.
  apply list_elem_of_singleton in Hin. injection Hin as -> _.
  vm_compute. by eexists.
Defined.

End window_facts.

(** ** Bounds of the next-wake delay *)

Section delay_facts.
Import pydatetime main.

Lemma wait_until_next_event_spec_eq (sessions : config.sessions_t)
    (now : datetime) :
  start_hours_valid sessions = true ->
  wait_until_next_event sessions now = Some (next_wake_delay_spec sessions now).
Proof.
  intros Hv.
  unfold wait_until_next_event, next_wake_delay_spec, in_weekend_span.
  cbv zeta.
  destruct ((weekday now =? 4) && (14 <=? hour now) || (weekday now =? 5)).
  - unfold replace_hm. simpl. reflexivity.
  - rewrite (future_events_occurrences sessions now Hv). simpl.
    set (mr := if leb _ now then _ else _).
    assert (Hmr : mr = next_occurrence now 23 59).
    { unfold mr, next_occurrence, leb. cbv zeta. rewrite Z.leb_antisym.
      by destruct (to_us now <? _). }
    destruct (py_min_snoc
                (map (fun kv : Z * config.SessionConfig =>
                        next_occurrence now (config.start_hour (snd kv)) 0)
                     sessions) mr) as (t & Ht & Hus).
    rewrite Ht. simpl. unfold sub_us, nearest_event_us.
    rewrite Hus, Hmr, map_map. reflexivity.
Qed.

Lemma total_seconds_lt (a b : Z) :
  a < b -> (total_seconds a < total_seconds b)%Qc.
Proof.
  intros Hab. unfold total_seconds, Qclt, Q2Qc. simpl.
  rewrite !Qred_correct. unfold Qlt. simpl. lia.
Qed.

Lemma total_seconds_le (a b : Z) :
  a <= b -> (total_seconds a <= total_seconds b)%Qc.
Proof.
  intros Hab. unfold total_seconds, Qcle, Q2Qc. simpl.
  rewrite !Qred_correct. unfold Qle. simpl. lia.
Qed.

Lemma Qc_add_lt_r (x y p : Qc) : (x < y)%Qc -> (x + p < y + p)%Qc.
Proof.
  intros H. apply Qclt_minus_iff.
  replace (y + p + - (x + p))%Qc with (y + - x)%Qc by ring.
  exact (proj1 (Qclt_minus_iff x y) H).
Qed.

Lemma Qc_add_le_r (x y p : Qc) : (x <= y)%Qc -> (x + p <= y + p)%Qc.
Proof.
  intros H. apply Qcle_minus_iff.
  replace (y + p + - (x + p))%Qc with (y + - x)%Qc by ring.
  exact (proj1 (Qcle_minus_iff x y) H).
Qed.

Lemma nearest_event_us_bounds (sessions : config.sessions_t) (now : datetime) :
  valid now -> start_hours_valid sessions = true ->
  to_us now < nearest_event_us sessions now <= to_us now + 86400000000.
Proof.
  intros Hnow Hv. unfold nearest_event_us.
  destruct (next_occurrence_future now 23 59 Hnow) as (Hmr & _); [lia | lia |].
  induction sessions as [| [s_id cfg] rest IH]; simpl; [exact Hmr |].
  simpl in Hv. apply andb_prop in Hv as [Hh Hrest].
  apply andb_prop in Hh as [H0 H24].
  apply Z.leb_le in H0. apply Z.ltb_lt in H24.
  destruct (next_occurrence_future now (config.start_hour cfg) 0 Hnow)
    as (Hs & _); [lia | lia |].
  specialize (IH Hrest). lia.
Qed.

(** X10. For a valid clock reading and a table whose start hours are hours
    of the day, [_wait_until_next_event] returns a delay and never a
    non-positive one: outside the weekend span it is more than 30 seconds
    and at most a day plus 30 seconds; inside the span (Friday from 14:00,
    Saturday) it is positive and at most 49 hours. *)
Theorem wait_until_next_event_bounds (sessions : config.sessions_t)
    (now : datetime) :
  valid now -> start_hours_valid sessions = true ->
  exists w,
    wait_until_next_event sessions now = Some w
    /\ if in_weekend_span now
       then (0 < w)%Qc /\ (w <= Q2Qc 176400)%Qc
       else (Q2Qc 30 < w)%Qc /\ (w <= Q2Qc 86430)%Qc.
Proof.
  intros Hnow Hv. exists (next_wake_delay_spec sessions now).
  split; [by apply wait_until_next_event_spec_eq |].
  unfold next_wake_delay_spec.
  destruct (in_weekend_span now) eqn:Hw.
  - destruct (weekend_open_sunday now Hnow Hw) as (_ & _ & Hlt).
    split.
    + replace 0%Qc with (total_seconds 0)
        by (apply Qc_is_canon; vm_compute; reflexivity).
      apply total_seconds_lt. lia.
    + replace (Q2Qc 176400) with (total_seconds 176400000000)
        by (apply Qc_is_canon; vm_compute; reflexivity).
      apply total_seconds_le.
      destruct Hnow as (Hh & Hm & Hs & Hu).
      unfold in_weekend_span in Hw. unfold weekend_open, to_us, weekday in *.
      simpl.
      apply orb_prop in Hw as [Hfri | Hsat].
      * apply andb_prop in Hfri as [Hfri H14].
        apply Z.eqb_eq in Hfri. apply Z.leb_le in H14. lia.
      * apply Z.eqb_eq in Hsat. lia.
  - pose proof (nearest_event_us_bounds sessions now Hnow Hv) as [Hlo Hhi].
    split.
    + replace (Q2Qc 30) with (total_seconds 0 + Q2Qc 30)%Qc
        by (apply Qc_is_canon; vm_compute; reflexivity).
      apply Qc_add_lt_r, total_seconds_lt. lia.
    + replace (Q2Qc 86430) with (total_seconds 86400000000 + Q2Qc 30)%Qc
        by (apply Qc_is_canon; vm_compute; reflexivity).
      apply Qc_add_le_r, total_seconds_le. lia.
Qed.

Lemma wait_until_next_event_bounds_witness :
  exists w,
    wait_until_next_event config.SESSIONS sample_now = Some w
    /\ (Q2Qc 30 < w)%Qc /\ (w <= Q2Qc 86430)%Qc.
Proof.
  assert (Hv : valid sample_now) by (vm_compute; intuition discriminate).
  destruct (wait_until_next_event_bounds config.SESSIONS sample_now Hv eq_refl)
    as (w & Hw & Hb).
  exists w. split; [exact Hw |]. exact Hb.
Defined.

End delay_facts.

(** ** Supervisor histories *)

Section supervisor_history_facts.
Import main.

Lemma start_from_snoc (outcomes : list cycle_outcome) (o : cycle_outcome) :
  forall n,
    start_from n (outcomes ++ [o])
    = match start_from n outcomes with
      | (effs, Running m) =>
          match start_iteration m o with
          | (effs', Some k) => (effs ++ effs', Running k)
          | (effs', None) => (effs ++ effs', Stopped)
          end
      | (effs, Stopped) => (effs, Stopped)
      end.
Proof.
  induction outcomes as [| x rest IH]; intros n; simpl.
  - destruct (start_iteration n o) as [e [k |]]; simpl; by rewrite ?app_nil_r.
  - destruct (start_iteration n x) as [e1 [k |]]; [| done].
    rewrite IH.
    destruct (start_from k rest) as [e2 [m |]]; [| done].
    destruct (start_iteration m o) as [e3 [j |]]; by rewrite app_assoc.
Qed.

Lemma trailing_failures_snoc (outcomes : list cycle_outcome) (o : cycle_outcome) :
  trailing_failures (outcomes ++ [o])
  = match o with
    | Failed => S (trailing_failures outcomes)
    | Returned => 0%nat
    end.
Proof.
  unfold trailing_failures. rewrite reverse_snoc. by destruct o.
Qed.

Lemma start_running_counter (outcomes : list cycle_outcome) :
  forall effs m,
    start outcomes = (effs, Running m) ->
    m = Z.of_nat (trailing_failures outcomes) /\ 0 <= m < 10.
Proof.
  unfold start.
  induction outcomes as [| o rest IH] using rev_ind; intros effs m.
  - simpl. intros [= _ <-]. split; [done | lia].
  - rewrite start_from_snoc, trailing_failures_snoc.
    destruct (start_from 0 rest) as [e1 [k |]]; [| discriminate].
    destruct (IH e1 k eq_refl) as [Hk Hb].
    destruct o; simpl.
    + intros [= _ <-]. split; [done | lia].
    + unfold max_consecutive_errors.
      destruct (Z.leb_spec 10 (k + 1)); [discriminate |].
      intros [= _ <-]. split; lia.
Qed.

Lemma start_stopped_prefix (outcomes : list cycle_outcome) :
  snd (start outcomes) = Stopped ->
  exists before after,
    outcomes = before ++ after /\ trailing_failures before = 10%nat
    /\ snd (start before) = Stopped.
Proof.
  induction outcomes as [| o rest IH] using rev_ind; [discriminate |].
  intros Hs.
  destruct (start rest) as [e1 [k |]] eqn:Hrest.
  - exists (rest ++ [o]), []. rewrite app_nil_r.
    split; [done |]. split; [| exact Hs].
    destruct (start_running_counter rest e1 k Hrest) as [Hk Hb].
    unfold start in Hs, Hrest. rewrite start_from_snoc, Hrest in Hs.
    rewrite trailing_failures_snoc.
    destruct o; simpl in Hs; [discriminate |].
    unfold max_consecutive_errors in Hs.
    destruct (Z.leb_spec 10 (k + 1)) as [Hge | Hlt]; [lia | discriminate].
  - destruct (IH eq_refl) as (before & after & -> & Ht & Hb).
    exists before, (after ++ [o]). by rewrite app_assoc.
Qed.

(** X11. While the supervisor loop runs, its counter is the number of
    failed cycles since the last clean return, and that number is below 10.
    The loop has stopped exactly when the outcomes so far contain a point
    at which ten cycles in a row had failed; what comes after that point is
    never run. *)
Theorem supervisor_counts_trailing_failures (outcomes : list cycle_outcome) :
  (forall effs m,
      start outcomes = (effs, Running m) ->
      m = Z.of_nat (trailing_failures outcomes)
      /\ (trailing_failures outcomes < 10)%nat)
  /\ (snd (start outcomes) = Stopped <->
      exists before after,
        outcomes = before ++ after /\ trailing_failures before = 10%nat
        /\ start outcomes = start before).
Proof.
  split.
  - intros effs m H. apply start_running_counter in H as [-> Hb]. split; lia.
  - split.
    + intros Hs.
      destruct (start_stopped_prefix outcomes Hs)
        as (before & after & -> & Ht & Hb).
      exists before, after. split; [done |]. split; [done |].
      unfold start. by apply start_from_stopped_app.
    + intros (before & after & -> & Ht & Hs). rewrite Hs.
      destruct (start before) as [e [m |]] eqn:Hb; [| done].
      apply start_running_counter in Hb as [Hm Hlt]. lia.
Qed.

End supervisor_history_facts.

Lemma supervisor_counts_trailing_failures_witness :
  3 = Z.of_nat (trailing_failures (replicate 3 main.Failed)).
Proof.
  destruct (supervisor_counts_trailing_failures (replicate 3 main.Failed))
    as (Hrun & _).
  refine (proj1 (Hrun _ 3 _)). vm_compute. reflexivity.
Defined.

(** ** What [load] always re-establishes *)

Section load_shape_facts.
Import pyjson state main.

(** X12. Whatever the state file holds (values of any type, keys that
    [int] accepts or rejects, a restore cut short by an exception), the
    state [load] returns has an entry for every configured session in each
    of the five per-session maps, and its counters are those of the
    configured sessions and no others: a counter the file holds for an
    unknown session id is ignored. *)
Theorem load_keeps_sessions {D T : Type} (Decimal_any : json -> option D)
    (fromisoformat_any : json -> option T) (int_ctor : string -> option Z)
    (ids : list Z) (today_str : string) (f : stored) :
  loaded_populated ids
    (unchecked.load Decimal_any fromisoformat_any int_ctor ids today_str f)
  /\ loaded_counters_for ids
       (unchecked.load Decimal_any fromisoformat_any int_ctor ids today_str f).
Proof. apply unchecked_load_kept. Qed.

(** The file [ill_typed_doc]: [load] keeps the string it finds as the
    count of session 22 and ignores the counter of session 23, where the
    typed model has no state to return. *)
Example load_ill_typed_doc :
  unchecked.trades_taken
    (unchecked.load plain_Decimal no_datetime py_int [22] "2025-01-02"
       (Doc ill_typed_doc)) !! 22
  = Some (unchecked.mk_SessionTradeState (JStr "five") (JInt 7))
  /\ unchecked.trades_taken
       (unchecked.load plain_Decimal no_datetime py_int [22] "2025-01-02"
          (Doc ill_typed_doc)) !! 23 = None
  /\ load plain_Decimal no_datetime [22] "2025-01-02" (Doc ill_typed_doc) = None.
Proof. repeat split; vm_compute; reflexivity. Qed.

End load_shape_facts.

Lemma load_keeps_sessions_witness :
  loaded_populated [22]
    (unchecked.load plain_Decimal no_datetime pyjson.py_int [22] "2025-01-02"
       (state.Doc ill_typed_doc)).
Proof.
  exact (proj1 (load_keeps_sessions plain_Decimal no_datetime pyjson.py_int
                  [22] "2025-01-02" (state.Doc ill_typed_doc))).
Defined.

(** ** The level loader's latch *)

Section loader_facts.
Import state main.

Lemma check_levels_session_latched now_la fetch s_id cfg st :
  config.start_hour cfg <= pydatetime.hour now_la ->
  fetch_completed fetch ->
  let st' := levels_state (check_levels_session now_la fetch s_id cfg st) in
  is_Some (mjoin (ref_levels st' !! s_id))
  \/ fetch_attempted st' !! s_id = Some true.
Proof.
  intros Hh Hdone. cbv zeta. unfold check_levels_session. cbv zeta.
  destruct (Z.ltb_spec (pydatetime.hour now_la) (config.start_hour cfg));
    [lia |].
  case_bool_decide as Hlv; [by left |].
  destruct (default false (fetch_attempted st !! s_id)) eqn:Hfa.
  { right. simpl. destruct (fetch_attempted st !! s_id) as [[|] |]; done. }
  right.
  destruct fetch as [| lvls | | lvls]; try done; simpl;
    repeat case_match; simpl; apply lookup_insert_eq.
Qed.

Lemma check_levels_session_skip now_la fetch s_id cfg st :
  is_Some (mjoin (ref_levels st !! s_id))
  \/ fetch_attempted st !! s_id = Some true ->
  check_levels_session now_la fetch s_id cfg st = LevelsNext st.
Proof.
  intros Hskip. unfold check_levels_session. cbv zeta.
  destruct (pydatetime.hour now_la <? config.start_hour cfg); [done |].
  case_bool_decide as Hlv; [done |].
  destruct Hskip as [Hl | Hf]; [done |]. by rewrite Hf.
Qed.

(** X13. The level loader fetches a session's levels at most once a day,
    unless the fetch is cut by the cancellation of the loader task.  Levels
    that are set are never fetched again or overwritten.  Once a pass has
    run for a session at or after its start hour and its fetch was not
    cancelled (it returned levels, returned nothing or raised), every later
    pass for that session leaves the state as it is.  A pass cancelled
    while it opens the streamer or fetches ends the task with the state
    unchanged, so the session is not marked and the loader of the next
    connection fetches again; a pass cancelled while the streamer closes
    has stored what the fetch returned but marks nothing and sets no
    eligibility time. *)
Theorem check_levels_session_once now_la fetch s_id cfg st :
  (is_Some (mjoin (ref_levels st !! s_id)) ->
   check_levels_session now_la fetch s_id cfg st = LevelsNext st)
  /\ (config.start_hour cfg <= pydatetime.hour now_la ->
      fetch_completed fetch ->
      forall now_later fetch_later,
        check_levels_session now_later fetch_later s_id cfg
          (levels_state (check_levels_session now_la fetch s_id cfg st))
        = LevelsNext
            (levels_state (check_levels_session now_la fetch s_id cfg st)))
  /\ (config.start_hour cfg <= pydatetime.hour now_la ->
      mjoin (ref_levels st !! s_id) = None ->
      default false (fetch_attempted st !! s_id) = false ->
      check_levels_session now_la FetchCancelled s_id cfg st = LevelsCancelled st
      /\ (forall now_later fetch_later,
            check_levels_session now_later fetch_later s_id cfg st
            = LevelsNext st ->
            pydatetime.hour now_later < config.start_hour cfg)
      /\ (forall lvls,
            exists st',
              check_levels_session now_la (CloseCancelled lvls) s_id cfg st
              = LevelsCancelled st'
              /\ ref_levels st' !! s_id = Some (levels_dict <$> lvls)
              /\ fetch_attempted st' = fetch_attempted st
              /\ session_trade_eligible_time st'
                 = session_trade_eligible_time st)).
Proof.
  split; [| split].
  - intros Hl. apply check_levels_session_skip. by left.
  - intros Hh Hdone now_later fetch_later. apply check_levels_session_skip.
    by apply check_levels_session_latched.
  - intros Hh Hlv Hfa.
    assert (Hno : ~ is_Some (mjoin (ref_levels st !! s_id)))
      by (rewrite Hlv; by intros [x Hx]).
    split; [| split].
    + unfold check_levels_session. cbv zeta.
      destruct (Z.ltb_spec (pydatetime.hour now_la) (config.start_hour cfg));
        [lia |].
      by rewrite bool_decide_eq_false_2, Hfa.
    + intros now_later fetch_later. unfold check_levels_session. cbv zeta.
      destruct (Z.ltb_spec (pydatetime.hour now_later) (config.start_hour cfg));
        [done |].
      rewrite bool_decide_eq_false_2, Hfa by done.
      destruct fetch_later as [| lvls | | lvls]; simpl; try discriminate.
      * repeat case_match; try discriminate.
        all: intros [= Hst]; apply (f_equal fetch_attempted) in Hst;
          simpl in Hst; apply (f_equal (fun m => m !! s_id)) in Hst;
          rewrite lookup_insert_eq in Hst;
          rewrite <- Hst in Hfa; discriminate.
      * repeat case_match; try discriminate.
        all: intros [= Hst]; apply (f_equal fetch_attempted) in Hst;
          simpl in Hst; apply (f_equal (fun m => m !! s_id)) in Hst;
          rewrite lookup_insert_eq in Hst;
          rewrite <- Hst in Hfa; discriminate.
    + intros lvls. unfold check_levels_session. cbv zeta.
      destruct (Z.ltb_spec (pydatetime.hour now_la) (config.start_hour cfg));
        [lia |].
      rewrite bool_decide_eq_false_2, Hfa by done.
      eexists. split; [reflexivity |]. simpl.
      split; [apply lookup_insert_eq | done].
Qed.

Lemma check_levels_session_once_witness :
  check_levels_session t2306 (Fetched (Some (pydecimal.of_Z 1, pydecimal.of_Z 1)))
    22 London london_ready
  = LevelsNext london_ready.
Proof.
  refine (proj1 (check_levels_session_once t2306 _ 22 London london_ready) _).
  vm_compute. by eexists.
Defined.

End loader_facts.

(** ** Logging in *)

Section login_facts.
Import main api_client_login.

Lemma login_from_cons (n attempt : nat) (rest : list nat) (ok : nat -> bool) :
  login_from n (attempt :: rest) ok
  = if ok attempt then ([], LoggedIn)
    else if (attempt <? n - 1)%nat
         then (Sleep 5 :: fst (login_from n rest ok), snd (login_from n rest ok))
         else ([], LoginRaised).
Proof. simpl. by destruct (login_from n rest ok). Qed.

Lemma failures_before_success_S (ok : nat -> bool) (first n : nat) :
  failures_before_success ok first (S n)
  = if ok first then 0%nat else S (failures_before_success ok (S first) n).
Proof. reflexivity. Qed.

Lemma login_from_spec (ok : nat -> bool) (n : nat) :
  forall k first,
    (first + S k = n)%nat ->
    login_from n (seq first (S k)) ok
    = (replicate (Nat.min (failures_before_success ok first (S k)) k) (Sleep 5),
       if (failures_before_success ok first (S k) <? S k)%nat
       then LoggedIn else LoginRaised).
Proof.
  induction k as [| k IH]; intros first Hn.
  - simpl. destruct (ok first); [done |].
    destruct (Nat.ltb_spec first (n - 1)); [lia | done].
  - change (seq first (S (S k))) with (first :: seq (S first) (S k)).
    rewrite login_from_cons, (failures_before_success_S ok first (S k)).
    destruct (ok first); [done |].
    destruct (Nat.ltb_spec first (n - 1)); [| lia].
    rewrite IH by lia.
    generalize (failures_before_success ok (S first) (S k)). intros m.
    cbn [fst snd]. f_equal.
Qed.

(** X14. [login] makes at most three attempts and returns at the first
    that succeeds; it sleeps 5 seconds after each failed attempt except
    the third, after which it re-raises, so it never sleeps more than
    twice.  [revalidate_session] does not log in again when the session
    validates, never raises, and answers false exactly when the session
    does not validate and all three login attempts fail. *)
Theorem login_retries (ok : nat -> bool) :
  let failed := failures_before_success ok 0 3 in
  login ok
  = (replicate (Nat.min failed 2) (Sleep 5),
     if (failed <? 3)%nat then LoggedIn else LoginRaised)
  /\ (snd (login ok) = LoggedIn <->
      ok 0%nat = true \/ ok 1%nat = true \/ ok 2%nat = true)
  /\ (forall session,
        (validate_session session = true ->
         revalidate_session session ok = ([], true))
        /\ (snd (revalidate_session session ok) = false <->
            validate_session session = false
            /\ ok 0%nat = false /\ ok 1%nat = false /\ ok 2%nat = false)).
Proof.
  cbv zeta.
  assert (Hl : login ok
               = (replicate (Nat.min (failures_before_success ok 0 3) 2) (Sleep 5),
                  if (failures_before_success ok 0 3 <? 3)%nat
                  then LoggedIn else LoginRaised)).
  { unfold login, max_retries. by apply (login_from_spec ok 3 2 0). }
  split; [exact Hl |]. split.
  - rewrite Hl. simpl.
    destruct (ok 0%nat), (ok 1%nat), (ok 2%nat); simpl;
      split; intros H; try done; auto;
      destruct H as [H | [H | H]]; discriminate.
  - intros session. unfold revalidate_session. split.
    + by intros ->.
    + destruct (validate_session session); simpl.
      { split; [discriminate | intros [H _]; discriminate]. }
      rewrite Hl. simpl.
      destruct (ok 0%nat), (ok 1%nat), (ok 2%nat); simpl;
        split; intros H; try done; destruct H as (_ & ? & ? & ?); discriminate.
Qed.

End login_facts.

(** ** Fetching the reference levels *)

Section fetch_facts.
Import pydecimal pydatetime data_handler.

Lemma first_hour_candle_first (hour_of : Z -> option Z) (hour_pt : Z)
    (candles : list Candle) (candle : Candle) :
  first_hour_candle hour_of hour_pt candles = Some candle ->
  exists before after,
    candles = before ++ candle :: after
    /\ hour_of (time candle) = Some hour_pt /\ (0 < high candle)%Qc
    /\ Forall (fun c => exists candle_hour,
                          hour_of (time c) = Some candle_hour
                          /\ ~ (candle_hour = hour_pt /\ (0 < high c)%Qc))
         before.
Proof.
  induction candles as [| c candles IH]; simpl; [discriminate |].
  destruct (hour_of (time c)) as [candle_hour |] eqn:Hc; [| discriminate].
  destruct ((candle_hour =? hour_pt) && gt (high c) 0%Qc) eqn:Hp.
  - intros [= ->]. apply andb_prop in Hp as [Hp1 Hp2].
    apply Z.eqb_eq in Hp1. apply gt_true in Hp2. subst candle_hour.
    exists [], candles. by repeat split.
  - intros Hf. destruct (IH Hf) as (before & after & -> & Hx & Hy & Hb).
    exists (c :: before), after. repeat split; [done | done |].
    constructor; [| done].
    exists candle_hour. split; [done |]. intros [Hc1 Hc2].
    apply Z.eqb_eq in Hc1. apply gt_true in Hc2. by rewrite Hc1, Hc2 in Hp.
Qed.

(** X15. [fetch_hourly_levels] returns nothing while the reference hour
    has not started or is still running; when it returns levels, the
    reference hour is an hour of the day that lies before the current
    hour, the levels are the high and low of the first candle received
    whose local hour is the reference hour and whose high is positive,
    every candle before it has a timestamp [fromtimestamp] accepts, and the
    high returned is positive. *)
Theorem fetch_hourly_levels_spec (hour_of : Z -> option Z) (now_la : datetime)
    (hour_pt : Z) (candles : list Candle) :
  valid now_la ->
  (hour now_la <= hour_pt ->
   fetch_hourly_levels hour_of now_la hour_pt candles = None)
  /\ (forall h l,
        fetch_hourly_levels hour_of now_la hour_pt candles = Some (h, l) ->
        0 <= hour_pt < hour now_la
        /\ (0 < h)%Qc
        /\ exists before candle after,
            candles = before ++ candle :: after
            /\ hour_of (time candle) = Some hour_pt
            /\ high candle = h /\ low candle = l
            /\ Forall (fun c => exists candle_hour,
                                  hour_of (time c) = Some candle_hour
                                  /\ ~ (candle_hour = hour_pt
                                        /\ (0 < high c)%Qc)) before).
Proof.
  intros (Hh & Hm & Hs & Hu). unfold fetch_hourly_levels, replace_hm.
  destruct (Z.leb_spec 0 hour_pt) as [H0 |]; simpl; [| split; [done |]];
    [| intros h l; discriminate].
  destruct (Z.ltb_spec hour_pt 24) as [H24 |]; simpl; [| split; [done |]];
    [| intros h l; discriminate].
  unfold ltb, to_us. simpl.
  split.
  - intros Hle.
    destruct (Z.ltb_spec
                ((((ordinal now_la * 24 + hour now_la) * 60 + minute now_la) * 60
                  + second now_la) * 1000000 + microsecond now_la)
                ((((ordinal now_la * 24 + hour_pt) * 60 + 0) * 60 + 0) * 1000000 + 0));
      [done |].
    destruct (Z.eqb_spec (hour now_la) hour_pt); [done | lia].
  - intros h l.
    destruct (Z.ltb_spec
                ((((ordinal now_la * 24 + hour now_la) * 60 + minute now_la) * 60
                  + second now_la) * 1000000 + microsecond now_la)
                ((((ordinal now_la * 24 + hour_pt) * 60 + 0) * 60 + 0) * 1000000 + 0))
      as [| Hge]; [discriminate |].
    destruct (Z.eqb_spec (hour now_la) hour_pt) as [| Hne]; [discriminate |].
    destruct (first_hour_candle hour_of hour_pt candles) as [candle |] eqn:Hf;
      [| discriminate].
    intros [= <- <-].
    destruct (first_hour_candle_first _ _ _ _ Hf)
      as (before & after & -> & Hp1 & Hp2 & Hb).
    split; [lia |]. split; [exact Hp2 |].
    by exists before, candle, after.
Qed.

Lemma fetch_hourly_levels_spec_witness :
  fetch_hourly_levels (fun ms => Some (ms `div` 3600000)) t2300 23
    [mk_Candle "/MES{=h}" 82800000 (of_Z 95) (of_Z 100) (of_Z 90)] = None.
Proof.
  assert (Hv : valid t2300) by (vm_compute; intuition discriminate).
  refine (proj1 (fetch_hourly_levels_spec _ t2300 23 _ Hv) _).
  simpl. lia.
Defined.

End fetch_facts.

(** ** The streaming loop *)

Section stream_facts.
Import state main stream.



End stream_facts.

(** ** A fetch during the reference hour *)

Section unfinished_hour_facts.
Import pydatetime state main.

(** X17. If the first loader pass for a session at or after its start hour
    comes while the session's reference hour has not ended (the hour the
    fetch reads from the clock is at most the reference hour), the fetch
    returns nothing, the session is marked as fetched with no levels, no
    later pass loads them, and the entry loop opens nothing for that
    session on the resulting state. *)
Theorem unfinished_reference_hour_latches (hour_of : Z -> option Z)
    (now_la now_fetch : datetime) (candles : list data_handler.Candle)
    (s_id : Z) (cfg : config.SessionConfig) (st : BotState) :
  valid now_fetch ->
  config.start_hour cfg <= hour now_la ->
  hour now_fetch <= config.ref_hour cfg ->
  mjoin (ref_levels st !! s_id) = None ->
  default false (fetch_attempted st !! s_id) = false ->
  exists st',
    check_levels_session now_la
      (Fetched (data_handler.fetch_hourly_levels hour_of now_fetch
                  (config.ref_hour cfg) candles)) s_id cfg st
    = LevelsNext st'
    /\ ref_levels st' !! s_id = Some None
    /\ fetch_attempted st' !! s_id = Some true
    /\ (forall now_later fetch_later,
          check_levels_session now_later fetch_later s_id cfg st'
          = LevelsNext st')
    /\ (forall c_close now_tick curr_h order w,
          entries_state
            (process_entry_session c_close now_tick curr_h order s_id cfg st' w)
          = st').
Proof.
  intros Hv Hstart Href Hlv Hfa.
  assert (Hfetch : data_handler.fetch_hourly_levels hour_of now_fetch
                     (config.ref_hour cfg) candles = None).
  { unfold data_handler.fetch_hourly_levels, replace_hm.
    destruct Hv as (Hh & Hm & Hs & Hu).
    destruct ((0 <=? config.ref_hour cfg) && (config.ref_hour cfg <? 24)
              && (0 <=? 0) && (0 <? 60)); [| done].
    unfold ltb, to_us. simpl.
    match goal with |- context [?a <? ?b] => destruct (Z.ltb_spec a b) end;
      [done |].
    destruct (Z.eqb_spec (hour now_fetch) (config.ref_hour cfg)); [done | lia]. }
  rewrite Hfetch.
  unfold check_levels_session. cbv zeta.
  destruct (Z.ltb_spec (hour now_la) (config.start_hour cfg)); [lia |].
  rewrite Hlv, Hfa.
  rewrite bool_decide_eq_false_2 by (by intros [x Hx]).
  simpl. rewrite lookup_insert_eq.
  eexists. split; [reflexivity |]. simpl.
  split; [apply lookup_insert_eq |]. split; [apply lookup_insert_eq |].
  split.
  - intros now_later fetch_later. apply check_levels_session_skip.
    right. simpl. apply lookup_insert_eq.
  - intros c_close now_tick curr_h order w.
    unfold process_entry_session. simpl.
    rewrite lookup_insert_eq. simpl.
    by repeat case_match.
Qed.

Lemma unfinished_reference_hour_latches_witness :
  exists st',
    check_levels_session t2300
      (Fetched (data_handler.fetch_hourly_levels
                  (fun ms => Some (ms `div` 3600000))
                  t2300 23 []))
      22 (config.mk_SessionConfig "Late" 23 23 24 (pydecimal.of_Z 1)
            (pydecimal.of_Z 1))
      (init_session_maps (BotState_new None) [22])
    = LevelsNext st'
    /\ fetch_attempted st' !! 22 = Some true.
Proof.
  assert (Hv : valid t2300) by (vm_compute; intuition discriminate).
  destruct (unfinished_reference_hour_latches
              (fun ms => Some (ms `div` 3600000))
              t2300 t2300 [] 22
              (config.mk_SessionConfig "Late" 23 23 24 (pydecimal.of_Z 1)
                 (pydecimal.of_Z 1))
              (init_session_maps (BotState_new None) [22]) Hv)
    as (st' & H1 & _ & H2 & _).
  - simpl. lia.
  - simpl. lia.
  - vm_compute. reflexivity.
  - vm_compute. reflexivity.
  - exists st'. by split.
Defined.

End unfinished_hour_facts.

(** ** Saving and loading *)

Section int_str_facts.
Import pyjson.

Lemma digit_of_pretty_N_char (d : N) :
  (d < 10)%N -> digit_of (pretty_N_char d) = Some (Z.of_N d).
Proof.
  intros Hd.
  assert (d = 0 \/ d = 1 \/ d = 2 \/ d = 3 \/ d = 4 \/ d = 5 \/ d = 6
          \/ d = 7 \/ d = 8 \/ d = 9)%N as Hc by lia.
  repeat (destruct Hc as [-> | Hc]; [reflexivity |]). by subst.
Qed.

Lemma int_digits_pretty_N_go (x : N) :
  forall s b,
    (0 < x)%N ->
    int_digits (pretty_N_go x s) 0 b = int_digits s (Z.of_N x) true.
Proof.
  induction (N.lt_wf_0 x) as [x _ IH]. intros s b Hx.
  rewrite pretty_N_go_step by done.
  assert (Hm : (x `mod` 10 < 10)%N) by (apply N.mod_lt; lia).
  assert (Hdiv : (x `div` 10 < x)%N) by (apply N.div_lt; lia).
  pose proof (N.div_mod x 10 ltac:(lia)) as Hx10.
  revert Hm Hdiv Hx10 IH.
  generalize (x `div` 10)%N (x `mod` 10)%N. intros q r Hm Hdiv Hx10 IH.
  destruct (decide (q = 0)%N) as [-> | Hnz].
  - rewrite pretty_N_go_0. simpl.
    rewrite digit_of_pretty_N_char by done.
    f_equal. lia.
  - rewrite IH; [| done | lia]. simpl.
    rewrite digit_of_pretty_N_char by done.
    f_equal. lia.
Qed.

Lemma pretty_N_go_head (x : N) :
  forall s, (0 < x)%N ->
    exists d rest, (d < 10)%N /\ pretty_N_go x s = String (pretty_N_char d) rest.
Proof.
  induction (N.lt_wf_0 x) as [x _ IH]. intros s Hx.
  rewrite pretty_N_go_step by done.
  destruct (decide (x `div` 10 = 0)%N) as [Hz | Hnz].
  - rewrite Hz, pretty_N_go_0. exists (x `mod` 10)%N, s.
    split; [apply N.mod_lt; lia | done].
  - apply IH; [apply N.div_lt; lia | by apply N.neq_0_lt_0].
Qed.

Lemma py_int_digits_string (d : N) (rest : string) :
  (d < 10)%N ->
  py_int (String (pretty_N_char d) rest)
  = int_digits (String (pretty_N_char d) rest) 0 false.
Proof.
  intros Hd.
  assert (d = 0 \/ d = 1 \/ d = 2 \/ d = 3 \/ d = 4 \/ d = 5 \/ d = 6
          \/ d = 7 \/ d = 8 \/ d = 9)%N as Hc by lia.
  repeat (destruct Hc as [-> | Hc]; [reflexivity |]). by subst.
Qed.

Lemma py_int_pretty_pos (p : positive) : py_int (pretty (N.pos p)) = Some (Z.pos p).
Proof.
  unfold pretty, pretty_N. rewrite decide_False by done.
  destruct (pretty_N_go_head (N.pos p) "" ltac:(lia)) as (d & rest & Hd & Hs).
  rewrite Hs, py_int_digits_string by done. rewrite <- Hs.
  rewrite int_digits_pretty_N_go by lia. reflexivity.
Qed.

Lemma py_int_pretty (z : Z) : py_int (pretty z) = Some z.
Proof.
  destruct z as [| p | p].
  - reflexivity.
  - apply py_int_pretty_pos.
  - unfold pretty, pretty_Z. change ("-" +:+ pretty p) with (String "-" (pretty p)).
    unfold py_int. simpl lstrip.
    pose proof (py_int_pretty_pos p) as Hp.
    unfold pretty at 1, pretty_positive.
    unfold pretty, pretty_N in *. rewrite decide_False in * by done.
    destruct (pretty_N_go_head (N.pos p) "" ltac:(lia)) as (d & rest & Hd & Hs).
    rewrite Hs in *. rewrite py_int_digits_string in Hp by done.
    cbn [is_space]. 
    rewrite Hp. reflexivity.
Qed.

End int_str_facts.

Section roundtrip.
Import pyjson state.

Variable Decimal_ctor : json -> option pydecimal.Decimal.
Variable Decimal_str : pydecimal.Decimal -> string.
Variable fromisoformat : json -> option pydatetime.datetime.
Variable isoformat : pydatetime.datetime -> string.

Hypothesis Decimal_round_trip :
  forall d, Decimal_ctor (JStr (Decimal_str d)) = Some d.
Hypothesis iso_round_trip :
  forall t, fromisoformat (JStr (isoformat t)) = Some t.
Hypothesis iso_nonempty : forall t, isoformat t <> EmptyString.

Lemma for_each_lens {V A : Type}
    (get : BotState -> gmap Z V) (set : gmap Z V -> BotState -> BotState)
    (upd : A -> gmap Z V -> gmap Z V)
    (body : string * json -> BotState -> run) (enc : A -> string * json)
    (Q : A -> gmap Z V -> Prop) :
  (forall m st, get (set m st) = m) ->
  (forall m m' st, set m' (set m st) = set m' st) ->
  (forall st, set (get st) st = st) ->
  (forall x st, Q x (get st) -> body (enc x) st = Cont (set (upd x (get st)) st)) ->
  (forall x y m, Q x m -> Q x (upd y m)) ->
  forall l st,
    (forall x, x ∈ l -> Q x (get st)) ->
    for_each body (map enc l) st
    = Cont (set (fold_left (fun m x => upd x m) l (get st)) st).
Proof.
  intros Hgs Hss Hsg Hbody Hmono.
  induction l as [| x l IH]; intros st HQ; simpl.
  - by rewrite Hsg.
  - rewrite Hbody by (apply HQ; by left). simpl.
    rewrite IH.
    + by rewrite Hgs, Hss.
    + intros y Hy. rewrite Hgs. apply Hmono, HQ. by right.
Qed.

Lemma fold_insert_lookup {V W : Type} (f : V -> option W) (l : list (Z * V)) :
  NoDup (l.*1) ->
  forall (m0 : gmap Z W) k,
    fold_left (fun acc kv => match f (snd kv) with
                             | Some w => <[fst kv := w]> acc
                             | None => acc
                             end) l m0 !! k
    = match (list_to_map l : gmap Z V) !! k ≫= f with
      | Some w => Some w
      | None => m0 !! k
      end.
Proof.
  induction l as [| [j v] l IH]; intros Hnd m0 k; simpl.
  - by rewrite lookup_empty.
  - apply NoDup_cons in Hnd as [Hj Hnd]. rewrite (IH Hnd).
    destruct (decide (k = j)) as [-> | Hne].
    + rewrite lookup_insert_eq.
      rewrite (not_elem_of_list_to_map_1 l j Hj). simpl.
      destruct (f v); [by rewrite lookup_insert_eq | done].
    + rewrite lookup_insert_ne by done.
      destruct (list_to_map l !! k ≫= f); [done |].
      destruct (f v); [by rewrite lookup_insert_ne | done].
Qed.

Lemma fold_insert_map_to_list {V W : Type} (f : V -> option W) (m : gmap Z V)
    (m0 : gmap Z W) (k : Z) :
  fold_left (fun acc kv => match f (snd kv) with
                           | Some w => <[fst kv := w]> acc
                           | None => acc
                           end) (map_to_list m) m0 !! k
  = match m !! k ≫= f with
    | Some w => Some w
    | None => m0 !! k
    end.
Proof.
  rewrite fold_insert_lookup by apply NoDup_fst_map_to_list.
  by rewrite list_to_map_to_list.
Qed.


Lemma load_trades_taken_saved (kv : Z * SessionTradeState) (st : BotState) :
  is_Some (trades_taken st !! fst kv) ->
  load_trades_taken
    (pretty (fst kv),
     JObj [ ("count"%string, JInt (count (snd kv)));
            ("directions"%string, JArr (map JStr (directions (snd kv)))) ]) st
  = Cont (set_trades_taken (put Some kv (trades_taken st)) st).
Proof.
  intros Hin. unfold load_trades_taken, put. simpl.
  rewrite py_int_pretty, bool_decide_eq_true_2 by done.
  rewrite mapM_as_str. by destruct kv as [k [c d]].
Qed.

Lemma load_active_trade_saved (t : ActiveTrade) (st : BotState) :
  load_active_trade Decimal_ctor
    (JObj [ ("side"%string, JStr (side t));
            ("tp"%string, JStr (Decimal_str (tp t)));
            ("sl"%string, JStr (Decimal_str (sl t)));
            ("sess_name"%string, JStr (sess_name t));
            ("cutoff_h"%string, JInt (cutoff_h t));
            ("sess_id"%string, JInt (sess_id t));
            ("entry_price"%string, JStr (Decimal_str (entry_price t))) ]) st
  = Cont (set_active_trades (active_trades st ++ [t]) st).
Proof.
  unfold load_active_trade. simpl.
  rewrite !Decimal_round_trip. simpl. by destruct t.
Qed.

Lemma load_levels_dict_saved (v : gmap string pydecimal.Decimal) :
  load_levels_dict Decimal_ctor
    (map (fun pkv : string * pydecimal.Decimal =>
            (fst pkv, JStr (Decimal_str (snd pkv)))) (map_to_list v))
  = Some v.
Proof.
  unfold load_levels_dict.
  assert (Hm : forall l : list (string * pydecimal.Decimal),
             mapM (fun pkv : string * json =>
                     d ← Decimal_ctor (snd pkv); Some (fst pkv, d))
                  (map (fun pkv : string * pydecimal.Decimal =>
                          (fst pkv, JStr (Decimal_str (snd pkv)))) l)
             = Some l).
  { induction l as [| [k d] l IH]; simpl; [done |].
    rewrite Decimal_round_trip. simpl. by rewrite IH. }
  rewrite Hm. simpl. f_equal.
  rewrite <- (list_to_map_to_list v) at 2.
  symmetry. apply list_to_map_proper.
  - apply NoDup_fst_map_to_list.
  - symmetry. apply reverse_Permutation.
Qed.

Lemma load_ref_levels_saved
    (kv : Z * option (gmap string pydecimal.Decimal)) (st : BotState) :
  load_ref_levels Decimal_ctor
    (pretty (fst kv),
     match snd kv with
     | Some v =>
         if bool_decide (v = ∅) then JNull
         else JObj (map (fun pkv : string * pydecimal.Decimal =>
                           (fst pkv, JStr (Decimal_str (snd pkv))))
                        (map_to_list v))
     | None => JNull
     end) st
  = Cont (set_ref_levels (put keep_levels kv (ref_levels st)) st).
Proof.
  unfold load_ref_levels, put, keep_levels. simpl.
  rewrite py_int_pretty.
  destruct kv as [k [v |]]; simpl; [| by destruct st].
  case_bool_decide as Hv; simpl; [by destruct st |].
  rewrite load_levels_dict_saved.
  destruct (map_to_list v) as [| x l] eqn:Hl; [| done].
  by apply map_to_list_empty_iff in Hl.
Qed.

Lemma load_eligible_time_saved (kv : Z * option pydatetime.datetime)
    (st : BotState) :
  load_eligible_time fromisoformat
    (pretty (fst kv),
     match snd kv with
     | Some v => JStr (isoformat v)
     | None => JNull
     end) st
  = Cont (set_session_trade_eligible_time
            (put keep_time kv (session_trade_eligible_time st)) st).
Proof.
  unfold load_eligible_time, put, keep_time. simpl.
  rewrite py_int_pretty.
  destruct kv as [k [t |]]; simpl; [| by destruct st].
  rewrite (bool_decide_eq_false_2 _ (iso_nonempty t)). simpl.
  by rewrite iso_round_trip.
Qed.

Lemma load_fetch_attempted_saved (kv : Z * bool) (st : BotState) :
  load_fetch_attempted (pretty (fst kv), JBool (snd kv)) st
  = Cont (set_fetch_attempted (put Some kv (fetch_attempted st)) st).
Proof.
  unfold load_fetch_attempted, put. simpl. by rewrite py_int_pretty.
Qed.


Lemma load_restore_doc (v0 tt at' rl el fa : json) (st : BotState) :
  load_restore Decimal_ctor fromisoformat
    [ ("last_reset_date"%string, v0); ("trades_taken"%string, tt);
      ("active_trades"%string, at'); ("ref_levels"%string, rl);
      ("session_trade_eligible_time"%string, el);
      ("fetch_attempted"%string, fa) ] st
  = bind (match items tt with
          | Some l => for_each load_trades_taken l st
          | None => Exn st
          end) (fun st1 =>
    bind (match iter at' with
          | Some l => for_each (load_active_trade Decimal_ctor) l st1
          | None => Exn st1
          end) (fun st2 =>
    bind (match items rl with
          | Some l => for_each (load_ref_levels Decimal_ctor) l st2
          | None => Exn st2
          end) (fun st3 =>
    bind (match items el with
          | Some l => for_each (load_eligible_time fromisoformat) l st3
          | None => Exn st3
          end) (fun st4 =>
    match items fa with
    | Some l => for_each load_fetch_attempted l st4
    | None => Exn st4
    end)))).
Proof. reflexivity. Qed.

Lemma for_each_active_trades (l : list ActiveTrade) :
  forall st,
    for_each (load_active_trade Decimal_ctor)
      (map (fun t : ActiveTrade =>
              JObj [ ("side"%string, JStr (side t));
                     ("tp"%string, JStr (Decimal_str (tp t)));
                     ("sl"%string, JStr (Decimal_str (sl t)));
                     ("sess_name"%string, JStr (sess_name t));
                     ("cutoff_h"%string, JInt (cutoff_h t));
                     ("sess_id"%string, JInt (sess_id t));
                     ("entry_price"%string, JStr (Decimal_str (entry_price t))) ])
           l) st
    = Cont (set_active_trades (active_trades st ++ l) st).
Proof.
  induction l as [| t l IH]; intros st; simpl for_each.
  - rewrite app_nil_r. by destruct st.
  - rewrite load_active_trade_saved. simpl bind. rewrite IH. simpl.
    by rewrite <- app_assoc.
Qed.

Lemma init_zero_lookup (ids : list Z) (sid : Z) :
  let z := init_session_maps (BotState_new None) ids in
  trades_taken z !! sid
  = (if bool_decide (sid ∈ ids) then Some SessionTradeState_default else None)
  /\ ref_levels z !! sid = (if bool_decide (sid ∈ ids) then Some None else None)
  /\ session_trade_eligible_time z !! sid
     = (if bool_decide (sid ∈ ids) then Some None else None)
  /\ fetch_attempted z !! sid
     = (if bool_decide (sid ∈ ids) then Some false else None).
Proof.
  cbv zeta.
  destruct (init_session_maps_lookup ids sid (BotState_new None))
    as (-> & -> & -> & -> & _).
  simpl. by rewrite !lookup_empty.
Qed.

Lemma restored_map {V W : Type} (f : V -> option W) (g : V -> W)
    (m : gmap Z V) (m0 : gmap Z W) (ids : list Z) (zero : W) :
  (forall k, is_Some (m !! k) <-> k ∈ ids) ->
  (forall k, m0 !! k = if bool_decide (k ∈ ids) then Some zero else None) ->
  (forall k v, m !! k = Some v ->
     match f v with Some w => w = g v | None => g v = zero end) ->
  fold_left (fun acc kv => put f kv acc) (map_to_list m) m0 = g <$> m.
Proof.
  intros Hdom H0 Hf. apply map_eq. intros k.
  unfold put. rewrite fold_insert_map_to_list, lookup_fmap.
  destruct (m !! k) as [v |] eqn:Hk; simpl.
  - specialize (Hf k v Hk). destruct (f v) as [w |]; [by subst |].
    rewrite H0, bool_decide_eq_true_2; [by rewrite Hf |].
    apply Hdom. by rewrite Hk.
  - rewrite H0, bool_decide_eq_false_2; [done |].
    intros Hin. apply Hdom in Hin. rewrite Hk in Hin. by destruct Hin.
Qed.


(** X18. A state saved and loaded again on the same day comes back as it
    was, except for what [save] does not write: provided the document is
    read back as written, the state is dated today, its maps of counters,
    levels, eligibility times and fetch flags have exactly the configured
    sessions as keys and no level dict is empty, [load] returns the same
    date, counters, active trades, levels, eligibility times and fetch
    flags, with [scanning_started] cleared for every session and
    [reconnect_count] at zero.  The conversions are assumed to round-trip:
    [Decimal(str(d)) == d], [fromisoformat(t.isoformat()) == t], and
    [isoformat] never gives the empty string. *)
Theorem save_load_round_trip (ids : list Z) (today_str : string) (st : BotState) :
  last_reset_date st = Some today_str ->
  complete_for ids st ->
  levels_nonempty st ->
  load Decimal_ctor fromisoformat ids today_str
    (Doc (save Decimal_str isoformat st))
  = Some (reloaded ids st).
Proof.
  intros Hdate Hdom Hlv.
  assert (Hd_tt : forall k, is_Some (trades_taken st !! k) <-> k ∈ ids)
    by (intros k; apply (Hdom k)).
  assert (Hd_rl : forall k, is_Some (ref_levels st !! k) <-> k ∈ ids)
    by (intros k; apply (Hdom k)).
  assert (Hd_el : forall k, is_Some (session_trade_eligible_time st !! k)
                            <-> k ∈ ids)
    by (intros k; apply (Hdom k)).
  assert (Hd_fa : forall k, is_Some (fetch_attempted st !! k) <-> k ∈ ids)
    by (intros k; apply (Hdom k)).
  unfold load, save. rewrite Hdate.
  change (date_matches _ today_str) with (bool_decide (today_str = today_str)).
  rewrite bool_decide_eq_true_2 by done.
  rewrite load_restore_doc. cbn [items iter].
  set (z := init_session_maps (BotState_new None) ids).
  set (st0 := set_last_reset_date (Some today_str) z).
  (* counters *)
  rewrite (for_each_lens trades_taken set_trades_taken (put Some)
             load_trades_taken
             (fun kv : Z * SessionTradeState =>
                (pretty (fst kv),
                 JObj [ ("count"%string, JInt (count (snd kv)));
                        ("directions"%string,
                          JArr (map JStr (directions (snd kv)))) ]))
             (fun kv m => is_Some (m !! fst kv)));
    [| done | done | by intros [] | intros; by apply load_trades_taken_saved
     | intros x y m Hx; unfold put; simpl; by apply is_Some_insert_mono | ].
  2:{ intros [k c] Hin. apply elem_of_map_to_list in Hin. simpl.
      destruct (init_zero_lookup ids k) as (Hz & _). fold z in Hz.
      rewrite Hz, bool_decide_eq_true_2; [done |].
      apply Hd_tt. by rewrite Hin. }
  change (trades_taken st0) with (trades_taken z).
  rewrite (restored_map Some id (trades_taken st) (trades_taken z) ids
             SessionTradeState_default), map_fmap_id;
    [| exact Hd_tt
     | intros k; destruct (init_zero_lookup ids k) as (Hq & _); exact Hq
     | done].
  cbn [bind].
  (* active trades *)
  rewrite for_each_active_trades. cbn [bind].
  (* reference levels *)
  rewrite (for_each_lens ref_levels set_ref_levels (put keep_levels)
             (load_ref_levels Decimal_ctor)
             (fun kv : Z * option (gmap string pydecimal.Decimal) =>
                (pretty (fst kv),
                 match snd kv with
                 | Some v =>
                     if bool_decide (v = ∅) then JNull
                     else JObj (map (fun pkv : string * pydecimal.Decimal =>
                                       (fst pkv, JStr (Decimal_str (snd pkv))))
                                    (map_to_list v))
                 | None => JNull
                 end))
             (fun _ _ => True));
    [| done | done | by intros [] | intros; by apply load_ref_levels_saved
     | done | done].
  cbn [bind]. simpl ref_levels.
  rewrite (restored_map keep_levels id (ref_levels st) (ref_levels z) ids None),
    map_fmap_id;
    [| exact Hd_rl
     | intros k; destruct (init_zero_lookup ids k) as (_ & Hq & _); exact Hq
     | ].
  2:{ intros k [v |] Hk; simpl; [| done].
      case_bool_decide as Hv; [| done]. by destruct (Hlv k v Hk). }
  (* eligibility times *)
  rewrite (for_each_lens session_trade_eligible_time
             set_session_trade_eligible_time (put keep_time)
             (load_eligible_time fromisoformat)
             (fun kv : Z * option pydatetime.datetime =>
                (pretty (fst kv),
                 match snd kv with
                 | Some v => JStr (isoformat v)
                 | None => JNull
                 end))
             (fun _ _ => True));
    [| done | done | by intros [] | intros; by apply load_eligible_time_saved
     | done | done].
  cbn [bind]. simpl session_trade_eligible_time.
  rewrite (restored_map keep_time id (session_trade_eligible_time st)
             (session_trade_eligible_time z) ids None), map_fmap_id;
    [| exact Hd_el
     | intros k; destruct (init_zero_lookup ids k) as (_ & _ & Hq & _); exact Hq
     | by intros k [v |] Hk].
  (* fetch flags *)
  rewrite (for_each_lens fetch_attempted set_fetch_attempted (put Some)
             load_fetch_attempted
             (fun kv : Z * bool => (pretty (fst kv), JBool (snd kv)))
             (fun _ _ => True));
    [| done | done | by intros [] | intros; by apply load_fetch_attempted_saved
     | done | done].
  simpl fetch_attempted.
  rewrite (restored_map Some id (fetch_attempted st) (fetch_attempted z) ids
             false), map_fmap_id;
    [| exact Hd_fa
     | intros k; destruct (init_zero_lookup ids k) as (_ & _ & _ & Hq); exact Hq
     | done].
  f_equal. unfold reloaded, st0.
  destruct (init_session_maps_frame ids (BotState_new None)) as (_ & Ha & Hr).
  fold z in Ha, Hr.
  unfold set_fetch_attempted, set_session_trade_eligible_time, set_ref_levels,
    set_active_trades, set_trades_taken, set_last_reset_date.
  cbn [last_reset_date trades_taken active_trades ref_levels
       session_trade_eligible_time fetch_attempted scanning_started
       reconnect_count].
  rewrite Ha, Hr, Hdate. reflexivity.
Qed.

End roundtrip.

Section roundtrip_witness.
Import pyjson state.

Lemma coded_Decimal_round_trip (d : pydecimal.Decimal) :
  coded_Decimal (JStr (coded_Decimal_str d)) = Some d.
Proof.
  unfold coded_Decimal, coded_Decimal_str.
  rewrite py_int_pretty. apply decode_encode.
Qed.

Lemma coded_iso_round_trip (t : pydatetime.datetime) :
  coded_fromisoformat (JStr (coded_isoformat t)) = Some t.
Proof.
  unfold coded_fromisoformat, coded_isoformat.
  rewrite py_int_pretty, decode_encode. by destruct t.
Qed.

Lemma coded_iso_nonempty (t : pydatetime.datetime) :
  coded_isoformat t <> EmptyString.
Proof.
  unfold coded_isoformat. intros H.
  pose proof (py_int_pretty
                (Z.pos (encode (pydatetime.ordinal t, pydatetime.hour t,
                                pydatetime.minute t, pydatetime.second t,
                                pydatetime.microsecond t)))) as Hp.
  rewrite H in Hp. discriminate.
Qed.

Lemma singleton_keys {V : Type} (k sid : Z) (v : V) :
  is_Some (({[ k := v ]} : gmap Z V) !! sid) <-> sid ∈ [k].
Proof.
  rewrite list_elem_of_singleton.
  destruct (decide (sid = k)) as [-> | Hne].
  - rewrite lookup_singleton_eq. split; [done | by eexists].
  - rewrite lookup_singleton_ne by done. split; [by intros [] | done].
Qed.

Lemma save_load_round_trip_witness :
  load coded_Decimal coded_fromisoformat [22] "2025-01-02"
    (Doc (save coded_Decimal_str coded_isoformat sample_saved_state))
  = Some (reloaded [22] sample_saved_state).
Proof.
  apply (save_load_round_trip coded_Decimal coded_Decimal_str
           coded_fromisoformat coded_isoformat coded_Decimal_round_trip
           coded_iso_round_trip coded_iso_nonempty).
  - reflexivity.
  - intros sid. simpl. repeat split; apply singleton_keys.
  - intros sid d. simpl.
    destruct (decide (sid = 22)) as [-> | Hne].
    + rewrite lookup_singleton_eq. intros [= <-].
      unfold main.levels_dict. apply insert_non_empty.
    + by rewrite lookup_singleton_ne.
Defined.

End roundtrip_witness.

(** ** A state file of another day *)

Section other_day_facts.
Import pyjson state.

(** X19. A state saved on one day and loaded on another is discarded: if
    the saved state's date is not the date of the load (or is unset, as in
    a state that [load] returned for a stale file), [load] on the saved
    document returns the zeroed, undated state, whatever the saved state
    held. *)
Theorem save_then_load_another_day Decimal_ctor Decimal_str fromisoformat
    isoformat (ids : list Z) (today_str : string) (st : BotState) :
  last_reset_date st <> Some today_str ->
  load Decimal_ctor fromisoformat ids today_str
    (Doc (save Decimal_str isoformat st))
  = Some (init_session_maps (BotState_new None) ids).
Proof.
  intros Hd. unfold load, save.
  destruct (last_reset_date st) as [d |].
  - change (date_matches _ today_str) with (bool_decide (d = today_str)).
    rewrite bool_decide_eq_false_2; [done | congruence].
  - reflexivity.
Qed.

Lemma save_then_load_another_day_witness :
  load coded_Decimal coded_fromisoformat [22] "2025-01-03"
    (Doc (save coded_Decimal_str coded_isoformat sample_saved_state))
  = Some (init_session_maps (BotState_new None) [22]).
Proof.
  apply save_then_load_another_day. simpl. discriminate.
Defined.

End other_day_facts.

(** ** From loaded levels to the first entry *)

Section entry_delay_facts.
Import pydatetime state main.

(** X20. When a loader pass fetches levels for a session (hour of the day
    at or after a valid start hour, no levels yet, no fetch attempted), it
    stores them, marks the session as fetched and scanning, and sets the
    eligibility time to the start hour plus the entry delay of 5 minutes
    on the same day; counters and trades are untouched, and on the
    resulting state the entry loop opens nothing for that session at any
    instant before that time, whatever the price. *)
Theorem levels_loaded_then_entry_delay (now_la : datetime)
    (hl : pydecimal.Decimal * pydecimal.Decimal) (s_id : Z)
    (cfg : config.SessionConfig) (st : BotState) :
  0 <= config.start_hour cfg <= hour now_la -> hour now_la < 24 ->
  mjoin (ref_levels st !! s_id) = None ->
  default false (fetch_attempted st !! s_id) = false ->
  exists st',
    check_levels_session now_la (Fetched (Some hl)) s_id cfg st = LevelsNext st'
    /\ ref_levels st' !! s_id = Some (Some (levels_dict hl))
    /\ session_trade_eligible_time st' !! s_id
       = Some (Some (eligible_from now_la cfg))
    /\ fetch_attempted st' !! s_id = Some true
    /\ scanning_started st' !! s_id = Some true
    /\ trades_taken st' = trades_taken st
    /\ active_trades st' = active_trades st
    /\ (forall c_close now_tick curr_h order w,
          to_us now_tick < to_us (eligible_from now_la cfg) ->
          entries_state
            (process_entry_session c_close now_tick curr_h order s_id cfg st' w)
          = st').
Proof.
  intros [H0 Hstart] H24 Hlv Hfa.
  unfold check_levels_session. cbv zeta.
  destruct (Z.ltb_spec (hour now_la) (config.start_hour cfg)); [lia |].
  rewrite Hlv, Hfa.
  rewrite bool_decide_eq_false_2 by (by intros [x Hx]).
  simpl. rewrite lookup_insert_eq.
  rewrite bool_decide_eq_false_2
    by (unfold levels_dict; apply insert_non_empty).
  rewrite replace_hm_valid by (unfold config.entry_delay_minutes; lia).
  eexists. split; [reflexivity |]. simpl.
  split; [apply lookup_insert_eq |]. split; [apply lookup_insert_eq |].
  split; [apply lookup_insert_eq |]. split; [apply lookup_insert_eq |].
  split; [done |]. split; [done |].
  intros c_close now_tick curr_h order w Hearly.
  unfold process_entry_session. simpl.
  destruct (risk_management.is_in_session_window cfg curr_h); simpl; [| done].
  rewrite lookup_insert_eq. simpl.
  unfold risk_management.is_trade_eligible.
  destruct (trades_taken st !! s_id) as [c |]; simpl; [| done].
  destruct (2 <=? count c); simpl; [done |].
  unfold ltb, eligible_from in *. apply Z.ltb_lt in Hearly.
  by rewrite Hearly.
Qed.

Lemma levels_loaded_then_entry_delay_witness :
  exists st',
    check_levels_session t2301
      (Fetched (Some (pydecimal.of_Z 100, pydecimal.of_Z 90))) 22 London
      (init_session_maps (BotState_new (Some "2025-01-02"%string)) [22])
    = LevelsNext st'
    /\ session_trade_eligible_time st' !! 22 = Some (Some t2305).
Proof.
  destruct (levels_loaded_then_entry_delay t2301
              (pydecimal.of_Z 100, pydecimal.of_Z 90) 22 London
              (init_session_maps (BotState_new (Some "2025-01-02"%string)) [22]))
    as (st' & H1 & _ & H2 & _).
  - simpl. lia.
  - simpl. lia.
  - vm_compute. reflexivity.
  - vm_compute. reflexivity.
  - exists st'. by split.
Defined.

End entry_delay_facts.

(** ** What the entry loop appends *)

Section entries_append_facts.
Import state main.

Lemma same_outside_trades_refl (st : BotState) : same_outside_trades st st.
Proof. by repeat split. Qed.






End entries_append_facts.

(** ** Initialising the session maps *)

Section init_facts.
Import state.

Lemma BotState_ext (a b : BotState) :
  last_reset_date a = last_reset_date b ->
  trades_taken a = trades_taken b ->
  active_trades a = active_trades b ->
  ref_levels a = ref_levels b ->
  session_trade_eligible_time a = session_trade_eligible_time b ->
  fetch_attempted a = fetch_attempted b ->
  scanning_started a = scanning_started b ->
  reconnect_count a = reconnect_count b ->
  a = b.
Proof. destruct a, b. simpl. by intros -> -> -> -> -> -> -> ->. Qed.

Lemma fresh_twice {V : Type} (old : option V) (zero : V) (b : bool) :
  match
    match old with
    | Some x => Some x
    | None => if b then Some zero else None
    end
  with
  | Some x => Some x
  | None => if b then Some zero else None
  end
  = match old with
    | Some x => Some x
    | None => if b then Some zero else None
    end.
Proof. destruct old; [done |]. by destruct b. Qed.

(** X22. [init_session_maps] never overwrites: every entry a map already
    has is kept, a listed session without an entry gets the zero entry, no
    other key is added, and the date, the trade list and the reconnect
    counter are untouched; running it a second time changes nothing. *)
Theorem init_session_maps_idempotent (st : BotState) (ids : list Z) :
  init_session_maps (init_session_maps st ids) ids = init_session_maps st ids
  /\ (forall sid c, trades_taken st !! sid = Some c ->
        trades_taken (init_session_maps st ids) !! sid = Some c)
  /\ (forall sid, trades_taken st !! sid = None ->
        trades_taken (init_session_maps st ids) !! sid
        = if bool_decide (sid ∈ ids) then Some SessionTradeState_default
          else None)
  /\ last_reset_date (init_session_maps st ids) = last_reset_date st
  /\ active_trades (init_session_maps st ids) = active_trades st
  /\ reconnect_count (init_session_maps st ids) = reconnect_count st.
Proof.
  destruct (init_session_maps_frame ids st) as (F1 & F2 & F3).
  split; [| split; [| split; [| by repeat split]]].
  - destruct (init_session_maps_frame ids (init_session_maps st ids))
      as (G1 & G2 & G3).
    apply BotState_ext; try done;
      apply map_eq; intros sid;
      destruct (init_session_maps_lookup ids sid (init_session_maps st ids))
        as (A1 & A2 & A3 & A4 & A5);
      destruct (init_session_maps_lookup ids sid st)
        as (B1 & B2 & B3 & B4 & B5).
    + by rewrite A1, B1, fresh_twice.
    + by rewrite A2, B2, fresh_twice.
    + by rewrite A3, B3, fresh_twice.
    + by rewrite A4, B4, fresh_twice.
    + by rewrite A5, B5, fresh_twice.
  - intros sid c Hc.
    destruct (init_session_maps_lookup ids sid st) as (-> & _). by rewrite Hc.
  - intros sid Hc.
    destruct (init_session_maps_lookup ids sid st) as (-> & _). by rewrite Hc.
Qed.

End init_facts.

(** ** Instances *)

Lemma process_exits_settles_witness :
  23 < state.cutoff_h
         (opened_trade (strategy.mk_EntrySignal "LONG" (pydecimal.of_Z 101)) 22
            London_late (pydecimal.of_Z 101) (pydecimal.of_digits 1012 1)
            (pydecimal.of_digits 1005 1)).
Proof.
  refine (proj1 (proj1 (process_exits_settles (pydecimal.of_Z 101) 23
                          sample_saved_state) _ _)).
  vm_compute. left.
Defined.

Lemma login_retries_witness :
  api_client_login.revalidate_session (Some true) (fun attempt => false)
  = ([], true).
Proof.
  destruct (login_retries (fun attempt => false)) as (_ & _ & Hre).
  by apply (proj1 (Hre (Some true))).
Defined.


Lemma init_session_maps_idempotent_witness :
  state.trades_taken (state.init_session_maps sample_saved_state [22; 7]) !! 22
  = Some (state.mk_SessionTradeState 1 ["LONG"%string]).
Proof.
  destruct (init_session_maps_idempotent sample_saved_state [22; 7])
    as (_ & Hkeep & _).
  apply Hkeep. reflexivity.
Defined.
